(** * learncube-reports: the session normalizer and the report engines

    A shallow embedding of [src/main.js] (and of the older variant of the
    hour-count builder kept next to it) together with the properties the
    specification states about them.

    Conventions of the embedding.
    - A raw CSV row is a [list string]; reading a column past the end of the
      row gives [undefined], modelled by [None].
    - Numbers stored in the normalized model are integers or [NaN]
      ([Math.round] and [parseInt] produce nothing else): type [jsnum].
      The net counts and totals of the hour-count report, the attendance
      rate of the cross-course overview and the hours of an interval before
      [toFixed(2)] are computed in double precision: type [double], every
      operation rounded to the nearest double. The other fractional
      quantities (the rates and hours of the student reports) are exact
      rationals [Q], or [NaN]: type [jsfrac]. A text made by [toFixed(2)] is
      kept as the number it shows.
    - Counters and durations, whole numbers, enter that arithmetic as they
      are.
    - A JS object used as a map is an association list in insertion order;
      the special enumeration order of integer-like keys is outside the
      model. The source looks a key up through the prototype chain: for a
      key that names a property every object inherits ([inherited]) the
      student report throws a [TypeError], which the model keeps; the
      models of the hour-count report and of the course overview are those
      of the source on data where no teacher username and no course id is
      such a name.
    - The host's [Date] constructor and [parseFloat] are parameters of the
      development ([Date_ms], [parseFloat]); [isoDate] and [no_number] are
      concrete instances used in the examples.
    - A report builder returns its data rows as lists of cells; the header
      line and the final [join] into text are left out. *)

From Stdlib Require Import ZArith QArith Qround Qabs Qpower List String Ascii Bool.
From Stdlib Require Import Lia Lqa.
From Stdlib Require Import Permutation DecimalString.
Import ListNotations.

Open Scope Z_scope.

(* ================================================================= *)
(** ** JavaScript values *)

(** A number held by the model: an integer or [NaN]. *)
Inductive jsnum : Type :=
| NaN : jsnum
| Int : Z -> jsnum.

(** [a < b] and [a > b] on numbers: false as soon as one side is [NaN]. *)
Definition js_lt (a b : jsnum) : bool :=
  match a, b with
  | Int x, Int y => x <? y
  | _, _ => false
  end.

Definition js_gt (a b : jsnum) : bool := js_lt b a.

(** [a === b] on numbers ([NaN] is equal to nothing). *)
Definition js_eqb (a b : jsnum) : bool :=
  match a, b with
  | Int x, Int y => x =? y
  | _, _ => false
  end.

(** A fractional number: a rational or [NaN]. *)
Inductive jsfrac : Type :=
| FNaN : jsfrac
| Frac : Q -> jsfrac.

Definition Qlt_bool (x y : Q) : bool := negb (Qle_bool y x).

(** [x / k] for a stored number [x] and a non-zero constant [k]. *)
Definition js_div (x : jsnum) (k : Z) : jsfrac :=
  match x with
  | NaN => FNaN
  | Int z => Frac (inject_Z z / inject_Z k)
  end.

(** [f < w] for a setting [w]. *)
Definition frac_lt (f : jsfrac) (w : Q) : bool :=
  match f with
  | FNaN => false
  | Frac q => Qlt_bool q w
  end.

(** [Math.round]: the nearest integer, ties towards plus infinity. *)
Definition Math_round (q : Q) : Z := Qfloor (q + (1 # 2)).

Definition Math_round_frac (f : jsfrac) : jsnum :=
  match f with
  | FNaN => NaN
  | Frac q => Int (Math_round q)
  end.

(** [x.toFixed(2)] read back as a number: the sign is split off and the
    magnitude is rounded to the nearest hundredth, ties upwards. *)
Definition toFixed2 (q : Q) : Q :=
  if Qlt_bool q 0
  then - (inject_Z (Qfloor ((- q) * 100 + (1 # 2))) / 100)
  else inject_Z (Qfloor (q * 100 + (1 # 2))) / 100.

Definition toFixed2_frac (f : jsfrac) : jsfrac :=
  match f with
  | FNaN => FNaN
  | Frac q => Frac (toFixed2 q)
  end.

(* ----------------------------------------------------------------- *)
(** *** Double precision

    The arithmetic of JS numbers, where the reports compute with values
    that are not integers: every operation gives the double nearest to the
    exact result (ties to the even mantissa), an infinity on overflow.
    A finite double is kept as its exact rational value, in lowest terms.
    The sign of zero is not kept; it shows in no report. *)

Inductive double : Type :=
| DNaN : double
| DInf : bool -> double
| DFin : Q -> double.

(** [2 ^ e] *)
Definition pow2 (e : Z) : Q := (2 # 1) ^ e.

(** The integer [k] with [2^k <= q < 2^(k+1)], for a positive [q]. *)
Definition ilog2 (q : Q) : Z :=
  let k := Z.log2 (Qnum q) - Z.log2 (Zpos (Qden q)) in
  if Qle_bool (pow2 k) q then k else k - 1.

(** The nearest integer, ties to the even one. *)
Definition round_half_even (x : Q) : Z :=
  let f := Qfloor x in
  match (x - inject_Z f ?= 1 # 2)%Q with
  | Lt => f
  | Gt => f + 1
  | Eq => if Z.even f then f else f + 1
  end.

(** The exponent of the last place of the double nearest to [q]: 53
    significant bits, and no place below [2^-1074]. *)
Definition ulp_exponent (q : Q) : Z := Z.max (-1074) (ilog2 (Qabs q) - 52).

(** Rounding to the nearest multiple of the last place, ties to even. *)
Definition round64 (q : Q) : Q :=
  if Qeq_bool q 0 then 0%Q
  else
    let e := ulp_exponent q in
    Qred (inject_Z (round_half_even (q / pow2 e)) * pow2 e).

(** The double of a real value: a magnitude that rounds to [2^1024] or
    more overflows. *)
Definition binary64 (q : Q) : double :=
  let r := round64 q in
  if Qle_bool (pow2 1024) (Qabs r) then DInf (Qlt_bool r 0) else DFin r.

Definition dneg (x : double) : double :=
  match x with
  | DNaN => DNaN
  | DInf s => DInf (negb s)
  | DFin q => DFin (Qred (- q))
  end.

(** [x + y] *)
Definition dadd (x y : double) : double :=
  match x, y with
  | DFin a, DFin b => binary64 (a + b)
  | DNaN, _ | _, DNaN => DNaN
  | DInf s, DInf s' => if Bool.eqb s s' then DInf s else DNaN
  | DInf s, DFin _ | DFin _, DInf s => DInf s
  end.

(** [x - y] *)
Definition dsub (x y : double) : double := dadd x (dneg y).

(** [x * y] *)
Definition dmul (x y : double) : double :=
  match x, y with
  | DFin a, DFin b => binary64 (a * b)
  | DNaN, _ | _, DNaN => DNaN
  | DInf s, DInf s' => DInf (xorb s s')
  | DInf s, DFin b | DFin b, DInf s =>
      if Qeq_bool b 0 then DNaN else DInf (xorb s (Qlt_bool b 0))
  end.

(** [x / y]; a zero divisor counts as [+0]. *)
Definition ddiv (x y : double) : double :=
  match x, y with
  | DFin a, DFin b =>
      if Qeq_bool b 0
      then if Qeq_bool a 0 then DNaN else DInf (Qlt_bool a 0)
      else binary64 (a / b)
  | DNaN, _ | _, DNaN => DNaN
  | DInf _, DInf _ => DNaN
  | DInf s, DFin b => DInf (xorb s (Qlt_bool b 0))
  | DFin _, DInf _ => DFin 0
  end.

(** An integer counter: the reports count far below [2^53], where every
    integer is a double. *)
Definition d_of_Z (z : Z) : double := DFin (inject_Z z).

(** A stored number in arithmetic. *)
Definition d_of_jsnum (d : jsnum) : double :=
  match d with
  | NaN => DNaN
  | Int z => d_of_Z z
  end.

(** [x.toFixed(2)] of a double, kept as the number the text shows; a
    quotient of finite numbers by a non-zero constant is [NaN] or finite
    on the time values of a [Date]. *)
Definition toFixed2_double (x : double) : jsfrac :=
  match x with
  | DFin q => Frac (toFixed2 q)
  | _ => FNaN
  end.

(** [Math.round(x)] *)
Definition dround (x : double) : double :=
  match x with
  | DFin q => DFin (inject_Z (Math_round q))
  | other => other
  end.

(** [parseFloat(x.toFixed(2))]: below [10^21] the text has two decimals,
    from there on it is the text of [x] itself. *)
Definition parseFloat_toFixed2 (x : double) : double :=
  match x with
  | DFin q =>
      if Qlt_bool (Qabs q) (inject_Z (10 ^ 21)) then binary64 (toFixed2 q)
      else DFin q
  | other => other
  end.

(** A cell of a raw row, or a property that may be [undefined]. *)
Definition cell := option string.

Definition col (row : list string) (i : nat) : cell := nth_error row i.

(** Truthiness of a string-or-undefined value: [undefined] and [''] are
    falsy. *)
Definition truthy (c : cell) : bool :=
  match c with
  | None => false
  | Some s => negb (String.eqb s EmptyString)
  end.

(** [c || ''] *)
Definition or_empty (c : cell) : string :=
  match c with
  | None => EmptyString
  | Some s => s
  end.

(** [a === b] for a string [a] and a possibly undefined [b]. *)
Definition str_eq_cell (a : string) (b : cell) : bool :=
  match b with
  | None => false
  | Some s => String.eqb a s
  end.

(** [names.includes(x)] for a string [x]. *)
Definition includes (names : list cell) (x : string) : bool :=
  existsb (str_eq_cell x) names.

(* ----------------------------------------------------------------- *)
(** *** String helpers of the host *)

Definition is_space (c : ascii) : bool :=
  let n := nat_of_ascii c in
  (Nat.eqb n 32 || (Nat.leb 9 n && Nat.leb n 13))%bool.

Fixpoint trim_left (s : string) : string :=
  match s with
  | String c r => if is_space c then trim_left r else s
  | EmptyString => EmptyString
  end.

Fixpoint rev_string (s acc : string) : string :=
  match s with
  | EmptyString => acc
  | String c r => rev_string r (String c acc)
  end.

(** [s.trim()] (ASCII white space). *)
Definition trim (s : string) : string :=
  rev_string (trim_left (rev_string (trim_left s) EmptyString)) EmptyString.

Definition lower_ascii (c : ascii) : ascii :=
  let n := nat_of_ascii c in
  if (Nat.leb 65 n && Nat.leb n 90)%bool then ascii_of_nat (n + 32) else c.

(** [s.toLowerCase()] (ASCII letters). *)
Fixpoint toLowerCase (s : string) : string :=
  match s with
  | EmptyString => EmptyString
  | String c r => String (lower_ascii c) (toLowerCase r)
  end.

(** [s.replace(' ', 'T')]: only the first blank is replaced. *)
Fixpoint replace_space_T (s : string) : string :=
  match s with
  | EmptyString => EmptyString
  | String c r =>
      if Ascii.eqb c " "%char then String "T"%char r
      else String c (replace_space_T r)
  end.

Definition digit_of (c : ascii) : option Z :=
  let n := Z.of_nat (nat_of_ascii c) in
  if ((48 <=? n) && (n <=? 57))%bool then Some (n - 48) else None.

Fixpoint digits_prefix (s : string) (acc : option Z) : option Z :=
  match s with
  | EmptyString => acc
  | String c r =>
      match digit_of c with
      | None => acc
      | Some d =>
          digits_prefix r (Some (10 * match acc with Some a => a | None => 0 end + d))
      end
  end.

(** [parseInt(c, 10)]: leading white space, an optional sign, then the
    longest run of digits; [NaN] without a digit. *)
Definition parseInt (c : cell) : jsnum :=
  match c with
  | None => NaN
  | Some s =>
      match trim_left s with
      | String "-"%char r =>
          match digits_prefix r None with
          | Some n => Int (- n)
          | None => NaN
          end
      | String "+"%char r =>
          match digits_prefix r None with
          | Some n => Int n
          | None => NaN
          end
      | r =>
          match digits_prefix r None with
          | Some n => Int n
          | None => NaN
          end
      end
  end.

(* ================================================================= *)
(** ** 1. Helper functions *)

(** [parseBoolean(v)]: [v?.trim().toLowerCase() === 'true']. *)
Definition parseBoolean (v : cell) : bool :=
  match v with
  | None => false
  | Some s => String.eqb (toLowerCase (trim s)) "true"
  end.

(** [clampTardiness(raw, d)]. *)
Definition clampTardiness (raw d : jsnum) : jsnum :=
  let MIN := Int (-3600) in
  let MAX := d in
  if js_lt raw MIN then MIN
  else if js_gt raw MAX then MAX
  else raw.

Section WithDate.

(** [Date_ms s] is the time value, in milliseconds, of [new Date(s)];
    [None] stands for an invalid date. *)
Variable Date_ms : string -> option Z.

(** [timestampDiff(a, b)]: seconds from [a] to [b]. *)
Definition timestampDiff (a b : cell) : jsnum :=
  if (negb (truthy a) || negb (truthy b))%bool then Int 0
  else
    match Date_ms (replace_space_T (or_empty a)),
          Date_ms (replace_space_T (or_empty b)) with
    | Some dateA, Some dateB =>
        Int (Math_round (inject_Z (dateB - dateA) / 1000))
    | _, _ => NaN
    end.

End WithDate.

(* ----------------------------------------------------------------- *)
(** *** A concrete date parser for the examples

    [isoDate] reads the shape [YYYY-MM-DDTHH:MM:SS] the source's comments
    name (also with a blank in place of the [T]) and takes it as a time in a
    zone without clock changes; every other string is an invalid date. *)

Definition days_from_civil (y m d : Z) : Z :=
  let y' := if m <=? 2 then y - 1 else y in
  let era := y' / 400 in
  let yoe := y' - era * 400 in
  let mp := if m >? 2 then m - 3 else m + 9 in
  let doy := (153 * mp + 2) / 5 + d - 1 in
  let doe := yoe * 365 + yoe / 4 - yoe / 100 + doy in
  era * 146097 + doe - 719468.

Definition two_digits (a b : ascii) : option Z :=
  match digit_of a, digit_of b with
  | Some x, Some y => Some (10 * x + y)
  | _, _ => None
  end.

Definition isoDate (s : string) : option Z :=
  match list_ascii_of_string s with
  | [y1; y2; y3; y4; c1; m1; m2; c2; d1; d2; c3; h1; h2; c4; n1; n2; c5; s1; s2] =>
      if (Ascii.eqb c1 "-" && Ascii.eqb c2 "-"
          && (Ascii.eqb c3 "T" || Ascii.eqb c3 " ")
          && Ascii.eqb c4 ":" && Ascii.eqb c5 ":")%bool
      then
        match two_digits y1 y2, two_digits y3 y4, two_digits m1 m2,
              two_digits d1 d2, two_digits h1 h2, two_digits n1 n2,
              two_digits s1 s2 with
        | Some yh, Some yl, Some mo, Some da, Some ho, Some mi, Some se =>
            if ((1 <=? mo) && (mo <=? 12) && (1 <=? da) && (da <=? 31)
                && (ho <=? 23) && (mi <=? 59) && (se <=? 59))%bool
            then Some ((days_from_civil (100 * yh + yl) mo da * 86400
                        + ho * 3600 + mi * 60 + se) * 1000)
            else None
        | _, _, _, _, _, _, _ => None
        end
      else None
  | _ => None
  end.

(* ================================================================= *)
(** ** 2. Data model and [processData] *)

(** The teacher object of a class. *)
Record Teacher : Type := mkTeacher {
  t_username : cell;
  t_firstName : cell;
  t_lastName : cell;
  t_attended : bool;
  t_tardiness : jsnum;
  t_cancelled : bool
}.

(** An interval printed with [toFixed(2)], or the empty string ([None]). *)
Definition interval := option jsfrac.

(** A student object of a class. *)
Record Student : Type := mkStudent {
  s_username : cell;
  s_firstName : cell;
  s_lastName : cell;
  s_attended : bool;
  s_tardiness : jsnum;
  s_cancelled : bool;
  s_cancelledBy : string;
  s_cancelledTime : cell;
  s_cancelledInterval : interval;
  s_enrolledTime : cell;
  s_enrolmentInterval : interval;
  s_rating : cell;
  s_feedback : cell
}.

(** A class object; [teacher = None] is the empty object [{}]. *)
Record Class : Type := mkClass {
  scheduledStart : cell;
  scheduledDuration : jsnum;
  actualDuration : jsnum;
  description : string;
  subject : string;
  level : string;
  teacherSummary : string;
  company : cell;
  course_id : cell;
  available_seats : jsnum;
  cancelledBy : string;
  cancelledTime : string;
  cancelledByStudent : bool;
  cancelledByTeacher : bool;
  cancelledByAdmin : bool;
  cancelledInterval : interval;
  teacher : option Teacher;
  students : list Student;
  slug : string
}.

(** [cls.teacher.username], [Boolean(cls.teacher.attended)] and
    [Boolean(cls.teacher.cancelled)]: undefined, false and false on [{}]. *)
Definition teacher_username (cls : Class) : cell :=
  match teacher cls with
  | Some t => t_username t
  | None => None
  end.

Definition teacher_attended (cls : Class) : bool :=
  match teacher cls with
  | Some t => t_attended t
  | None => false
  end.

Definition teacher_cancelled (cls : Class) : bool :=
  match teacher cls with
  | Some t => t_cancelled t
  | None => false
  end.

(** [cls.teacher.tardiness / 60]: [undefined / 60] is [NaN]. *)
Definition teacher_tardiness (cls : Class) : jsnum :=
  match teacher cls with
  | Some t => t_tardiness t
  | None => NaN
  end.

(** The property names every object inherits from [Object.prototype]: a
    lookup [o[k]] finds them in an object that has stored nothing under
    [k]. *)
Definition Object_prototype_keys : list string :=
  ["constructor"; "__defineGetter__"; "__defineSetter__"; "hasOwnProperty";
   "__lookupGetter__"; "__lookupSetter__"; "isPrototypeOf";
   "propertyIsEnumerable"; "toString"; "valueOf"; "__proto__";
   "toLocaleString"]%string.

Definition inherited (k : string) : bool :=
  existsb (String.eqb k) Object_prototype_keys.

(** A JS object used as a map: association list in insertion order;
    assigning to an existing key keeps its place. *)
Section Assoc.

Context {K V : Type}.
Variable eqb : K -> K -> bool.

Fixpoint aget (o : list (K * V)) (k : K) : option V :=
  match o with
  | [] => None
  | (k', v) :: r => if eqb k k' then Some v else aget r k
  end.

Fixpoint aset (o : list (K * V)) (k : K) (v : V) : list (K * V) :=
  match o with
  | [] => [(k, v)]
  | (k', v') :: r =>
      if eqb k k' then (k', v) :: r else (k', v') :: aset r k v
  end.

(** [o[k] || d] for object-valued entries. *)
Definition get_or (o : list (K * V)) (k : K) (d : V) : V :=
  match aget o k with
  | Some v => v
  | None => d
  end.

End Assoc.

(** Objects keyed by strings. *)
Definition object (V : Type) : Type := list (string * V).
Definition obj_get {V : Type} (o : object V) (k : string) : option V :=
  aget String.eqb o k.
Definition obj_set {V : Type} (o : object V) (k : string) (v : V) : object V :=
  aset String.eqb o k v.

(** Property keys and [Set] members that are numbers: [NaN] is the key
    ["NaN"] and a member equal to itself. *)
Definition key_eqb (a b : jsnum) : bool :=
  match a, b with
  | NaN, NaN => true
  | Int x, Int y => x =? y
  | _, _ => false
  end.

Definition js_mul (x : jsnum) (k : Z) : jsnum :=
  match x with
  | NaN => NaN
  | Int z => Int (z * k)
  end.

(** The test [p[9]?.trim().toLowerCase() === 'true'] on a participant row. *)
Definition teacherMarker (p : list string) : bool :=
  match col p 9 with
  | None => false
  | Some v => String.eqb (toLowerCase (trim v)) "true"
  end.

Section Normalizer.

Variable Date_ms : string -> option Z.

(** [(timestampDiff(t, scheduledStart) / 3600).toFixed(2)], or [''] when
    [t] is falsy. *)
Definition interval_to (t : cell) (scheduledStart : cell) : interval :=
  if truthy t
  then Some (toFixed2_double
               (ddiv (d_of_jsnum (timestampDiff Date_ms t scheduledStart))
                     (DFin 3600)))
  else None.

Definition makeStudent (scheduledStart : cell) (scheduledDuration : jsnum)
    (pr : list string) : Student :=
  let enrolledAt := col pr 22 in
  let studentCancelledTime := col pr 14 in
  {| s_username := col pr 4;
     s_firstName := col pr 5;
     s_lastName := col pr 6;
     s_attended := parseBoolean (col pr 10);
     s_tardiness :=
       clampTardiness (timestampDiff Date_ms (col pr 3) (col pr 11))
                      scheduledDuration;
     s_cancelled := parseBoolean (col pr 12);
     s_cancelledBy := or_empty (col pr 13);
     s_cancelledTime := studentCancelledTime;
     s_cancelledInterval := interval_to studentCancelledTime scheduledStart;
     s_enrolledTime := enrolledAt;
     s_enrolmentInterval := interval_to enrolledAt scheduledStart;
     s_rating := col pr 15;
     s_feedback := col pr 16 |}.

Definition makeTeacher (scheduledDuration : jsnum) (teacherRow : list string)
    : Teacher :=
  {| t_username := col teacherRow 4;
     t_firstName := col teacherRow 5;
     t_lastName := col teacherRow 6;
     t_attended := parseBoolean (col teacherRow 10);
     t_tardiness :=
       clampTardiness
         (timestampDiff Date_ms (col teacherRow 3) (col teacherRow 11))
         scheduledDuration;
     t_cancelled := parseBoolean (col teacherRow 12) |}.

(** The body of the [classesData.forEach] callback for a row with a slug:
    the finished class object. *)
Definition makeClass (participantsData : list (list string))
    (slug0 : string) (cs : list string) : Class :=
  let scheduledStart0 := col cs 0 in
  let scheduledDuration0 := timestampDiff Date_ms (col cs 0) (col cs 1) in
  let cancelledBy0 := or_empty (col cs 22) in
  let cancelledTime0 := or_empty (col cs 23) in
  let participantsRows :=
    filter (fun p => str_eq_cell slug0 (col p 2)) participantsData in
  let enrolled := filter (fun p => negb (teacherMarker p)) participantsRows in
  let students0 := map (makeStudent scheduledStart0 scheduledDuration0) enrolled in
  let teacher0 :=
    match find teacherMarker participantsRows with
    | Some teacherRow => Some (makeTeacher scheduledDuration0 teacherRow)
    | None => None
    end in
  let teacherName :=
    match teacher0 with Some t => t_username t | None => None end in
  let studentNames := map s_username students0 in
  let cancelled := truthy (Some cancelledBy0) in
  let byStudent := if cancelled then includes studentNames cancelledBy0 else false in
  let byTeacher := if cancelled then str_eq_cell cancelledBy0 teacherName else false in
  {| scheduledStart := scheduledStart0;
     scheduledDuration := scheduledDuration0;
     actualDuration := js_mul (parseInt (col cs 4)) 60;
     description := or_empty (col cs 9);
     subject := or_empty (col cs 11);
     level := or_empty (col cs 12);
     teacherSummary := or_empty (col cs 14);
     company := col cs 5;
     course_id := col cs 29;
     available_seats := parseInt (col cs 10);
     cancelledBy := cancelledBy0;
     cancelledTime := cancelledTime0;
     cancelledByStudent := byStudent;
     cancelledByTeacher := byTeacher;
     cancelledByAdmin :=
       if cancelled then (negb byStudent && negb byTeacher)%bool else false;
     cancelledInterval :=
       if cancelled then interval_to (Some cancelledTime0) scheduledStart0
       else None;
     teacher := teacher0;
     students := students0;
     slug := slug0 |}.

(** One iteration of [classesData.forEach]: rows without a slug are
    skipped, the others are stored under their slug. *)
Definition processRow (participantsData : list (list string))
    (output : object Class) (cs : list string) : object Class :=
  match col cs 6 with
  | Some slug0 =>
      if truthy (Some slug0)
      then obj_set output slug0 (makeClass participantsData slug0 cs)
      else output
  | None => output
  end.

Definition processData (classesData participantsData : list (list string))
    : object Class :=
  fold_left (processRow participantsData) classesData [].

End Normalizer.

(* ----------------------------------------------------------------- *)
(** *** Raw rows for the examples *)

(** A row of [n] empty columns with the given columns filled in. *)
Fixpoint row_of (n : nat) (i : nat) (cells : list (nat * string)) : list string :=
  match n with
  | O => []
  | S n' =>
      match find (fun c => Nat.eqb (fst c) i) cells with
      | Some c => snd c
      | None => EmptyString
      end :: row_of n' (S i) cells
  end.

Definition column (i : nat) (text : string) : nat * string := (i, text).

Definition class_row (cells : list (nat * string)) : list string :=
  row_of 30 0 cells.

Definition participant_row (cells : list (nat * string)) : list string :=
  row_of 23 0 cells.

(* ================================================================= *)
(** ** 3.1 Teacher hour count report *)

Inductive ClassType : Type := private | group.

(** The value of the [classTypeFilter] radio group. *)
Inductive ClassTypeFilter : Type := only_private | only_group | both.

Record Settings : Type := mkSettings {
  tardinessLimit : Q;
  cancellationWindow : Q;
  penaliseTardiness : bool;
  payLastMinuteCancellation : bool;
  payStudentNoShow : bool;
  studentNoShowRate : Q;
  classTypeFilter : ClassTypeFilter
}.

(** The counters of one bucket. The [group] bucket of the source has no
    [cancelled] property; every access to it is guarded by
    [type === 'private'], so the field stays at 0 there. *)
Record Bucket : Type := mkBucket {
  attended : Z;
  noShow : Z;
  cancelled : Z;
  late : Z;
  studentNoShow : Z
}.

Definition zeroBucket : Bucket := mkBucket 0 0 0 0 0.

(** [durationBuckets]: rounded minutes to the pair of buckets. *)
Definition DurationBuckets : Type := list (jsnum * (Bucket * Bucket)).

Definition bucket_of (pair : Bucket * Bucket) (type : ClassType) : Bucket :=
  match type with
  | private => fst pair
  | group => snd pair
  end.

Definition with_bucket (pair : Bucket * Bucket) (type : ClassType) (b : Bucket)
    : Bucket * Bucket :=
  match type with
  | private => (b, snd pair)
  | group => (fst pair, b)
  end.

(** [classTypeFilter !== 'both' && classTypeFilter !== type] *)
Definition filter_excludes (f : ClassTypeFilter) (type : ClassType) : bool :=
  match f, type with
  | both, _ => false
  | only_private, private => false
  | only_group, group => false
  | _, _ => true
  end.

(** [Math.round(x / 60)] *)
Definition minutes_of (x : jsnum) : jsnum := Math_round_frac (js_div x 60).

(** [cls.available_seats === 1 ? 'private' : 'group'] *)
Definition class_type (cls : Class) : ClassType :=
  if js_eqb (available_seats cls) (Int 1) then private else group.

(** [n > limit] for a rounded number of minutes and a setting. *)
Definition minutes_gt (n : jsnum) (limit : Q) : bool :=
  match n with
  | NaN => false
  | Int z => Qlt_bool limit (inject_Z z)
  end.

Definition incr_attended (b : Bucket) : Bucket :=
  mkBucket (attended b + 1) (noShow b) (cancelled b) (late b) (studentNoShow b).
Definition incr_noShow (b : Bucket) : Bucket :=
  mkBucket (attended b) (noShow b + 1) (cancelled b) (late b) (studentNoShow b).
Definition incr_cancelled (b : Bucket) : Bucket :=
  mkBucket (attended b) (noShow b) (cancelled b + 1) (late b) (studentNoShow b).
Definition incr_late (b : Bucket) : Bucket :=
  mkBucket (attended b) (noShow b) (cancelled b) (late b + 1) (studentNoShow b).
Definition incr_studentNoShow (b : Bucket) : Bucket :=
  mkBucket (attended b) (noShow b) (cancelled b) (late b) (studentNoShow b + 1).

(** [durationsSet.add(d)] *)
Definition set_add (d : jsnum) (s : list jsnum) : list jsnum :=
  if existsb (key_eqb d) s then s else s ++ [d].

(** [students.every((s) => !s.attended)] *)
Definition every_absent (ss : list Student) : bool :=
  forallb (fun s => negb (s_attended s)) ss.

Section HourCount.

Variable Date_ms : string -> option Z.
Variable settings : Settings.

(** The test of step 1a on one student, as [main.js] writes it. *)
Definition lateCancellation (cls : Class) (teacherName : string)
    (student : Student) : bool :=
  (s_cancelled student
   && negb (String.eqb (s_cancelledBy student) teacherName)
   && frac_lt
        (js_div (timestampDiff Date_ms (scheduledStart cls)
                               (s_cancelledTime student)) 3600)
        (cancellationWindow settings))%bool.

(** Step 1a of [main.js]: [cls.students.forEach] with a [return] inside
    the callback, which ends that call of the callback only. *)
Definition creditCancellations (cls : Class) (teacherName : string)
    (bucket : Bucket) : Bucket :=
  fold_left
    (fun b student =>
       if lateCancellation cls teacherName student then incr_cancelled b
       else b)
    (students cls) bucket.

(** The same test in the older builder: it reads the properties
    ['cancelled by'] and ['cancelled time'], which no student object has,
    so the comparison is with [undefined] and the difference is 0. *)
Definition lateCancellation_legacy (cls : Class) (teacherName : string)
    (s : Student) : bool :=
  (s_cancelled s
   && true
   && frac_lt (js_div (timestampDiff Date_ms (scheduledStart cls) None) 3600)
              (cancellationWindow settings))%bool.

(** Step 1a of the older builder: [for ... of] with [break]. *)
Fixpoint creditCancellations_legacy_loop (cls : Class) (teacherName : string)
    (ss : list Student) (bucket : Bucket) : Bucket :=
  match ss with
  | [] => bucket
  | s :: rest =>
      if lateCancellation_legacy cls teacherName s
      then incr_cancelled bucket
      else creditCancellations_legacy_loop cls teacherName rest bucket
  end.

Definition creditCancellations_legacy (cls : Class) (teacherName : string)
    (bucket : Bucket) : Bucket :=
  creditCancellations_legacy_loop cls teacherName (students cls) bucket.

Section Aggregate.

(** The loop of step 1a: [creditCancellations] for [main.js],
    [creditCancellations_legacy] for the older builder. *)
Variable credit : Class -> string -> Bucket -> Bucket.

(** Steps 1a to 1c on the bucket of the class. *)
Definition updateBucket (cls : Class) (teacherName : string)
    (type : ClassType) (bucket : Bucket) : Bucket :=
  let teacherAttended := teacher_attended cls in
  let teacherCancelled := teacher_cancelled cls in
  let teacherTardinessMin := minutes_of (teacher_tardiness cls) in
  let bucket :=
    match type with
    | private =>
        if payLastMinuteCancellation settings
        then credit cls teacherName bucket
        else bucket
    | group => bucket
    end in
  let bucket :=
    if teacherAttended
    then
      let bucket := incr_attended bucket in
      if (penaliseTardiness settings
          && minutes_gt teacherTardinessMin (tardinessLimit settings))%bool
      then incr_late bucket
      else bucket
    else incr_noShow bucket in
  if (teacherAttended && negb teacherCancelled
      && (0 <? Z.of_nat (List.length (students cls)))
      && every_absent (students cls))%bool
  then incr_studentNoShow bucket
  else bucket.

(** One iteration of the loop over [processedData]. *)
Definition aggregateClass
    (state : object DurationBuckets * list jsnum) (cls : Class)
    : object DurationBuckets * list jsnum :=
  let '(teacherReports, durationsSet) := state in
  let durationMin := minutes_of (scheduledDuration cls) in
  let durationsSet := set_add durationMin durationsSet in
  match teacher_username cls with
  | None => (teacherReports, durationsSet)
  | Some teacherName =>
      if negb (truthy (Some teacherName))
      then (teacherReports, durationsSet)
      else
        let type := class_type cls in
        if filter_excludes (classTypeFilter settings) type
        then (teacherReports, durationsSet)
        else
          let durationBuckets := get_or String.eqb teacherReports teacherName [] in
          let pair :=
            get_or key_eqb durationBuckets durationMin (zeroBucket, zeroBucket) in
          let bucket := updateBucket cls teacherName type (bucket_of pair type) in
          (obj_set teacherReports teacherName
             (aset key_eqb durationBuckets durationMin (with_bucket pair type bucket)),
           durationsSet)
  end.

Definition aggregate (processedData : object Class)
    : object DurationBuckets * list jsnum :=
  fold_left aggregateClass (map snd processedData) ([], []).

End Aggregate.

End HourCount.

(** A cell of a CSV data row before [join(',')]: text or a number. *)
Inductive csv : Type :=
| Text : string -> csv
| Number : jsfrac -> csv.

Definition Count (n : Z) : csv := Number (Frac (inject_Z n)).

(** The cell of a double; [join] writes an infinity as its name. *)
Definition Double (x : double) : csv :=
  match x with
  | DNaN => Number FNaN
  | DInf false => Text "Infinity"
  | DInf true => Text "-Infinity"
  | DFin q => Number (Frac q)
  end.

Definition frac_add (a b : jsfrac) : jsfrac :=
  match a, b with
  | Frac x, Frac y => Frac (x + y)
  | _, _ => FNaN
  end.

(** [Array.from(durationsSet).sort((a, b) => a - b)], as an insertion sort;
    the order of a set that holds [NaN] depends on the engine and nothing
    below relies on it. *)
Fixpoint insert_duration (d : jsnum) (l : list jsnum) : list jsnum :=
  match l with
  | [] => [d]
  | e :: r => if js_lt d e then d :: e :: r else e :: insert_duration d r
  end.

Definition sort_durations (s : list jsnum) : list jsnum :=
  fold_left (fun acc d => insert_duration d acc) s [].

Section HourCountRows.

Local Open Scope Q_scope.

Variable settings : Settings.
Variable simpleReport : bool.

(** [payStudentNoShow ? studentNoShowRate / 100 : 0]; the rate is the
    number read from the settings field. *)
Definition studentNoShowFrac : double :=
  if payStudentNoShow settings
  then ddiv (binary64 (studentNoShowRate settings)) (DFin 100)
  else DFin 0.

(** [(durationBuckets[d] && durationBuckets[d][type]) || { ... 0 ... }] *)
Definition bucketFor (durationBuckets : DurationBuckets) (d : jsnum)
    (type : ClassType) : Bucket :=
  match aget key_eqb durationBuckets d with
  | Some buckets => bucket_of buckets type
  | None => zeroBucket
  end.

(** [parseFloat((baseCount - deduction).toFixed(2))] *)
Definition netCount (type : ClassType) (bucket : Bucket) : double :=
  let baseCount := d_of_Z (attended bucket) in
  let baseCount :=
    if penaliseTardiness settings then dsub baseCount (d_of_Z (late bucket))
    else baseCount in
  let baseCount :=
    match type with
    | private =>
        if payLastMinuteCancellation settings
        then dadd baseCount (d_of_Z (cancelled bucket))
        else baseCount
    | group => baseCount
    end in
  let deduction :=
    dmul (d_of_Z (studentNoShow bucket)) (dsub (DFin 1) studentNoShowFrac) in
  parseFloat_toFixed2 (dsub baseCount deduction).

(** The cells pushed for one duration. *)
Definition durationCells (type : ClassType) (bucket : Bucket) : list csv :=
  if simpleReport then [Double (netCount type bucket)]
  else
    [Count (attended bucket)]
    ++ match type with
       | private => [Count (cancelled bucket)]
       | group => []
       end
    ++ [Count (noShow bucket); Count (studentNoShow bucket);
        Count (late bucket); Double (netCount type bucket)].

(** The body of [durations.forEach] in [pushType]: the row and the two
    running totals of the type. *)
Definition pushDuration (durationBuckets : DurationBuckets) (type : ClassType)
    (acc : list csv * double * double) (d : jsnum)
    : list csv * double * double :=
  let '(row, totalCount, totalMin) := acc in
  let bucket := bucketFor durationBuckets d type in
  (row ++ durationCells type bucket,
   dadd totalCount (netCount type bucket),
   dadd totalMin (dmul (netCount type bucket) (d_of_jsnum d))).

Definition pushType (durations : list jsnum) (durationBuckets : DurationBuckets)
    (row : list csv) (type : ClassType) : list csv :=
  let '(row, totalCount, totalMin) :=
    fold_left (pushDuration durationBuckets type) durations
              (row, DFin 0, DFin 0) in
  row ++ [Double totalCount; Double totalMin].

Definition teacherRow (durations : list jsnum) (teacher : string)
    (durationBuckets : DurationBuckets) : list csv :=
  let row := [Text teacher] in
  match classTypeFilter settings with
  | both =>
      pushType durations durationBuckets
        (pushType durations durationBuckets row private) group
  | only_private => pushType durations durationBuckets row private
  | only_group => pushType durations durationBuckets row group
  end.

End HourCountRows.

(** [buildTeacherHourCountCSV]: the data rows, one per teacher, before they
    are joined into text (the header line holds no computed value). *)
Definition buildTeacherHourCountCSV (Date_ms : string -> option Z)
    (processedData : object Class) (settings : Settings) (simpleReport : bool)
    : list (list csv) :=
  let '(teacherReports, durationsSet) :=
    aggregate settings (creditCancellations Date_ms settings) processedData in
  let durations := sort_durations durationsSet in
  map (fun entry => teacherRow settings simpleReport durations (fst entry) (snd entry))
      teacherReports.

(** The older builder: the same function with the [break] loop. *)
Definition buildTeacherHourCountCSV_legacy (Date_ms : string -> option Z)
    (processedData : object Class) (settings : Settings) (simpleReport : bool)
    : list (list csv) :=
  let '(teacherReports, durationsSet) :=
    aggregate settings (creditCancellations_legacy Date_ms settings) processedData in
  let durations := sort_durations durationsSet in
  map (fun entry => teacherRow settings simpleReport durations (fst entry) (snd entry))
      teacherReports.

(* ----------------------------------------------------------------- *)
(** *** The scenario of the specification

    A private class of one hour; the teacher attended 400 s late, the only
    student neither attended nor cancelled. *)

Local Open Scope string_scope.

Definition scenario_classes : list (list string) :=
  [class_row [column 0 "2023-01-15 10:00:00"; column 1 "2023-01-15 11:00:00";
              column 6 "class-1"; column 10 "1"]].

Definition scenario_participants : list (list string) :=
  [participant_row [column 2 "class-1"; column 4 "tina"; column 9 "true"; column 10 "true";
                    column 3 "2023-01-15 10:00:00"; column 11 "2023-01-15 10:06:40";
                    column 12 "false"];
   participant_row [column 2 "class-1"; column 4 "sam"; column 9 "false"; column 10 "false";
                    column 12 "false"]].

Definition scenario_settings : Settings :=
  {| tardinessLimit := 5;
     cancellationWindow := 24;
     penaliseTardiness := true;
     payLastMinuteCancellation := false;
     payStudentNoShow := true;
     studentNoShowRate := 50;
     classTypeFilter := both |}.

(** Settings that pay 47.5 % of a student no-show and do not penalise
    tardiness. *)
Definition halfway_settings : Settings :=
  {| tardinessLimit := 5;
     cancellationWindow := 24;
     penaliseTardiness := false;
     payLastMinuteCancellation := false;
     payStudentNoShow := true;
     studentNoShowRate := 95 # 2;
     classTypeFilter := both |}.

Local Close Scope string_scope.

(* ================================================================= *)
(** ** 3.2 Teacher overview reports *)

(** [typeof x === 'number'] holds of every stored tardiness, [NaN]
    included; [x / 60] is then a fraction or [NaN]. *)
Definition tardiness_minutes (x : jsnum) : jsfrac := js_div x 60.

(** The statistics object of one teacher in the private-class report. *)
Record PrivateStats : Type := mkPrivateStats {
  tp_totalBooked : Z;
  tp_cancelledByTeacher : Z;
  tp_cancelledByAdmin : Z;
  tp_cancelledByStudent : Z;
  tp_totalRemaining : Z;
  tp_teacherNoShows : Z;
  tp_studentNoShows : Z;
  tp_teacherTardinessSum : jsfrac;
  tp_teacherTardinessCount : Z;
  tp_studentTardinessSum : jsfrac;
  tp_studentTardinessCount : Z;
  tp_ratingSum : jsfrac;
  tp_ratingCount : Z;
  tp_feedbackCount : Z
}.

(** The statistics object of one teacher in the group-class report. *)
Record GroupStats : Type := mkGroupStats {
  tg_totalBooked : Z;
  tg_cancelledByTeacher : Z;
  tg_cancelledByAdmin : Z;
  tg_totalRemaining : Z;
  tg_teacherNoShows : Z;
  tg_classStudentNoShowClasses : Z;
  tg_classStudentNoShowTotal : Z;
  tg_teacherTardinessSum : jsfrac;
  tg_teacherTardinessCount : Z;
  tg_studentTardinessSum : jsfrac;
  tg_studentTardinessCount : Z;
  tg_ratingSum : jsfrac;
  tg_ratingCount : Z;
  tg_feedbackClassCount : Z
}.

(** [a <= b] on numbers. *)
Definition js_le (a b : jsnum) : bool :=
  match a, b with
  | Int x, Int y => x <=? y
  | _, _ => false
  end.

Definition isNaN (f : jsfrac) : bool :=
  match f with
  | FNaN => true
  | Frac _ => false
  end.

Definition bump (c : bool) (n : Z) : Z := if c then n + 1 else n.

Section TeacherReports.

(** The host's [parseFloat] on a rating cell. *)
Variable parseFloat : cell -> jsfrac.

(** The three accumulators the loop over the students of a class feeds:
    tardiness, rating and feedback. *)
Definition studentMetrics (acc : jsfrac * Z * jsfrac * Z * Z) (st : Student)
    : jsfrac * Z * jsfrac * Z * Z :=
  let '(tardSum, tardCount, ratingSum, ratingCount, feedbackCount) := acc in
  let tardSum := frac_add tardSum (tardiness_minutes (s_tardiness st)) in
  let tardCount := tardCount + 1 in
  let r := parseFloat (s_rating st) in
  let hasFB :=
    ((truthy (s_feedback st) && truthy (Some (trim (or_empty (s_feedback st)))))
     || negb (isNaN r))%bool in
  (tardSum, tardCount,
   if isNaN r then ratingSum else frac_add ratingSum r,
   bump (negb (isNaN r)) ratingCount,
   bump hasFB feedbackCount).

Definition zeroPrivateStats : PrivateStats :=
  mkPrivateStats 0 0 0 0 0 0 0 (Frac 0) 0 (Frac 0) 0 (Frac 0) 0 0.

(** One iteration of the loop of [buildTeacherPrivateClassesCSV]. *)
Definition privateClassesStep (stats : object PrivateStats) (cls : Class)
    : object PrivateStats :=
  if negb (js_eqb (available_seats cls) (Int 1)) then stats
  else
    match teacher_username cls with
    | None => stats
    | Some name =>
        if negb (truthy (Some name)) then stats
        else
          let s := get_or String.eqb stats name zeroPrivateStats in
          let remaining := negb (truthy (Some (cancelledBy cls))) in
          let allAbsent := every_absent (students cls) in
          let '(sTard, sTardN, rSum, rN, fb) :=
            fold_left studentMetrics (students cls)
              (tp_studentTardinessSum s, tp_studentTardinessCount s,
               tp_ratingSum s, tp_ratingCount s, tp_feedbackCount s) in
          obj_set stats name
            {| tp_totalBooked := tp_totalBooked s + 1;
               tp_cancelledByTeacher :=
                 bump (cancelledByTeacher cls) (tp_cancelledByTeacher s);
               tp_cancelledByAdmin :=
                 bump (negb (cancelledByTeacher cls)
                       && negb (cancelledByStudent cls)
                       && cancelledByAdmin cls) (tp_cancelledByAdmin s);
               tp_cancelledByStudent :=
                 bump (negb (cancelledByTeacher cls) && cancelledByStudent cls)
                      (tp_cancelledByStudent s);
               tp_totalRemaining := bump remaining (tp_totalRemaining s);
               tp_teacherNoShows :=
                 bump (remaining && negb (teacher_attended cls))
                      (tp_teacherNoShows s);
               tp_studentNoShows :=
                 bump (remaining && teacher_attended cls && allAbsent)
                      (tp_studentNoShows s);
               tp_teacherTardinessSum :=
                 frac_add (tp_teacherTardinessSum s)
                          (tardiness_minutes (teacher_tardiness cls));
               tp_teacherTardinessCount := tp_teacherTardinessCount s + 1;
               tp_studentTardinessSum := sTard;
               tp_studentTardinessCount := sTardN;
               tp_ratingSum := rSum;
               tp_ratingCount := rN;
               tp_feedbackCount := fb |}
    end.

(** The [stats] object of [buildTeacherPrivateClassesCSV]; its rows print
    the counters and the averages of each entry. *)
Definition privateClassesStats (processedData : object Class)
    : object PrivateStats :=
  fold_left privateClassesStep (map snd processedData) [].

Definition zeroGroupStats : GroupStats :=
  mkGroupStats 0 0 0 0 0 0 0 (Frac 0) 0 (Frac 0) 0 (Frac 0) 0 0.

(** [!st.attended && !st.cancelled] *)
Definition absent_uncancelled (st : Student) : bool :=
  (negb (s_attended st) && negb (s_cancelled st))%bool.

(** One iteration of the loop of [buildTeacherGroupClassesCSV]. *)
Definition groupClassesStep (stats : object GroupStats) (cls : Class)
    : object GroupStats :=
  if js_le (available_seats cls) (Int 1) then stats
  else
    match teacher_username cls with
    | None => stats
    | Some name =>
        if negb (truthy (Some name)) then stats
        else
          let s := get_or String.eqb stats name zeroGroupStats in
          let remaining := negb (truthy (Some (cancelledBy cls))) in
          let anyNoShow := existsb absent_uncancelled (students cls) in
          let noShowCount :=
            Z.of_nat (List.length (filter absent_uncancelled (students cls))) in
          let '(sTard, sTardN, rSum, rN, fb) :=
            fold_left studentMetrics (students cls)
              (tg_studentTardinessSum s, tg_studentTardinessCount s,
               tg_ratingSum s, tg_ratingCount s, tg_feedbackClassCount s) in
          obj_set stats name
            {| tg_totalBooked := tg_totalBooked s + 1;
               tg_cancelledByTeacher :=
                 bump (cancelledByTeacher cls) (tg_cancelledByTeacher s);
               tg_cancelledByAdmin :=
                 bump (negb (cancelledByTeacher cls) && cancelledByAdmin cls)
                      (tg_cancelledByAdmin s);
               tg_totalRemaining := bump remaining (tg_totalRemaining s);
               tg_teacherNoShows :=
                 bump (remaining && negb (teacher_attended cls))
                      (tg_teacherNoShows s);
               tg_classStudentNoShowClasses :=
                 bump (remaining && anyNoShow) (tg_classStudentNoShowClasses s);
               tg_classStudentNoShowTotal :=
                 tg_classStudentNoShowTotal s + noShowCount;
               tg_teacherTardinessSum :=
                 frac_add (tg_teacherTardinessSum s)
                          (tardiness_minutes (teacher_tardiness cls));
               tg_teacherTardinessCount := tg_teacherTardinessCount s + 1;
               tg_studentTardinessSum := sTard;
               tg_studentTardinessCount := sTardN;
               tg_ratingSum := rSum;
               tg_ratingCount := rN;
               tg_feedbackClassCount := fb |}
    end.

Definition groupClassesStats (processedData : object Class)
    : object GroupStats :=
  fold_left groupClassesStep (map snd processedData) [].

End TeacherReports.

(* ================================================================= *)
(** ** 3.3 Course reports *)

Definition dquote : string := String (ascii_of_nat 34) EmptyString.

(** A value between double quotes, as the template literals of the rows
    write it. *)
Definition quoted (s : string) : string := (dquote ++ s ++ dquote)%string.

(** [String(c)] for a string or [undefined]. *)
Definition String_of (c : cell) : string :=
  match c with
  | Some s => s
  | None => "undefined"%string
  end.

(** [n || ''] printed: [NaN] and 0 are falsy. *)
Definition number_or_empty (n : jsnum) : string :=
  match n with
  | NaN => EmptyString
  | Int z => if z =? 0 then EmptyString else NilZero.string_of_int (Z.to_int z)
  end.

Definition cell_eqb (a b : cell) : bool :=
  match a, b with
  | None, None => true
  | Some x, Some y => String.eqb x y
  | _, _ => false
  end.

(** [unique(arr)]: [[...new Set(arr)]], first occurrences in order. *)
Definition unique (arr : list cell) : list cell :=
  fold_left (fun seen x => if existsb (cell_eqb x) seen then seen else seen ++ [x])
            arr [].

(** [names.join(sep)] *)
Fixpoint join (sep : string) (names : list string) : string :=
  match names with
  | [] => EmptyString
  | [x] => x
  | x :: r => (x ++ sep ++ join sep r)%string
  end.

(** [cls.course_id || 'NO_ID'] *)
Definition courseKey (cls : Class) : string :=
  if truthy (course_id cls) then or_empty (course_id cls) else "NO_ID"%string.

(** The two counters of the loop over the participations of a course. *)
Definition countParticipation (acc : list cell * Z * Z) (student : Student)
    : list cell * Z * Z :=
  let '(allStudentUsernames, attendedCount, totalStudentParticipations) := acc in
  (allStudentUsernames ++ [s_username student],
   bump (s_attended student) attendedCount,
   totalStudentParticipations + 1).

Definition countParticipations (classes : list Class) : list cell * Z * Z :=
  fold_left (fun acc cls => fold_left countParticipation (students cls) acc)
            classes ([], 0, 0).

(** [total ? Math.round((attended / total) * 100) : ''] *)
Definition attendanceRate (attendedCount totalStudentParticipations : Z) : csv :=
  if totalStudentParticipations =? 0 then Text EmptyString
  else Double (dround (dmul (ddiv (d_of_Z attendedCount)
                                  (d_of_Z totalStudentParticipations))
                            (DFin 100))).

Section CourseReports.

Variable Date_ms : string -> option Z.

(** [new Date(cls.scheduledStart)], invalid for [undefined]. *)
Definition startDate (cls : Class) : option Z :=
  match scheduledStart cls with
  | Some s => Date_ms s
  | None => None
  end.

(** [new Date(a.scheduledStart) - new Date(b.scheduledStart) < 0] *)
Definition starts_before (a b : Class) : bool :=
  match startDate a, startDate b with
  | Some x, Some y => x <? y
  | _, _ => false
  end.

(** [classes.sort(...)] by start, as a stable insertion sort. *)
Fixpoint insert_class (c : Class) (l : list Class) : list Class :=
  match l with
  | [] => [c]
  | e :: r => if starts_before c e then c :: e :: r else e :: insert_class c r
  end.

Definition sort_classes (l : list Class) : list Class :=
  fold_left (fun acc c => insert_class c acc) l [].

(** Step 1: group the classes by course id. *)
Definition groupByCourse (processedData : object Class) : object (list Class) :=
  fold_left
    (fun byCourse cls =>
       let courseId := courseKey cls in
       obj_set byCourse courseId (get_or String.eqb byCourse courseId [] ++ [cls]))
    (map snd processedData) [].

(** The row of one course in the overview. *)
Definition courseRow (courseId : string) (group0 : list Class) : list csv :=
  let classes := sort_classes group0 in
  match classes with
  | [] => []
  | firstClass :: _ =>
      let teachers :=
        unique (filter truthy (map teacher_username classes)) in
      let '(allStudentUsernames, attendedCount, totalStudentParticipations) :=
        countParticipations classes in
      let uniqueStudents := unique allStudentUsernames in
      let classCount := Z.of_nat (List.length classes) in
      [Text (quoted courseId);
       Text (quoted (join " - " (map or_empty teachers)));
       Text (quoted (String_of (scheduledStart firstClass)));
       Text (quoted (String_of (scheduledStart (last classes firstClass))));
       Text (quoted (level firstClass));
       Text (quoted (subject firstClass));
       Text (quoted EmptyString);
       Count classCount;
       Text (quoted (number_or_empty (available_seats firstClass)));
       Count (Z.of_nat (List.length uniqueStudents));
       attendanceRate attendedCount totalStudentParticipations]
  end.

(** [buildAllCoursesOverviewCSV]: the data rows, one per course id. *)
Definition buildAllCoursesOverviewCSV (processedData : object Class)
    : list (list csv) :=
  map (fun entry => courseRow (fst entry) (snd entry))
      (groupByCourse processedData).

End CourseReports.

(** The statistics of one student in [buildCourseStudentOverviewCSV]. *)
Record CourseStudentStats : Type := mkCourseStudentStats {
  cs_enrolled : Z;
  cs_attended : Z;
  cs_noShow : Z;
  cs_cancelled : Z
}.

(** Property keys: [undefined] is the key ["undefined"]. *)
Definition courseStudentStep (stats : object CourseStudentStats) (s : Student)
    : object CourseStudentStats :=
  let u := String_of (s_username s) in
  let st := get_or String.eqb stats u (mkCourseStudentStats 0 0 0 0) in
  obj_set stats u
    {| cs_enrolled := cs_enrolled st + 1;
       cs_attended := bump (s_attended s) (cs_attended st);
       cs_cancelled :=
         bump (negb (s_attended s) && s_cancelled s) (cs_cancelled st);
       cs_noShow :=
         bump (negb (s_attended s) && negb (s_cancelled s)) (cs_noShow st) |}.

Definition courseStudentStats (processedData : object Class) (courseId : string)
    : object CourseStudentStats :=
  let classes :=
    filter (fun cls => String.eqb (courseKey cls) courseId)
           (map snd processedData) in
  fold_left (fun stats cls => fold_left courseStudentStep (students cls) stats)
            classes [].

(** [((attended / enrolled) * 100).toFixed(2)], the number before ['%']. *)
Definition courseStudentRate (st : CourseStudentStats) : Q :=
  toFixed2 (inject_Z (cs_attended st) / inject_Z (cs_enrolled st) * 100).

(** [buildCourseStudentOverviewCSV]: the data rows. *)
Definition buildCourseStudentOverviewCSV (processedData : object Class)
    (courseId : string) : list (list csv) :=
  map (fun entry =>
         let st := snd entry in
         [Text (quoted (fst entry)); Count (cs_enrolled st);
          Count (cs_attended st); Count (cs_noShow st); Count (cs_cancelled st);
          Number (Frac (courseStudentRate st))])
      (courseStudentStats processedData courseId).

(* ================================================================= *)
(** ** 3.4 Student report *)

Inductive FilterMode : Type := mode_all | mode_company | mode_custom.

Record Options : Type := mkOptions {
  opt_cancellationWindow : Q;
  companyId : string;
  filterMode : FilterMode;
  customList : list string
}.

(** The aggregate object of one student. *)
Record StudentAggregate : Type := mkStudentAggregate {
  sr_username : string;
  sr_company : cell;
  sr_totalGroup : Z;
  sr_totalPrivate : Z;
  sr_attended : Z;
  sr_noShow : Z;
  sr_cancelled : Z;
  sr_cancelledLate : Z;
  sr_cancellationIntervals : list jsfrac;
  sr_ratingSum : jsfrac;
  sr_ratingCount : Z;
  sr_enrolmentIntervals : list jsfrac;
  sr_tardinessSum : jsfrac;
  sr_tardinessCount : Z;
  sr_classDates : list (option Z)
}.

(** [(a - b) / 3600e3] for two dates. *)
Definition hours_between (a b : option Z) : jsfrac :=
  match a, b with
  | Some x, Some y => Frac (inject_Z (x - y) / 3600000)
  | _, _ => FNaN
  end.

(** [dates.sort((a, b) => a - b)], as a stable insertion sort. *)
Fixpoint insert_date (d : option Z) (l : list (option Z)) : list (option Z) :=
  match l with
  | [] => [d]
  | e :: r =>
      if match d, e with Some x, Some y => x <? y | _, _ => false end
      then d :: e :: r
      else e :: insert_date d r
  end.

Definition sort_dates (l : list (option Z)) : list (option Z) :=
  fold_left (fun acc d => insert_date d acc) l [].

(** The sum of the gaps between consecutive dates, in hours. *)
Fixpoint sumGaps (prev : option Z) (l : list (option Z)) (sum : jsfrac) : jsfrac :=
  match l with
  | [] => sum
  | d :: r => sumGaps d r (frac_add sum (hours_between d prev))
  end.

Definition frac_div (f : jsfrac) (n : Z) : jsfrac :=
  match f with
  | FNaN => FNaN
  | Frac q => Frac (q / inject_Z n)
  end.

(** [list.length ? (sum / list.length).toFixed(2) : ''] *)
Definition average_or_blank (sum : jsfrac) (n : Z) : csv :=
  if n =? 0 then Text EmptyString else Number (toFixed2_frac (frac_div sum n)).

Section StudentReport.

Variable Date_ms : string -> option Z.
Variable parseFloat : cell -> jsfrac.
Variable options : Options.

(** The class-level filter: [true] when the class is skipped. *)
Definition classSkipped (cls : Class) : bool :=
  match filterMode options with
  | mode_company =>
      (negb (String.eqb (companyId options) "ALL")
       && negb (String.eqb (String_of (company cls)) (companyId options)))%bool
  | _ => false
  end.

(** The student-level filter: [true] when the participation is skipped. *)
Definition studentSkipped (username : string) : bool :=
  match filterMode options with
  | mode_custom => negb (existsb (String.eqb username) (customList options))
  | _ => false
  end.

Definition newAggregate (username : string) (cls : Class) : StudentAggregate :=
  {| sr_username := username;
     sr_company := company cls;
     sr_totalGroup := 0;
     sr_totalPrivate := 0;
     sr_attended := 0;
     sr_noShow := 0;
     sr_cancelled := 0;
     sr_cancelledLate := 0;
     sr_cancellationIntervals := [];
     sr_ratingSum := Frac 0;
     sr_ratingCount := 0;
     sr_enrolmentIntervals := [];
     sr_tardinessSum := Frac 0;
     sr_tardinessCount := 0;
     sr_classDates := [] |}.

(** The body of [cls.students.forEach] for a student that passes the
    filters. *)
Definition accumulate (cls : Class) (scheduledStartD : option Z)
    (student : Student) (s : StudentAggregate) : StudentAggregate :=
  let isPrivate := js_eqb (available_seats cls) (Int 1) in
  let hasCancelTime := (s_cancelled student && truthy (s_cancelledTime student))%bool in
  let cancelHr :=
    hours_between scheduledStartD
      (Date_ms (replace_space_T (or_empty (s_cancelledTime student)))) in
  let r := parseFloat (s_rating student) in
  {| sr_username := sr_username s;
     sr_company := sr_company s;
     sr_totalGroup := bump (negb isPrivate) (sr_totalGroup s);
     sr_totalPrivate := bump isPrivate (sr_totalPrivate s);
     sr_attended :=
       bump (negb (s_cancelled student) && s_attended student) (sr_attended s);
     sr_noShow :=
       bump (negb (s_cancelled student) && negb (s_attended student)) (sr_noShow s);
     sr_cancelled := bump (s_cancelled student) (sr_cancelled s);
     sr_cancelledLate :=
       bump (hasCancelTime && frac_lt cancelHr (opt_cancellationWindow options))
            (sr_cancelledLate s);
     sr_cancellationIntervals :=
       if hasCancelTime then sr_cancellationIntervals s ++ [cancelHr]
       else sr_cancellationIntervals s;
     sr_ratingSum := if isNaN r then sr_ratingSum s else frac_add (sr_ratingSum s) r;
     sr_ratingCount := bump (negb (isNaN r)) (sr_ratingCount s);
     sr_enrolmentIntervals :=
       if truthy (s_enrolledTime student)
       then sr_enrolmentIntervals s
            ++ [hours_between scheduledStartD
                  (Date_ms (replace_space_T (or_empty (s_enrolledTime student))))]
       else sr_enrolmentIntervals s;
     sr_tardinessSum :=
       frac_add (sr_tardinessSum s) (tardiness_minutes (s_tardiness student));
     sr_tardinessCount := sr_tardinessCount s + 1;
     sr_classDates := sr_classDates s ++ [scheduledStartD] |}.

(** The body of [cls.students.forEach] for a student whose username is
    an ordinary key of [students]. *)
Definition recordStudent (cls : Class) (scheduledStartD : option Z)
    (students0 : object StudentAggregate) (student : Student)
    : object StudentAggregate :=
  match s_username student with
  | None => students0
  | Some username =>
      if negb (truthy (Some username)) then students0
      else if studentSkipped username then students0
      else
        let s := get_or String.eqb students0 username (newAggregate username cls) in
        obj_set students0 username (accumulate cls scheduledStartD student s)
  end.

(** Whether [students[username]] finds a property of [Object.prototype]
    for a student that passes the filters: no aggregate is created then,
    and [s.classDates.push] throws a [TypeError]. *)
Definition hitsPrototype (student : Student) : bool :=
  match s_username student with
  | None => false
  | Some username =>
      (truthy (Some username) && negb (studentSkipped username)
       && inherited username)%bool
  end.

(** One call of the callback of [cls.students.forEach]; [None] is the
    [TypeError]. *)
Definition studentStep (cls : Class) (scheduledStartD : option Z)
    (acc : option (object StudentAggregate)) (student : Student)
    : option (object StudentAggregate) :=
  match acc with
  | None => None
  | Some students0 =>
      if hitsPrototype student then None
      else Some (recordStudent cls scheduledStartD students0 student)
  end.

(** One iteration over a class; [None] is a [TypeError]: of calling
    [replace] on an undefined [scheduledStart], or of a student. *)
Definition studentReportClass (acc : option (object StudentAggregate))
    (cls : Class) : option (object StudentAggregate) :=
  match acc with
  | None => None
  | Some students0 =>
      if classSkipped cls then Some students0
      else
        match scheduledStart cls with
        | None => None
        | Some start =>
            let scheduledStartD := Date_ms (replace_space_T start) in
            fold_left (studentStep cls scheduledStartD) (students cls)
                      (Some students0)
        end
  end.

Definition studentAggregates (processedData : object Class)
    : option (object StudentAggregate) :=
  fold_left studentReportClass (map snd processedData)
            (Some ([] : object StudentAggregate)).

Definition rate_or_blank (n total : Z) : csv :=
  if total =? 0 then Text EmptyString
  else Number (Frac (toFixed2 (inject_Z n / inject_Z total))).

Definition sum_fracs (l : list jsfrac) : jsfrac := fold_left frac_add l (Frac 0).

Definition studentRow (s : StudentAggregate) : list csv :=
  let totalClasses := sr_totalGroup s + sr_totalPrivate s in
  let avgClassInt :=
    if 1 <? Z.of_nat (List.length (sr_classDates s))
    then
      match sort_dates (sr_classDates s) with
      | [] => Text EmptyString
      | first :: rest =>
          Number (toFixed2_frac
                    (frac_div (sumGaps first rest (Frac 0))
                              (Z.of_nat (List.length (sr_classDates s)) - 1)))
      end
    else Text EmptyString in
  [Text (sr_username s);
   Text (or_empty (sr_company s));
   Count (sr_totalGroup s);
   Count (sr_totalPrivate s);
   rate_or_blank (sr_attended s) totalClasses;
   rate_or_blank (sr_noShow s) totalClasses;
   rate_or_blank (sr_cancelled s) totalClasses;
   rate_or_blank (sr_cancelledLate s) totalClasses;
   average_or_blank (sum_fracs (sr_cancellationIntervals s))
                    (Z.of_nat (List.length (sr_cancellationIntervals s)));
   average_or_blank (sr_tardinessSum s) (sr_tardinessCount s);
   average_or_blank (sr_ratingSum s) (sr_ratingCount s);
   average_or_blank (sum_fracs (sr_enrolmentIntervals s))
                    (Z.of_nat (List.length (sr_enrolmentIntervals s)));
   avgClassInt].

(** [buildStudentReport]: the data rows, one per student, or [None] when
    the loop throws. *)
Definition buildStudentReport (processedData : object Class)
    : option (list (list csv)) :=
  match studentAggregates processedData with
  | None => None
  | Some students0 => Some (map (fun entry => studentRow (snd entry)) students0)
  end.

End StudentReport.

(* ================================================================= *)
(** ** 3.5 Overview data *)

(** The metrics object of one duration in [buildOverviewData]. *)
Record Tally : Type := mkTally {
  o_total : Z;
  o_completed : Z;
  o_cancelled : Z;
  o_cancelledByStudent : Z;
  o_cancelledByTeacher : Z;
  o_cancelledByAdmin : Z;
  o_studentCancelledLate : Z;
  o_teacherNoShow : Z;
  o_studentNoShow : Z;
  o_bothNoShow : Z
}.

Definition zeroTally : Tally := mkTally 0 0 0 0 0 0 0 0 0 0.

(** The filter of [tally]:
    [type === 'private' ? seats === 1 : seats > 1]. *)
Definition tallyFilter (type : ClassType) (cls : Class) : bool :=
  match type with
  | private => js_eqb (available_seats cls) (Int 1)
  | group => js_gt (available_seats cls) (Int 1)
  end.

(** [cls.cancelledInterval !== '' && parseFloat(cls.cancelledInterval) < w] *)
Definition interval_lt (i : interval) (w : Q) : bool :=
  match i with
  | None => false
  | Some f => frac_lt f w
  end.

Section Overview.

Variable cancellationWindow0 : Q.

(** The update of the bucket of a class in [tally(type)]. *)
Definition tallyBucket (type : ClassType) (cls : Class) (bucket : Tally) : Tally :=
  let teacherAttended := teacher_attended cls in
  let classCancelled := truthy (Some (cancelledBy cls)) in
  let allStudentsAbsent :=
    ((0 <? Z.of_nat (List.length (students cls)))
     && every_absent (students cls))%bool in
  {| o_total := o_total bucket + 1;
     o_completed :=
       bump (teacherAttended && negb classCancelled) (o_completed bucket);
     o_cancelled := bump classCancelled (o_cancelled bucket);
     o_cancelledByStudent :=
       bump (classCancelled && cancelledByStudent cls)
            (o_cancelledByStudent bucket);
     o_cancelledByTeacher :=
       bump (classCancelled && cancelledByTeacher cls)
            (o_cancelledByTeacher bucket);
     o_cancelledByAdmin :=
       bump (classCancelled && cancelledByAdmin cls) (o_cancelledByAdmin bucket);
     o_studentCancelledLate :=
       bump (classCancelled && cancelledByStudent cls
             && interval_lt (cancelledInterval cls) cancellationWindow0)
            (o_studentCancelledLate bucket);
     o_teacherNoShow :=
       bump (negb teacherAttended && negb classCancelled) (o_teacherNoShow bucket);
     o_studentNoShow :=
       bump (match type with
             | group => allStudentsAbsent
             | private => teacherAttended && allStudentsAbsent
             end) (o_studentNoShow bucket);
     o_bothNoShow :=
       bump (negb teacherAttended && negb classCancelled && allStudentsAbsent)
            (o_bothNoShow bucket) |}.

Definition tallyStep (type : ClassType) (byDuration : list (jsnum * Tally))
    (cls : Class) : list (jsnum * Tally) :=
  let d := minutes_of (scheduledDuration cls) in
  aset key_eqb byDuration d
       (tallyBucket type cls (get_or key_eqb byDuration d zeroTally)).

(** [tally(type)] *)
Definition tally (processedData : object Class) (type : ClassType)
    : list (jsnum * Tally) :=
  fold_left (tallyStep type)
            (filter (tallyFilter type) (map snd processedData)) [].

(** [buildOverviewData]: [{ groupData, privateData }]. *)
Definition buildOverviewData (processedData : object Class)
    : list (jsnum * Tally) * list (jsnum * Tally) :=
  (tally processedData group, tally processedData private).

End Overview.

(* ----------------------------------------------------------------- *)
(** *** Predicates and data used by the statements *)

(** A tardiness within the clamp bounds of a duration. *)
Definition within_clamp (tardiness duration : jsnum) : Prop :=
  exists z d, tardiness = Int z /\ duration = Int d /\ -3600 <= z <= d.

(** A participant row whose scheduled start (column 3) and join time
    (column 11) are both present while one of them is not a date. *)
Definition unparseable_join (Date_ms : string -> option Z) (pr : list string)
    : Prop :=
  truthy (col pr 3) = true /\ truthy (col pr 11) = true
  /\ (Date_ms (replace_space_T (or_empty (col pr 3))) = None
      \/ Date_ms (replace_space_T (or_empty (col pr 11))) = None).

Definition exactly_one (a b c : bool) : bool :=
  ((a && negb b && negb c) || (negb a && b && negb c)
   || (negb a && negb b && c))%bool.

Local Open Scope string_scope.

(** A class row without an end timestamp. *)
Definition open_ended_classes : list (list string) :=
  [class_row [column 0 "2023-01-15 10:00:00"; column 6 "class-1"; column 10 "1"]].

(** A class whose end lies two hours before its start, with one student
    who joined on time. *)
Definition reversed_classes : list (list string) :=
  [class_row [column 0 "2023-01-15 10:00:00"; column 1 "2023-01-15 08:00:00";
              column 6 "class-1"; column 10 "1"]].

Definition reversed_participants : list (list string) :=
  [participant_row [column 2 "class-1"; column 4 "sam"; column 9 "false";
                    column 10 "true"; column 3 "2023-01-15 10:00:00";
                    column 11 "2023-01-15 10:00:00"]].

(** A class of one hour whose student has a join time that is not a date. *)
Definition unparseable_join_participants : list (list string) :=
  [participant_row [column 2 "class-1"; column 4 "sam"; column 9 "false";
                    column 10 "true"; column 3 "2023-01-15 10:00:00";
                    column 11 "unknown"]].

(** A class whose end is not a date, with one student who joined on time. *)
Definition unparseable_end_classes : list (list string) :=
  [class_row [column 0 "2023-01-15 10:00:00"; column 1 "unknown";
              column 6 "class-1"; column 10 "1"]].

(** A class cancelled by ["bob"], who is its teacher and also appears on a
    student row of the same class. *)
Definition shared_name_classes : list (list string) :=
  [class_row [column 0 "2023-01-15 10:00:00"; column 1 "2023-01-15 11:00:00";
              column 6 "class-1"; column 10 "4"; column 22 "bob";
              column 23 "2023-01-14 10:00:00"]].

Definition shared_name_participants : list (list string) :=
  [participant_row [column 2 "class-1"; column 4 "bob"; column 9 "true"];
   participant_row [column 2 "class-1"; column 4 "bob"; column 9 "false"]].

Local Close Scope string_scope.

Definition type_eqb (a b : ClassType) : bool :=
  match a, b with
  | private, private => true
  | group, group => true
  | _, _ => false
  end.

(** The bucket a class is counted in: its teacher, rounded minutes and type;
    [None] for a class without a teacher name or of a filtered type. *)
Definition assigned (settings : Settings) (cls : Class)
    : option (string * jsnum * ClassType) :=
  match teacher_username cls with
  | None => None
  | Some teacherName =>
      if (truthy (Some teacherName)
          && negb (filter_excludes (classTypeFilter settings) (class_type cls)))%bool
      then Some (teacherName, minutes_of (scheduledDuration cls), class_type cls)
      else None
  end.

(** The counters the report holds for a teacher, a duration and a type. *)
Definition bucketAt (teacherReports : object DurationBuckets)
    (teacher : string) (d : jsnum) (type : ClassType) : Bucket :=
  bucketFor (get_or String.eqb teacherReports teacher []) d type.

(** Whether a class is counted in the bucket [(t, d, ty)]. *)
Definition assigned_to (settings : Settings) (t : string) (d : jsnum) (ty : ClassType)
    (cls : Class) : bool :=
  match assigned settings cls with
  | Some (t', d', ty') => (String.eqb t t' && key_eqb d d' && type_eqb ty ty')%bool
  | None => false
  end.

(** The test the hour-count report applies before it increments
    [studentNoShow], on the teacher's own [cancelled] flag. *)
Definition studentNoShow_counted (cls : Class) : bool :=
  (teacher_attended cls && negb (teacher_cancelled cls)
   && (0 <? Z.of_nat (List.length (students cls)))
   && every_absent (students cls))%bool.

(** The condition of the specification, on the cancellation of the session
    (a session is cancelled when its [cancelledBy] is not empty). *)
Definition studentNoShow_specified (cls : Class) : bool :=
  (teacher_attended cls && negb (truthy (Some (cancelledBy cls)))
   && (0 <? Z.of_nat (List.length (students cls)))
   && every_absent (students cls))%bool.

Local Open Scope string_scope.

(** A private class cancelled by an administrator; the teacher's row is
    not flagged as cancelled and says she attended, the student's row says
    he did not. *)
Definition cancelled_session_classes : list (list string) :=
  [class_row [column 0 "2023-01-15 10:00:00"; column 1 "2023-01-15 11:00:00";
              column 6 "class-1"; column 10 "1"; column 22 "office";
              column 23 "2023-01-15 09:00:00"]].

Definition cancelled_session_participants : list (list string) :=
  [participant_row [column 2 "class-1"; column 4 "tina"; column 9 "true";
                    column 10 "true"; column 12 "false"];
   participant_row [column 2 "class-1"; column 4 "sam"; column 9 "false";
                    column 10 "false"; column 12 "false"]].

(** A private class whose seat was booked and cancelled an hour before the
    start by two students in turn. *)
Definition rebooked_classes : list (list string) :=
  [class_row [column 0 "2023-01-15 10:00:00"; column 1 "2023-01-15 11:00:00";
              column 6 "class-1"; column 10 "1"]].

Definition rebooked_participants : list (list string) :=
  [participant_row [column 2 "class-1"; column 4 "tina"; column 9 "true";
                    column 10 "true"; column 12 "false"];
   participant_row [column 2 "class-1"; column 4 "sam"; column 9 "false";
                    column 10 "false"; column 12 "true"; column 13 "sam";
                    column 14 "2023-01-15 09:00:00"];
   participant_row [column 2 "class-1"; column 4 "sue"; column 9 "false";
                    column 10 "false"; column 12 "true"; column 13 "sue";
                    column 14 "2023-01-15 09:30:00"]].

Definition paid_cancellation_settings : Settings :=
  {| tardinessLimit := 5;
     cancellationWindow := 24;
     penaliseTardiness := false;
     payLastMinuteCancellation := true;
     payStudentNoShow := true;
     studentNoShowRate := 100;
     classTypeFilter := both |}.

Local Close Scope string_scope.

(** The number of students of a class that pass the test of step 1a. *)
Definition lateCancellations (Date_ms : string -> option Z) (settings : Settings)
    (cls : Class) (teacherName : string) : Z :=
  Z.of_nat (List.length (filter (lateCancellation Date_ms settings cls teacherName)
                                (students cls))).

(** The number of cells pushed per duration, and the place of the
    [netCount] cell of the [i]-th duration of a type in a data row with [n]
    durations. *)
Definition cell_width (simpleReport : bool) (type : ClassType) : nat :=
  if simpleReport then 1%nat
  else match type with
       | private => 6%nat
       | group => 5%nat
       end.

Definition block_start (f : ClassTypeFilter) (simpleReport : bool) (n : nat)
    (type : ClassType) : nat :=
  match f, type with
  | both, group => (1 + (n * cell_width simpleReport private + 2))%nat
  | _, _ => 1%nat
  end.

Definition netCount_index (f : ClassTypeFilter) (simpleReport : bool) (n : nat)
    (type : ClassType) (i : nat) : nat :=
  (block_start f simpleReport n type + i * cell_width simpleReport type
   + (cell_width simpleReport type - 1))%nat.

(** What one class adds to the counters of its bucket. *)
Definition contribution (Date_ms : string -> option Z) (settings : Settings)
    (cls : Class) (teacherName : string) (type : ClassType) : Bucket :=
  {| attended := bump (teacher_attended cls) 0;
     noShow := bump (negb (teacher_attended cls)) 0;
     cancelled :=
       match type with
       | private =>
           if payLastMinuteCancellation settings
           then lateCancellations Date_ms settings cls teacherName else 0
       | group => 0
       end;
     late :=
       bump (teacher_attended cls && penaliseTardiness settings
             && minutes_gt (minutes_of (teacher_tardiness cls))
                           (tardinessLimit settings)) 0;
     studentNoShow := bump (studentNoShow_counted cls) 0 |}.

Definition bucket_plus (a b : Bucket) : Bucket :=
  {| attended := attended a + attended b;
     noShow := noShow a + noShow b;
     cancelled := cancelled a + cancelled b;
     late := late a + late b;
     studentNoShow := studentNoShow a + studentNoShow b |}.

Definition sumZ {A : Type} (f : A -> Z) (l : list A) : Z :=
  fold_right (fun a acc => f a + acc) 0 l.

Local Open Scope string_scope.

(** Two private classes; the second one has no participant row at all. *)
Definition unstaffed_classes : list (list string) :=
  [class_row [column 0 "2023-01-15 10:00:00"; column 1 "2023-01-15 11:00:00";
              column 6 "class-1"; column 10 "1"];
   class_row [column 0 "2023-01-15 12:00:00"; column 1 "2023-01-15 12:30:00";
              column 6 "class-2"; column 10 "1"]].

Definition unstaffed_participants : list (list string) :=
  [participant_row [column 2 "class-1"; column 4 "tina"; column 9 "true";
                    column 10 "true"; column 12 "false"];
   participant_row [column 2 "class-1"; column 4 "sam"; column 9 "false";
                    column 10 "true"; column 12 "false"]].

(** A class whose seat count is 0. *)
Definition zero_seat_classes : list (list string) :=
  [class_row [column 0 "2023-01-15 10:00:00"; column 1 "2023-01-15 11:00:00";
              column 6 "class-1"; column 10 "0"]].

Definition zero_seat_participants : list (list string) :=
  [participant_row [column 2 "class-1"; column 4 "tina"; column 9 "true";
                    column 10 "true"; column 12 "false"];
   participant_row [column 2 "class-1"; column 4 "sam"; column 9 "false";
                    column 10 "true"; column 12 "false"]].

(** A course of three classes with two students: one attends every class,
    the other one class out of three. *)
Definition course_classes : list (list string) :=
  [class_row [column 0 "2023-01-15 10:00:00"; column 1 "2023-01-15 11:00:00";
              column 6 "class-1"; column 10 "4"; column 29 "course-7"];
   class_row [column 0 "2023-01-22 10:00:00"; column 1 "2023-01-22 11:00:00";
              column 6 "class-2"; column 10 "4"; column 29 "course-7"];
   class_row [column 0 "2023-01-29 10:00:00"; column 1 "2023-01-29 11:00:00";
              column 6 "class-3"; column 10 "4"; column 29 "course-7"]].

Definition course_participants : list (list string) :=
  [participant_row [column 2 "class-1"; column 4 "ann"; column 10 "true"];
   participant_row [column 2 "class-1"; column 4 "bob"; column 10 "true"];
   participant_row [column 2 "class-2"; column 4 "ann"; column 10 "true"];
   participant_row [column 2 "class-2"; column 4 "bob"; column 10 "false"];
   participant_row [column 2 "class-3"; column 4 "ann"; column 10 "true"];
   participant_row [column 2 "class-3"; column 4 "bob"; column 10 "false"]].

Local Close Scope string_scope.

(** Whether a student object carries the username [u]. *)
Definition has_username (u : string) (st : Student) : bool :=
  str_eq_cell u (s_username st).

(** Whether the student [u] appears in a class the report includes. *)
Definition appears_in (options : Options) (u : string) (cls : Class) : bool :=
  (negb (classSkipped options cls) && existsb (has_username u) (students cls))%bool.

(** Whether the participations of [u] pass the student-level tests. *)
Definition listed (options : Options) (u : string) : bool :=
  (truthy (Some u) && negb (studentSkipped options u))%bool.

(** The state of the loop of the student report after the classes [done]
    and, of the class [current], the students [seen]. *)
Definition aggregates_inv (options : Options) (done : list Class)
    (current : option (Class * list Student))
    (m : object StudentAggregate) : Prop :=
  NoDup (map fst m)
  /\ (forall u agg,
        obj_get m u = Some agg ->
        sr_username agg = u
        /\ ((exists cls, find (appears_in options u) done = Some cls
                         /\ sr_company agg = company cls)
            \/ (find (appears_in options u) done = None
                /\ exists c seen, current = Some (c, seen)
                     /\ sr_company agg = company c
                     /\ existsb (has_username u) seen = true)))
  /\ (forall u,
        listed options u = true -> obj_get m u = None ->
        find (appears_in options u) done = None
        /\ forall c seen, current = Some (c, seen) ->
             existsb (has_username u) seen = false).

Local Open Scope string_scope.

(** A student whose first class belongs to one company and whose second
    class to another. *)
Definition two_company_classes : list (list string) :=
  [class_row [column 0 "2023-01-15 10:00:00"; column 1 "2023-01-15 11:00:00";
              column 5 "acme"; column 6 "class-1"; column 10 "1"];
   class_row [column 0 "2023-01-22 10:00:00"; column 1 "2023-01-22 11:00:00";
              column 5 "globex"; column 6 "class-2"; column 10 "1"]].

Definition two_company_participants : list (list string) :=
  [participant_row [column 2 "class-1"; column 4 "sam"; column 10 "true"];
   participant_row [column 2 "class-2"; column 4 "sam"; column 10 "true"]].

(** A student whose username is the name of a method every object
    inherits. *)
Definition inherited_name_participants : list (list string) :=
  [participant_row [column 2 "class-1"; column 4 "toString"; column 9 "false";
                    column 10 "true"]].

Definition all_students : Options :=
  {| opt_cancellationWindow := 24;
     companyId := "ALL";
     filterMode := mode_all;
     customList := [] |}.

Local Close Scope string_scope.

(** A stand-in for [parseFloat] on cells that hold no number. *)
Definition no_number (c : cell) : jsfrac := FNaN.

Local Open Scope string_scope.

(** A private class cancelled by its student ten days ahead. *)
Definition early_cancel_classes : list (list string) :=
  [class_row [column 0 "2023-01-15 10:00:00"; column 1 "2023-01-15 11:00:00";
              column 6 "class-1"; column 10 "1"]].

Definition early_cancel_participants : list (list string) :=
  [participant_row [column 2 "class-1"; column 4 "tina"; column 9 "true";
                    column 10 "false"; column 12 "false"];
   participant_row [column 2 "class-1"; column 4 "sam"; column 9 "false";
                    column 10 "false"; column 12 "true"; column 13 "sam";
                    column 14 "2023-01-05 10:00:00"]].

Local Close Scope string_scope.

(* ================================================================= *)
(** ** Further builders and handlers of [main.js] *)

(** *** 3.2 Teacher feedback listing *)

(** [(c || '').trim()] *)
Definition trimmed (c : cell) : string := trim (or_empty c).

(** The row pushed for a student with feedback or a rating. *)
Definition feedbackRow (teacherUsername : string) (classDate : cell)
    (student : Student) : list csv :=
  [Text teacherUsername;
   Text (or_empty (s_username student));
   Text (or_empty classDate);
   Text (quoted (trimmed (s_feedback student)));
   Text (trimmed (s_rating student))].

(** [feedback || rating] on the two trimmed texts. *)
Definition hasFeedback (student : Student) : bool :=
  (truthy (Some (trimmed (s_feedback student)))
   || truthy (Some (trimmed (s_rating student))))%bool.

(** One iteration of the loop over the classes. *)
Definition feedbackClass (rows : list (list csv)) (cls : Class)
    : list (list csv) :=
  match teacher_username cls with
  | None => rows
  | Some teacherUsername =>
      if negb (truthy (Some teacherUsername)) then rows
      else
        fold_left
          (fun rows student =>
             if hasFeedback student
             then rows ++ [feedbackRow teacherUsername (scheduledStart cls) student]
             else rows)
          (students cls) rows
  end.

(** [buildTeacherFeedbackCSV]: the data rows. *)
Definition buildTeacherFeedbackCSV (processedData : object Class)
    : list (list csv) :=
  fold_left feedbackClass (map snd processedData) [].

(* ----------------------------------------------------------------- *)
(** *** 3.3 Course detail report *)

(** [n.toString().padStart(2, '0')] for an integer. *)
Definition pad2 (n : Z) : string :=
  let s := NilZero.string_of_int (Z.to_int n) in
  if Nat.ltb (String.length s) 2 then ("0" ++ s)%string else s.

(** [x || 0] on a stored number. *)
Definition or_zero (x : jsnum) : Z :=
  match x with
  | NaN => 0
  | Int z => z
  end.

(** The text [hours:mins] of a class; [%] is the remainder that takes the
    sign of the dividend. *)
Definition durationText (cls : Class) : string :=
  let d := or_zero (scheduledDuration cls) in
  (pad2 (d / 60) ++ ":" ++ pad2 (Z.rem d 60))%string.

(** The cell of a student in the row of a class. *)
Definition studentCell (cls : Class) (username : cell) : csv :=
  match find (fun s => cell_eqb (s_username s) username) (students cls) with
  | None => Text EmptyString
  | Some studentObj =>
      if s_cancelled studentObj then Text "cancelled"
      else if s_attended studentObj then Text "attended"
      else Text "no show"
  end.

(** The result object of [buildCourseDetailReport]; [infoCsv] and
    [classListCsv] are kept as lists of rows, the empty list standing for
    the empty text. *)
Record CourseDetail : Type := mkCourseDetail {
  infoCsv : list (list csv);
  classListCsv : list (list csv);
  uniqueStudents : list cell
}.

Definition classNumber (idx : nat) : string :=
  ("Class " ++ NilZero.string_of_int (Z.to_int (Z.of_nat (idx + 1))))%string.

Section CourseDetail.

Variable Date_ms : string -> option Z.

(** [toLocaleDateString] and [toLocaleTimeString] of the host, on a time
    value or an invalid date. *)
Variable formatDate : option Z -> string.
Variable formatTime : option Z -> string.

Definition infoHeader : list csv :=
  [Text "course ID"; Text "teacher(s)"; Text "start date"; Text "end date";
   Text "level"; Text "subject"; Text "course description"; Text "seats";
   Text "students enrolled"; Text "total classes"; Text "attendance rate (%)"].

(** The row of one class in the class list; [None] is the [TypeError] of
    calling [replace] on an undefined [scheduledStart]. *)
Definition classListRow (students0 : list cell) (idx : nat) (cls : Class)
    : option (list csv) :=
  match scheduledStart cls with
  | None => None
  | Some start =>
      let dtObj := Date_ms (replace_space_T start) in
      let status :=
        if truthy (Some (cancelledBy cls)) then "cancelled"%string
        else "completed"%string in
      Some ([Text (classNumber idx); Text (formatDate dtObj);
             Text (formatTime dtObj); Text (durationText cls); Text status]
            ++ map (studentCell cls) students0)
  end.

(** [classes.forEach((cls, idx) => ...)] with the rows pushed so far. *)
Fixpoint classListRows (students0 : list cell) (idx : nat)
    (classes : list Class) (rows : list (list csv))
    : option (list (list csv)) :=
  match classes with
  | [] => Some rows
  | cls :: rest =>
      match classListRow students0 idx cls with
      | None => None
      | Some row => classListRows students0 (S idx) rest (rows ++ [row])
      end
  end.

Definition buildCourseDetailReport (processedData : object Class)
    (courseId : string) : option CourseDetail :=
  let classes :=
    sort_classes Date_ms
      (filter (fun cls => String.eqb (courseKey cls) courseId)
              (map snd processedData)) in
  match classes with
  | [] => Some (mkCourseDetail [] [] [])
  | firstClass :: _ =>
      let teachers := unique (filter truthy (map teacher_username classes)) in
      let '(allStudentUsernames, attendedCount, totalStudentParticipations) :=
        countParticipations classes in
      let students0 := unique allStudentUsernames in
      let infoRow :=
        [Text (quoted courseId);
         Text (quoted (join " - " (map or_empty teachers)));
         Text (quoted (String_of (scheduledStart firstClass)));
         Text (quoted (String_of (scheduledStart (last classes firstClass))));
         Text (quoted (level firstClass));
         Text (quoted (subject firstClass));
         Text (quoted EmptyString);
         Text (quoted (number_or_empty (available_seats firstClass)));
         Count (Z.of_nat (List.length students0));
         Count (Z.of_nat (List.length classes));
         attendanceRate attendedCount totalStudentParticipations] in
      let classListHeader :=
        [Text "class number"; Text "date"; Text "time"; Text "duration";
         Text "status"]
        ++ map (fun u => Text (quoted (String_of u))) students0 in
      match classListRows students0 0 classes [classListHeader] with
      | None => None
      | Some rows => Some (mkCourseDetail [infoHeader; infoRow] rows students0)
      end
  end.

End CourseDetail.

(* ----------------------------------------------------------------- *)
(** *** 4. Handlers: the pure steps *)

(** Step 8 of the upload handler: the usernames offered for the custom
    list, in order of first appearance. *)
Definition validatedStudentUsernames (data : object Class) : list string :=
  fold_left
    (fun acc cls =>
       fold_left
         (fun acc s =>
            match s_username s with
            | None => acc
            | Some u =>
                if (truthy (Some u) && negb (existsb (String.eqb u) acc))%bool
                then acc ++ [u] else acc
            end)
         (students cls) acc)
    (map snd data) [].

(** Step 3 of the hour-count handler: the classes whose rounded duration is
    one of the ticked durations ([includes] takes [NaN] as equal to
    itself). *)
Definition filterDurations (selectedDurations : list jsnum)
    (data : object Class) : object Class :=
  filter (fun entry =>
            existsb (key_eqb (minutes_of (scheduledDuration (snd entry))))
                    selectedDurations)
         data.

(** The metrics of the overview tables, in the order of their rows. *)
Inductive Metric : Type :=
| m_total | m_completed | m_cancelled | m_cancelledByStudent
| m_cancelledByTeacher | m_cancelledByAdmin | m_studentCancelledLate
| m_teacherNoShow | m_studentNoShow | m_bothNoShow.

Definition metrics : list Metric :=
  [m_total; m_completed; m_cancelled; m_cancelledByStudent;
   m_cancelledByTeacher; m_cancelledByAdmin; m_studentCancelledLate;
   m_teacherNoShow; m_studentNoShow; m_bothNoShow].

(** [bucket[m.key]] *)
Definition metric_value (m : Metric) (bucket : Tally) : Z :=
  match m with
  | m_total => o_total bucket
  | m_completed => o_completed bucket
  | m_cancelled => o_cancelled bucket
  | m_cancelledByStudent => o_cancelledByStudent bucket
  | m_cancelledByTeacher => o_cancelledByTeacher bucket
  | m_cancelledByAdmin => o_cancelledByAdmin bucket
  | m_studentCancelledLate => o_studentCancelledLate bucket
  | m_teacherNoShow => o_teacherNoShow bucket
  | m_studentNoShow => o_studentNoShow bucket
  | m_bothNoShow => o_bothNoShow bucket
  end.

(** The row of a metric in [render]: the value of every duration of the
    dataset, then their sum. A row is kept with its metric in place of the
    label text. *)
Definition metricRow (dataset : list (jsnum * Tally)) (durations : list jsnum)
    (m : Metric) : Metric * list Z * Z :=
  let '(row, totalSum) :=
    fold_left
      (fun acc d =>
         let v := metric_value m (get_or key_eqb dataset d zeroTally) in
         (fst acc ++ [v], snd acc + v))
      durations ([], 0) in
  (m, row, totalSum).

Definition render (dataset : list (jsnum * Tally))
    : list (Metric * list Z * Z) :=
  let durations := sort_durations (map fst dataset) in
  map (metricRow dataset durations) metrics.

(* ----------------------------------------------------------------- *)
(** *** Predicates used by the further statements *)

(** Whether a class row carries the slug [k]. *)
Definition has_slug (k : string) (cs : list string) : bool :=
  str_eq_cell k (col cs 6).

(** Strictly ascending numbers. *)
Fixpoint ascending (l : list jsnum) : Prop :=
  match l with
  | [] => True
  | x :: r =>
      match r with
      | [] => True
      | y :: _ => js_lt x y = true
      end /\ ascending r
  end.

Definition is_number (x : jsnum) : Prop := exists z, x = Int z.

(** The number of cells of a data row of the hour-count report. *)
Definition row_width (f : ClassTypeFilter) (simpleReport : bool) (n : nat) : nat :=
  match f with
  | both =>
      (1 + (n * cell_width simpleReport private + 2)
         + (n * cell_width simpleReport group + 2))%nat
  | only_private => (1 + (n * cell_width simpleReport private + 2))%nat
  | only_group => (1 + (n * cell_width simpleReport group + 2))%nat
  end.

(** The classes the hour-count report counts in the bucket [(t, d, ty)]. *)
Definition classes_of_bucket (settings : Settings) (t : string) (d : jsnum)
    (ty : ClassType) (data : object Class) : list Class :=
  filter (assigned_to settings t d ty) (map snd data).

(** The counters of the bucket [(t, d, ty)] as the specification counts
    them, over the classes the report counts in that bucket: the classes
    the teacher attended and those she missed, the late cancellations of
    the students (private classes, when they are paid), the classes she
    joined later than the limit (when tardiness is penalised) and the
    classes no student of which attended. *)
Definition session_counters (Date_ms : string -> option Z) (settings : Settings)
    (t : string) (d : jsnum) (ty : ClassType) (data : object Class) : Bucket :=
  let sessions := classes_of_bucket settings t d ty data in
  let count (p : Class -> bool) := Z.of_nat (List.length (filter p sessions)) in
  {| attended := count teacher_attended;
     noShow := count (fun cls => negb (teacher_attended cls));
     cancelled :=
       match ty with
       | private =>
           if payLastMinuteCancellation settings
           then sumZ (fun cls => lateCancellations Date_ms settings cls t) sessions
           else 0
       | group => 0
       end;
     late :=
       count (fun cls =>
                (teacher_attended cls && penaliseTardiness settings
                 && minutes_gt (minutes_of (teacher_tardiness cls))
                               (tardinessLimit settings))%bool);
     studentNoShow := count studentNoShow_counted |}.

(** The net count of the specification, in exact arithmetic. *)
Definition exact_netCount (settings : Settings) (type : ClassType)
    (bucket : Bucket) : Q :=
  (inject_Z (attended bucket)
   - (if penaliseTardiness settings then inject_Z (late bucket) else 0)
   + (match type with
      | private =>
          if payLastMinuteCancellation settings
          then inject_Z (cancelled bucket) else 0
      | group => 0
      end)
   - inject_Z (studentNoShow bucket)
     * (if payStudentNoShow settings
        then 1 - studentNoShowRate settings / 100 else 1))%Q.

(** The net count of a bucket when student no-shows are not paid: a whole
    number. *)
Definition whole_netCount (settings : Settings) (type : ClassType)
    (bucket : Bucket) : Z :=
  attended bucket
  - (if penaliseTardiness settings then late bucket else 0)
  + match type with
    | private =>
        if payLastMinuteCancellation settings then cancelled bucket else 0
    | group => 0
    end
  - studentNoShow bucket.

(** Counters and durations of a size the reports meet: at most [2^20]. *)
Definition moderate (bucket : Bucket) : Prop :=
  0 <= attended bucket <= 2 ^ 20 /\ 0 <= late bucket <= 2 ^ 20
  /\ 0 <= cancelled bucket <= 2 ^ 20 /\ 0 <= studentNoShow bucket <= 2 ^ 20.

(** The two totals of a type in a data row: the net counts of the
    durations, in their order, and the net counts times the durations,
    added up in double precision. *)
Definition sum_netCounts (settings : Settings) (type : ClassType)
    (durationBuckets : DurationBuckets) (durations : list jsnum) : double :=
  fold_left
    (fun acc d => dadd acc (netCount settings type (bucketFor durationBuckets d type)))
    durations (DFin 0).

Definition sum_minutes (settings : Settings) (type : ClassType)
    (durationBuckets : DurationBuckets) (durations : list jsnum) : double :=
  fold_left
    (fun acc d =>
       dadd acc (dmul (netCount settings type (bucketFor durationBuckets d type))
                      (d_of_jsnum d)))
    durations (DFin 0).

(** The same totals over whole net counts. *)
Definition whole_total (settings : Settings) (type : ClassType)
    (durationBuckets : DurationBuckets) (durations : list jsnum) : Z :=
  sumZ (fun d => whole_netCount settings type (bucketFor durationBuckets d type))
       durations.

Definition whole_minutes (settings : Settings) (type : ClassType)
    (durationBuckets : DurationBuckets) (durations : list jsnum) : Z :=
  sumZ (fun d => whole_netCount settings type (bucketFor durationBuckets d type)
                 * or_zero d)
       durations.

(** Settings that pay 70 % of a student no-show and do not penalise
    tardiness. *)
Definition seventy_settings : Settings :=
  {| tardinessLimit := 5;
     cancellationWindow := 24;
     penaliseTardiness := false;
     payLastMinuteCancellation := false;
     payStudentNoShow := true;
     studentNoShowRate := 70;
     classTypeFilter := both |}.

(** The place of the total count of a type in a data row. *)
Definition total_index (f : ClassTypeFilter) (simpleReport : bool) (n : nat)
    (type : ClassType) : nat :=
  (block_start f simpleReport n type + n * cell_width simpleReport type)%nat.

Definition private_only_settings : Settings :=
  {| tardinessLimit := 5;
     cancellationWindow := 24;
     penaliseTardiness := true;
     payLastMinuteCancellation := true;
     payStudentNoShow := false;
     studentNoShowRate := 0;
     classTypeFilter := only_private |}.

(** The classes [tally(type)] counts under the duration [d]. *)
Definition classes_of_duration (type : ClassType) (d : jsnum)
    (data : object Class) : list Class :=
  filter (fun cls => key_eqb d (minutes_of (scheduledDuration cls)))
         (filter (tallyFilter type) (map snd data)).

(** The cells a metric has in [render]: one value for each duration. *)
Definition metric_cells (dataset : list (jsnum * Tally)) (durations : list jsnum)
    (m : Metric) : list Z :=
  map (fun d => metric_value m (get_or key_eqb dataset d zeroTally)) durations.

(** The number of participations a student aggregate counts. *)
Definition totalClasses (s : StudentAggregate) : Z :=
  sr_totalGroup s + sr_totalPrivate s.

(** How the counters of a student aggregate fit together. *)
Definition counters_agree (s : StudentAggregate) : Prop :=
  totalClasses s = sr_attended s + sr_noShow s + sr_cancelled s
  /\ totalClasses s = Z.of_nat (List.length (sr_classDates s))
  /\ totalClasses s = sr_tardinessCount s
  /\ 0 <= sr_totalGroup s /\ 0 <= sr_totalPrivate s
  /\ 0 <= sr_attended s /\ 0 <= sr_noShow s
  /\ 0 <= sr_cancelledLate s
     <= Z.of_nat (List.length (sr_cancellationIntervals s))
  /\ Z.of_nat (List.length (sr_cancellationIntervals s)) <= sr_cancelled s
  /\ 0 <= sr_ratingCount s <= totalClasses s
  /\ Z.of_nat (List.length (sr_enrolmentIntervals s)) <= totalClasses s.

(** A rate cell that holds a number between 0 and 1. *)
Definition unit_rate (c : csv) : Prop :=
  exists q, c = Number (Frac q) /\ (0 <= q <= 1)%Q.

(** Whether a student object with the username [u] appears in the data. *)
Definition enrolled_in (data : object Class) (u : string) : Prop :=
  exists k cls st,
    In (k, cls) data /\ In st (students cls) /\ s_username st = Some u.

Local Open Scope string_scope.

Definition acme_only : Options :=
  {| opt_cancellationWindow := 24;
     companyId := "acme";
     filterMode := mode_company;
     customList := [] |}.

Local Close Scope string_scope.

(** The classes of a course, in the order of the data. *)
Definition classes_of_course (data : object Class) (courseId : string)
    : list Class :=
  filter (fun cls => String.eqb (courseKey cls) courseId) (map snd data).



(** How the counters of a teacher in the private-class report fit together. *)
Definition private_counters_agree (s : PrivateStats) : Prop :=
  tp_totalBooked s
  = tp_cancelledByTeacher s + tp_cancelledByStudent s + tp_cancelledByAdmin s
    + tp_totalRemaining s
  /\ 0 <= tp_cancelledByTeacher s /\ 0 <= tp_cancelledByStudent s
  /\ 0 <= tp_cancelledByAdmin s
  /\ 0 <= tp_teacherNoShows s /\ 0 <= tp_studentNoShows s
  /\ tp_teacherNoShows s + tp_studentNoShows s <= tp_totalRemaining s
  /\ tp_teacherTardinessCount s = tp_totalBooked s
  /\ 0 <= tp_ratingCount s <= tp_feedbackCount s
  /\ tp_feedbackCount s <= tp_studentTardinessCount s.

(** How the counters of a teacher in the group-class report fit together. *)
Definition group_counters_agree (s : GroupStats) : Prop :=
  tg_cancelledByTeacher s + tg_cancelledByAdmin s + tg_totalRemaining s
  <= tg_totalBooked s
  /\ 0 <= tg_cancelledByTeacher s /\ 0 <= tg_cancelledByAdmin s
  /\ 0 <= tg_teacherNoShows s <= tg_totalRemaining s
  /\ 0 <= tg_classStudentNoShowClasses s <= tg_totalRemaining s
  /\ tg_classStudentNoShowClasses s <= tg_classStudentNoShowTotal s
  /\ tg_teacherTardinessCount s = tg_totalBooked s
  /\ 0 <= tg_ratingCount s <= tg_feedbackClassCount s
  /\ tg_feedbackClassCount s <= tg_studentTardinessCount s.

(** A class whose status by flags and status by [cancelledBy] agree. *)
Definition flags_agree (cls : Class) : Prop :=
  (cancelledByStudent cls || cancelledByTeacher cls || cancelledByAdmin cls)%bool
  = truthy (Some (cancelledBy cls)).

(** The cells of a row of the course overview in the order of the info row
    of the course detail report. *)
Definition info_of_overview (row : list csv) : list csv :=
  match row with
  | [c0; c1; c2; c3; c4; c5; c6; c7; c8; c9; c10] =>
      [c0; c1; c2; c3; c4; c5; c6; c8; c9; c7; c10]
  | _ => []
  end.

(* ================================================================= *)
(** * Properties *)

(** ** Association maps *)

Section AssocFacts.

Context {K V : Type}.
Variable eqb : K -> K -> bool.
Hypothesis eqb_eq : forall a b, eqb a b = true <-> a = b.

Lemma eqb_refl_true (k : K) : eqb k k = true.
Proof. now apply eqb_eq. Qed.

Lemma eqb_neq_false (a b : K) : a <> b -> eqb a b = false.
Proof.
  intros Hne. destruct (eqb a b) eqn:E; [|reflexivity].
  apply eqb_eq in E. contradiction.
Qed.

Lemma aget_aset_same (o : list (K * V)) k v :
  aget eqb (aset eqb o k v) k = Some v.
Proof.
  induction o as [|[k' v'] r IH]; simpl.
  - now rewrite eqb_refl_true.
  - destruct (eqb k k') eqn:E; simpl; rewrite E; auto.
Qed.

Lemma aget_aset_other (o : list (K * V)) k k0 v :
  k0 <> k -> aget eqb (aset eqb o k v) k0 = aget eqb o k0.
Proof.
  intros Hne. induction o as [|[k' v'] r IH]; simpl.
  - now rewrite (eqb_neq_false k0 k).
  - destruct (eqb k k') eqn:E; simpl.
    + apply eqb_eq in E. subst k'. now rewrite (eqb_neq_false k0 k).
    + destruct (eqb k0 k'); auto.
Qed.

Lemma In_aset (o : list (K * V)) k v k0 v0 :
  In (k0, v0) (aset eqb o k v) -> In (k0, v0) o \/ (k0 = k /\ v0 = v).
Proof.
  induction o as [|[k' v'] r IH]; simpl.
  - intros [H|[]]. inversion H. auto.
  - destruct (eqb k k') eqn:E; simpl.
    + intros [H|H]; [|auto]. inversion H. subst.
      apply eqb_eq in E. auto.
    + intros [H|H]; [auto|]. destruct (IH H) as [?|?]; auto.
Qed.

Lemma aget_In (o : list (K * V)) k v :
  aget eqb o k = Some v -> In (k, v) o.
Proof.
  induction o as [|[k' v'] r IH]; simpl; [discriminate|].
  destruct (eqb k k') eqn:E.
  - intros H. inversion H. apply eqb_eq in E. subst. auto.
  - auto.
Qed.

Lemma In_aget (o : list (K * V)) k v :
  In (k, v) o -> exists v', aget eqb o k = Some v'.
Proof.
  induction o as [|[k' v'] r IH]; simpl; [tauto|].
  intros [H|H].
  - inversion H. subst. rewrite eqb_refl_true. eauto.
  - destruct (eqb k k'); eauto.
Qed.

Lemma get_or_aset_same (o : list (K * V)) k v d :
  get_or eqb (aset eqb o k v) k d = v.
Proof. unfold get_or. now rewrite aget_aset_same. Qed.

Lemma get_or_aset_other (o : list (K * V)) k k0 v d :
  k0 <> k -> get_or eqb (aset eqb o k v) k0 d = get_or eqb o k0 d.
Proof. intros. unfold get_or. now rewrite aget_aset_other. Qed.

End AssocFacts.

Lemma key_eqb_eq (a b : jsnum) : key_eqb a b = true <-> a = b.
Proof.
  destruct a, b; simpl; split; try discriminate; try reflexivity.
  - intros H. apply Z.eqb_eq in H. now subst.
  - intros H. inversion H. apply Z.eqb_refl.
Qed.

(* ================================================================= *)
(** ** Double precision: rounding facts *)

Arguments pow2 : simpl never.

Local Open Scope Q_scope.

Lemma pow2_pos (e : Z) : 0 < pow2 e.
Proof. unfold pow2. apply Qpower_0_lt. reflexivity. Qed.

Lemma pow2_plus (a b : Z) : pow2 (a + b) == pow2 a * pow2 b.
Proof. unfold pow2. apply Qpower_plus. discriminate. Qed.

Lemma pow2_le (a b : Z) : (a <= b)%Z -> pow2 a <= pow2 b.
Proof. intros H. unfold pow2. apply Qpower_le_compat_l; [exact H|]. discriminate. Qed.

Lemma pow2_lt (a b : Z) : (a < b)%Z -> pow2 a < pow2 b.
Proof. intros H. unfold pow2. apply Qpower_lt_compat_l; [exact H|]. reflexivity. Qed.

Lemma pow2_le_inv (a b : Z) : pow2 a <= pow2 b -> (a <= b)%Z.
Proof. intros H. unfold pow2 in H. apply Qpower_le_compat_l_inv in H; [exact H|]. reflexivity. Qed.

Lemma pow2_lt_inv (a b : Z) : pow2 a < pow2 b -> (a < b)%Z.
Proof. intros H. unfold pow2 in H. apply Qpower_lt_compat_l_inv in H; [exact H|]. reflexivity. Qed.

Lemma pow2_Z (e : Z) : (0 <= e)%Z -> pow2 e == inject_Z (2 ^ e).
Proof. intros H. unfold pow2. symmetry. apply (Zpower_Qpower 2 e H). Qed.

Lemma pow2_0 : pow2 0 == 1.
Proof. reflexivity. Qed.

Lemma pow2_half (e : Z) : pow2 e / 2 == pow2 (e - 1).
Proof.
  replace e with ((e - 1) + 1)%Z at 1 by lia. rewrite pow2_plus.
  change (pow2 1) with 2. field.
Qed.

Lemma Zlog2_pow2 (n : Z) :
  (0 < n)%Z -> pow2 (Z.log2 n) <= inject_Z n /\ inject_Z n < pow2 (Z.log2 n + 1).
Proof.
  intros Hn. destruct (Z.log2_spec n Hn) as [H1 H2].
  pose proof (Z.log2_nonneg n) as H0.
  rewrite !pow2_Z by lia. split.
  - rewrite <- Zle_Qle. exact H1.
  - rewrite <- Zlt_Qlt. replace (Z.log2 n + 1)%Z with (Z.succ (Z.log2 n)) by lia.
    exact H2.
Qed.

Lemma ilog2_spec (q : Q) :
  0 < q -> pow2 (ilog2 q) <= q /\ q < pow2 (ilog2 q + 1).
Proof.
  intros Hq. unfold ilog2.
  destruct q as [n d]. cbn [Qnum Qden].
  assert (Hn : (0 < n)%Z).
  { unfold Qlt in Hq. simpl in Hq. lia. }
  destruct (Zlog2_pow2 n Hn) as [N1 N2].
  destruct (Zlog2_pow2 (Zpos d) (Pos2Z.is_pos d)) as [D1 D2].
  set (a := Z.log2 n) in *. set (b := Z.log2 (Z.pos d)) in *.
  assert (Hd : 0 < inject_Z (Z.pos d)) by reflexivity.
  assert (E : n # d == inject_Z n / inject_Z (Z.pos d)).
  { rewrite (Qmake_Qdiv n d). reflexivity. }
  assert (Hup : n # d < pow2 (a - b + 1)).
  { rewrite E. apply Qlt_shift_div_r; [exact Hd|].
    eapply Qlt_le_trans; [exact N2|].
    replace (a + 1)%Z with ((a - b + 1) + b)%Z by lia. rewrite pow2_plus.
    apply Qmult_le_l; [apply pow2_pos|exact D1]. }
  assert (Hlo : pow2 (a - b - 1) <= n # d).
  { rewrite E. apply Qle_shift_div_l; [exact Hd|].
    eapply Qle_trans; [|exact N1].
    replace a with ((a - b - 1) + (b + 1))%Z at 2 by lia. rewrite pow2_plus.
    apply Qmult_le_l; [apply pow2_pos|]. apply Qlt_le_weak. exact D2. }
  destruct (Qle_bool (pow2 (a - b)) (n # d)) eqn:T.
  - apply Qle_bool_iff in T. split; assumption.
  - split; [exact Hlo|].
    replace (a - b - 1 + 1)%Z with (a - b)%Z by lia.
    apply Qnot_le_lt. intros H. apply Qle_bool_iff in H. congruence.
Qed.

Lemma ilog2_unique (q : Q) (k : Z) :
  pow2 k <= q -> q < pow2 (k + 1) -> ilog2 q = k.
Proof.
  intros H1 H2.
  assert (Hq : 0 < q) by (eapply Qlt_le_trans; [apply (pow2_pos k)|exact H1]).
  destruct (ilog2_spec q Hq) as [S1 S2].
  assert (A : (ilog2 q < k + 1)%Z).
  { apply pow2_lt_inv. eapply Qle_lt_trans; [exact S1|exact H2]. }
  assert (B : (k < ilog2 q + 1)%Z).
  { apply pow2_lt_inv. eapply Qle_lt_trans; [exact H1|exact S2]. }
  lia.
Qed.

Lemma ilog2_comp (q q' : Q) : q == q' -> 0 < q -> ilog2 q = ilog2 q'.
Proof.
  intros E Hq. symmetry. destruct (ilog2_spec q Hq) as [S1 S2].
  apply ilog2_unique; rewrite <- E; assumption.
Qed.

Lemma ilog2_le (q : Q) (K : Z) : 0 < q -> q <= pow2 K -> (ilog2 q <= K)%Z.
Proof.
  intros Hq H. destruct (ilog2_spec q Hq) as [S1 _].
  apply pow2_le_inv. eapply Qle_trans; [exact S1|exact H].
Qed.

(** *** Rounding to the nearest integer, ties to even *)

Lemma round_half_even_cases (x : Q) :
  let f := Qfloor x in
  (round_half_even x = f /\ x - inject_Z f <= 1 # 2)
  \/ (round_half_even x = (f + 1)%Z /\ 1 # 2 <= x - inject_Z f).
Proof.
  cbn zeta. unfold round_half_even.
  destruct (Qcompare_spec (x - inject_Z (Qfloor x)) (1 # 2)) as [E|L|G].
  - destruct (Z.even (Qfloor x)); [left|right]; split; try reflexivity;
      rewrite E; apply Qle_refl.
  - left. split; [reflexivity|]. apply Qlt_le_weak. exact L.
  - right. split; [reflexivity|]. apply Qlt_le_weak. exact G.
Qed.

Lemma round_half_even_close (x : Q) :
  Qabs (inject_Z (round_half_even x) - x) <= 1 # 2.
Proof.
  pose proof (Qfloor_le x) as H1. pose proof (Qlt_floor x) as H2.
  rewrite inject_Z_plus in H2. change (inject_Z 1) with 1 in H2.
  destruct (round_half_even_cases x) as [[-> H]|[-> H]];
    apply Qabs_Qle_condition;
    [|rewrite inject_Z_plus; change (inject_Z 1) with 1];
    set (f := inject_Z (Qfloor x)) in *; clearbody f; split; lra.
Qed.

Lemma round_half_even_Z (z : Z) : round_half_even (inject_Z z) = z.
Proof.
  unfold round_half_even. rewrite Qfloor_Z.
  destruct (Qcompare_spec (inject_Z z - inject_Z z) (1 # 2)) as [E|L|G].
  - exfalso. assert (H : inject_Z z - inject_Z z == 0) by ring.
    rewrite H in E. discriminate.
  - reflexivity.
  - exfalso. assert (H : inject_Z z - inject_Z z == 0) by ring.
    rewrite H in G. discriminate.
Qed.

Lemma round_half_even_le (x : Q) (N : Z) :
  x <= inject_Z N -> (round_half_even x <= N)%Z.
Proof.
  intros H. pose proof (Qfloor_le x) as H1.
  assert (Hf : (Qfloor x <= N)%Z).
  { rewrite <- (Qfloor_Z N). apply Qfloor_resp_le. exact H. }
  destruct (round_half_even_cases x) as [[-> _]|[-> G]]; [exact Hf|].
  assert (L : (Qfloor x < N)%Z); [|lia].
  rewrite Zlt_Qlt. set (f := inject_Z (Qfloor x)) in *. clearbody f. lra.
Qed.

Lemma round_half_even_ge (x : Q) (N : Z) :
  inject_Z N <= x -> (N <= round_half_even x)%Z.
Proof.
  intros H.
  assert (Hf : (N <= Qfloor x)%Z).
  { rewrite <- (Qfloor_Z N). apply Qfloor_resp_le. exact H. }
  destruct (round_half_even_cases x) as [[-> _]|[-> _]]; lia.
Qed.

Lemma round_half_even_comp (x y : Q) :
  x == y -> round_half_even x = round_half_even y.
Proof.
  intros E. unfold round_half_even. rewrite (Qfloor_comp x y E).
  assert (C : (x - inject_Z (Qfloor y) ?= 1 # 2) = (y - inject_Z (Qfloor y) ?= 1 # 2)).
  { apply Qcompare_comp; [|reflexivity]. rewrite E. reflexivity. }
  now rewrite C.
Qed.

(** *** Rounding to the nearest double *)

Lemma Qred_inject_Z (z : Z) : Qred (inject_Z z) = inject_Z z.
Proof.
  unfold Qred, inject_Z. cbn [Qnum Qden].
  pose proof (Z.ggcd_gcd z 1) as G. pose proof (Z.ggcd_correct_divisors z 1) as C.
  destruct (Z.ggcd z 1) as [g [aa bb]]. cbn [fst snd] in *.
  rewrite Z.gcd_1_r in G. subst g. destruct C as [C1 C2].
  rewrite Z.mul_1_l in C1, C2. subst aa bb. reflexivity.
Qed.

Lemma Qabs_pos_lt (q : Q) : ~ q == 0 -> 0 < Qabs q.
Proof.
  intros H. destruct (Qlt_le_dec 0 (Qabs q)) as [L|L]; [exact L|].
  exfalso. apply H. pose proof (Qabs_nonneg q) as N.
  assert (E : Qabs q == 0) by (apply Qle_antisym; assumption).
  revert E. apply Qabs_case; intros; lra.
Qed.

Lemma ulp_exponent_comp (q q' : Q) :
  q == q' -> ~ q == 0 -> ulp_exponent q = ulp_exponent q'.
Proof.
  intros E H. unfold ulp_exponent.
  rewrite (ilog2_comp (Qabs q) (Qabs q')); [reflexivity| |].
  - now apply Qabs_wd.
  - now apply Qabs_pos_lt.
Qed.

Lemma round64_comp (q q' : Q) : q == q' -> round64 q = round64 q'.
Proof.
  intros E. unfold round64.
  destruct (Qeq_bool q 0) eqn:Z0.
  - apply Qeq_bool_iff in Z0.
    assert (Z1 : Qeq_bool q' 0 = true).
    { apply Qeq_bool_iff. now rewrite <- E. }
    now rewrite Z1.
  - assert (N : ~ q == 0).
    { intros H. apply Qeq_bool_iff in H. congruence. }
    assert (Z1 : Qeq_bool q' 0 = false).
    { destruct (Qeq_bool q' 0) eqn:T; [|reflexivity].
      apply Qeq_bool_iff in T. exfalso. apply N. now rewrite E. }
    rewrite Z1. cbn zeta. rewrite <- (ulp_exponent_comp q q' E N).
    apply Qred_complete.
    rewrite (round_half_even_comp (q / pow2 (ulp_exponent q))
                                  (q' / pow2 (ulp_exponent q))).
    + reflexivity.
    + unfold Qdiv. apply Qmult_comp; [exact E|reflexivity].
Qed.

Lemma round64_0 : round64 0 = 0.
Proof. reflexivity. Qed.

Lemma round64_value (q : Q) :
  ~ q == 0 ->
  round64 q
  == inject_Z (round_half_even (q / pow2 (ulp_exponent q)))
     * pow2 (ulp_exponent q).
Proof.
  intros N. unfold round64.
  destruct (Qeq_bool q 0) eqn:Z0.
  - apply Qeq_bool_iff in Z0. contradiction.
  - cbn zeta. apply Qred_correct.
Qed.

(** The rounding error is at most half a unit of the last place. *)
Lemma round64_half_ulp (q : Q) :
  ~ q == 0 -> Qabs (round64 q - q) <= pow2 (ulp_exponent q - 1).
Proof.
  intros N. rewrite (round64_value q N).
  set (e := ulp_exponent q). pose proof (pow2_pos e) as P.
  pose proof (round_half_even_close (q / pow2 e)) as C.
  set (m := inject_Z (round_half_even (q / pow2 e))) in *.
  assert (E : m * pow2 e - q == (m - q / pow2 e) * pow2 e).
  { field. intros H. rewrite H in P. discriminate. }
  rewrite E, Qabs_Qmult, (Qabs_pos (pow2 e)) by (apply Qlt_le_weak; exact P).
  rewrite <- pow2_half.
  assert (H : Qabs (m - q / pow2 e) * pow2 e <= (1 # 2) * pow2 e).
  { apply Qmult_le_compat_r; [exact C|]. apply Qlt_le_weak. exact P. }
  eapply Qle_trans; [exact H|]. apply Qle_lteq. right. field.
Qed.

Lemma ulp_exponent_le (q : Q) (K : Z) :
  ~ q == 0 -> Qabs q <= pow2 K -> (-1022 <= K)%Z ->
  (ulp_exponent q <= K - 52)%Z.
Proof.
  intros N H HK. unfold ulp_exponent.
  pose proof (ilog2_le (Qabs q) K (Qabs_pos_lt q N) H). lia.
Qed.

(** The absolute error of rounding a value of magnitude at most [2^K]. *)
Lemma round64_error (q : Q) (K : Z) :
  Qabs q <= pow2 K -> (-1022 <= K)%Z ->
  Qabs (round64 q - q) <= pow2 (K - 53).
Proof.
  intros H HK. destruct (Qeq_dec q 0) as [Z0|N].
  - rewrite (round64_comp q 0 Z0), round64_0.
    assert (E : 0 - q == 0) by (rewrite Z0; ring).
    rewrite E. apply Qlt_le_weak. apply pow2_pos.
  - eapply Qle_trans; [apply (round64_half_ulp q N)|].
    apply pow2_le. pose proof (ulp_exponent_le q K N H HK). lia.
Qed.

(** A bound that is a multiple of the last place is kept by rounding. *)
Lemma round64_le (q : Q) (M j : Z) :
  (~ q == 0 -> (ulp_exponent q <= j)%Z) ->
  q <= inject_Z M * pow2 j -> round64 q <= inject_Z M * pow2 j.
Proof.
  intros Hj H. destruct (Qeq_dec q 0) as [Z0|N].
  - rewrite (round64_comp q 0 Z0), round64_0. now rewrite <- Z0.
  - specialize (Hj N).
    rewrite (round64_value q N). set (e := ulp_exponent q) in *.
    pose proof (pow2_pos e) as P.
    assert (Ej : pow2 j == inject_Z (2 ^ (j - e)) * pow2 e).
    { rewrite <- pow2_Z by lia. rewrite <- pow2_plus.
      replace (j - e + e)%Z with j by lia. reflexivity. }
    assert (Hm : (round_half_even (q / pow2 e) <= M * 2 ^ (j - e))%Z).
    { apply round_half_even_le. apply Qle_shift_div_r; [exact P|].
      rewrite inject_Z_mult, <- Qmult_assoc, <- Ej. exact H. }
    rewrite Ej, Qmult_assoc, <- inject_Z_mult.
    apply Qmult_le_compat_r; [|apply Qlt_le_weak; exact P].
    rewrite <- Zle_Qle. exact Hm.
Qed.

Lemma round64_ge (q : Q) (M j : Z) :
  (~ q == 0 -> (ulp_exponent q <= j)%Z) ->
  inject_Z M * pow2 j <= q -> inject_Z M * pow2 j <= round64 q.
Proof.
  intros Hj H. destruct (Qeq_dec q 0) as [Z0|N].
  - rewrite (round64_comp q 0 Z0), round64_0. now rewrite <- Z0.
  - specialize (Hj N).
    rewrite (round64_value q N). set (e := ulp_exponent q) in *.
    pose proof (pow2_pos e) as P.
    assert (Ej : pow2 j == inject_Z (2 ^ (j - e)) * pow2 e).
    { rewrite <- pow2_Z by lia. rewrite <- pow2_plus.
      replace (j - e + e)%Z with j by lia. reflexivity. }
    assert (Hm : (M * 2 ^ (j - e) <= round_half_even (q / pow2 e))%Z).
    { apply round_half_even_ge. apply Qle_shift_div_l; [exact P|].
      rewrite inject_Z_mult, <- Qmult_assoc, <- Ej. exact H. }
    rewrite Ej, Qmult_assoc, <- inject_Z_mult.
    apply Qmult_le_compat_r; [|apply Qlt_le_weak; exact P].
    rewrite <- Zle_Qle. exact Hm.
Qed.

(** A multiple of the last place is a double. *)
Lemma round64_exact (q : Q) (M j : Z) :
  (~ q == 0 -> (ulp_exponent q <= j)%Z) ->
  q == inject_Z M * pow2 j -> round64 q == q.
Proof.
  intros Hj E. apply Qle_antisym.
  - rewrite E at 2. apply round64_le; [exact Hj|]. rewrite E. apply Qle_refl.
  - rewrite E at 1. apply round64_ge; [exact Hj|]. rewrite E. apply Qle_refl.
Qed.

Lemma round64_nonneg (q : Q) : 0 <= q -> 0 <= round64 q.
Proof.
  intros H.
  assert (E : 0 == inject_Z 0 * pow2 (ulp_exponent q)) by ring.
  rewrite E. apply round64_ge; [intros _; lia|]. now rewrite <- E.
Qed.

Lemma Qabs_inject_Z (z : Z) : Qabs (inject_Z z) == inject_Z (Z.abs z).
Proof.
  destruct (Z.abs_spec z) as [[H ->]|[H ->]].
  - apply Qabs_pos. change 0 with (inject_Z 0). rewrite <- Zle_Qle. exact H.
  - rewrite Qabs_neg.
    + now rewrite inject_Z_opp.
    + change 0 with (inject_Z 0). rewrite <- Zle_Qle. lia.
Qed.

Lemma ulp_exponent_lt (q : Q) (K : Z) :
  ~ q == 0 -> Qabs q < pow2 (K + 1) -> (-1022 <= K)%Z ->
  (ulp_exponent q <= K - 52)%Z.
Proof.
  intros N H HK. unfold ulp_exponent.
  destruct (ilog2_spec (Qabs q) (Qabs_pos_lt q N)) as [S1 _].
  assert (L : (ilog2 (Qabs q) < K + 1)%Z).
  { apply pow2_lt_inv. eapply Qle_lt_trans; [exact S1|exact H]. }
  lia.
Qed.

(** Integers below [2^53] are doubles. *)
Lemma round64_Z (z : Z) :
  (Z.abs z < 2 ^ 53)%Z -> round64 (inject_Z z) = inject_Z z.
Proof.
  intros H. rewrite <- (Qred_inject_Z z) at 2.
  destruct (Z.eq_dec z 0) as [->|N]; [reflexivity|].
  assert (NQ : ~ inject_Z z == 0).
  { intros E. apply N. apply (proj1 (inject_Z_injective z 0)). exact E. }
  assert (Hexp : (ulp_exponent (inject_Z z) <= 0)%Z).
  { assert (L : (ulp_exponent (inject_Z z) <= 52 - 52)%Z); [|lia].
    apply ulp_exponent_lt; [exact NQ| |lia].
    rewrite Qabs_inject_Z, (pow2_Z (52 + 1)) by lia. rewrite <- Zlt_Qlt.
    exact H. }
  unfold round64.
  destruct (Qeq_bool (inject_Z z) 0) eqn:Z0.
  { apply Qeq_bool_iff in Z0. contradiction. }
  cbn zeta. apply Qred_complete.
  rewrite <- (round64_value (inject_Z z) NQ).
  apply (round64_exact (inject_Z z) z 0 (fun _ => Hexp)).
  rewrite pow2_0. ring.
Qed.

(** A bound [M * 2^j] is kept when rounding a value of magnitude at most
    [2^K], if the doubles of that magnitude are multiples of [2^j]. *)
Lemma round64_upper (q : Q) (M j K : Z) :
  Qabs q <= pow2 K -> (-1022 <= K)%Z -> (K - 52 <= j)%Z ->
  q <= inject_Z M * pow2 j -> round64 q <= inject_Z M * pow2 j.
Proof.
  intros HK H1 H2 H. apply round64_le; [|exact H].
  intros N. pose proof (ulp_exponent_le q K N HK H1). lia.
Qed.

(** *** Doubles *)

Lemma binary64_comp (q q' : Q) : q == q' -> binary64 q = binary64 q'.
Proof. intros E. unfold binary64. now rewrite (round64_comp q q' E). Qed.

(** No overflow below [2^1023]. *)
Lemma binary64_finite (q : Q) (K : Z) :
  Qabs q <= pow2 K -> (-1022 <= K <= 1023)%Z ->
  binary64 q = DFin (round64 q).
Proof.
  intros H HK. unfold binary64.
  destruct (Qle_bool (pow2 1024) (Qabs (round64 q))) eqn:T; [|reflexivity].
  exfalso. apply Qle_bool_iff in T.
  pose proof (round64_error q K H (proj1 HK)) as E.
  assert (B : Qabs (round64 q) <= Qabs q + Qabs (round64 q - q)).
  { assert (S : round64 q == q + (round64 q - q)) by ring.
    rewrite S at 1. apply Qabs_triangle. }
  assert (P1 : pow2 (K - 53) < pow2 K) by (apply pow2_lt; lia).
  assert (P2 : pow2 (K + 1) <= pow2 1024) by (apply pow2_le; lia).
  assert (P3 : pow2 (K + 1) == 2 * pow2 K).
  { rewrite pow2_plus. change (pow2 1) with 2. ring. }
  set (a := Qabs (round64 q)) in *. set (b := Qabs q) in *.
  set (c := Qabs (round64 q - q)) in *.
  set (x := pow2 K) in *. set (y := pow2 (K - 53)) in *.
  set (u := pow2 (K + 1)) in *. set (v := pow2 1024) in *.
  clearbody a b c x y u v. lra.
Qed.

Lemma binary64_Z (z : Z) :
  (Z.abs z < 2 ^ 53)%Z -> binary64 (inject_Z z) = DFin (inject_Z z).
Proof.
  intros H. rewrite (binary64_finite (inject_Z z) 53).
  - now rewrite round64_Z.
  - rewrite Qabs_inject_Z, (pow2_Z 53) by lia. rewrite <- Zle_Qle. lia.
  - lia.
Qed.

Local Close Scope Q_scope.

(** ** The normalizer *)

Arguments col : simpl never.
Arguments truthy : simpl never.
Arguments timestampDiff : simpl never.

Lemma truthy_nonempty (s : string) :
  truthy (Some s) = true <-> s <> EmptyString.
Proof.
  unfold truthy. destruct (String.eqb_spec s EmptyString); simpl; split;
    congruence.
Qed.

Section NormalizerFacts.

Variable Date_ms : string -> option Z.

Lemma processRow_In pd (out : object Class) cs k cls :
  In (k, cls) (processRow Date_ms pd out cs) ->
  In (k, cls) out \/
  (col cs 6 = Some k /\ truthy (Some k) = true /\ cls = makeClass Date_ms pd k cs).
Proof.
  unfold processRow. destruct (col cs 6) as [slug0|]; [|auto].
  destruct (truthy (Some slug0)) eqn:T; [|auto].
  intros H. apply (In_aset String.eqb String.eqb_eq) in H.
  destruct H as [H|[-> ->]]; auto.
Qed.

(** Every class of the model was built by [makeClass] from a class row
    that carries its slug. *)
Lemma processData_In cd pd k cls :
  In (k, cls) (processData Date_ms cd pd) ->
  exists cs, In cs cd /\ col cs 6 = Some k /\ truthy (Some k) = true
             /\ cls = makeClass Date_ms pd k cs.
Proof.
  unfold processData.
  assert (G : forall out,
    In (k, cls) (fold_left (processRow Date_ms pd) cd out) ->
    In (k, cls) out \/
    exists cs, In cs cd /\ col cs 6 = Some k /\ truthy (Some k) = true
               /\ cls = makeClass Date_ms pd k cs).
  { induction cd as [|c r IH]; simpl; [auto|].
    intros out H. destruct (IH _ H) as [H1|[cs [Hin Hcs]]].
    - apply processRow_In in H1. destruct H1 as [?|?]; [auto|].
      right. exists c. tauto.
    - right. exists cs. tauto. }
  intros H. destruct (G [] H) as [[]|?]. assumption.
Qed.

Lemma timestampDiff_missing (a b : cell) :
  truthy a = false \/ truthy b = false -> timestampDiff Date_ms a b = Int 0.
Proof.
  unfold timestampDiff. intros [-> | ->]; simpl; [reflexivity|].
  now rewrite orb_true_r.
Qed.

Lemma timestampDiff_invalid (a b : cell) :
  truthy a = true -> truthy b = true ->
  Date_ms (replace_space_T (or_empty a)) = None \/
  Date_ms (replace_space_T (or_empty b)) = None ->
  timestampDiff Date_ms a b = NaN.
Proof.
  unfold timestampDiff. intros -> ->. simpl. intros [-> | ->].
  - reflexivity.
  - now destruct (Date_ms (replace_space_T (or_empty a))).
Qed.

End NormalizerFacts.

(* ----------------------------------------------------------------- *)
(** *** Timestamps that are missing or do not parse *)

Local Open Scope string_scope.

(** C6, as stated, fails: with a timestamp that is present but is not a
    date, the difference is [NaN], not 0. *)
Lemma timestampDiff_unparseable_not_zero :
  truthy (Some "unknown") = true /\
  isoDate (replace_space_T "unknown") = None /\
  timestampDiff isoDate (Some "unknown") (Some "2023-01-15 10:00:00") = NaN /\
  timestampDiff isoDate (Some "unknown") (Some "2023-01-15 10:00:00") <> Int 0.
Proof. repeat split; try reflexivity. discriminate. Qed.

(** C6, amended: the difference is 0 when either timestamp is missing
    (undefined or empty), for every date parser; when both are present and
    one does not parse it is [NaN]; and the [scheduledDuration] of every
    class of the model is the difference of the start and end columns of a
    class row, hence 0 when either of them is missing. *)
Theorem timestampDiff_missing_zero_invalid_nan :
  forall (Date_ms : string -> option Z) (a b : cell),
    (truthy a = false \/ truthy b = false -> timestampDiff Date_ms a b = Int 0)
    /\ (truthy a = true -> truthy b = true ->
        Date_ms (replace_space_T (or_empty a)) = None \/
        Date_ms (replace_space_T (or_empty b)) = None ->
        timestampDiff Date_ms a b = NaN)
    /\ (forall cd pd k cls,
          In (k, cls) (processData Date_ms cd pd) ->
          exists cs, In cs cd /\
            scheduledDuration cls = timestampDiff Date_ms (col cs 0) (col cs 1) /\
            (truthy (col cs 0) = false \/ truthy (col cs 1) = false ->
             scheduledDuration cls = Int 0)).
Proof.
  intros D a b. split; [apply timestampDiff_missing|].
  split; [apply timestampDiff_invalid|].
  intros cd pd k cls Hin.
  destruct (processData_In D cd pd k cls Hin) as [cs [Hcs [_ [_ ->]]]].
  exists cs. split; [assumption|]. split; [reflexivity|].
  simpl. apply timestampDiff_missing.
Qed.

Lemma timestampDiff_missing_zero_invalid_nan_witness :
  timestampDiff isoDate (Some EmptyString) (Some "2023-01-15 10:00:00") = Int 0 /\
  timestampDiff isoDate (Some "unknown") (Some "2023-01-15 10:00:00") = NaN /\
  exists cs, In cs open_ended_classes /\
    scheduledDuration (makeClass isoDate [] "class-1" (hd [] open_ended_classes))
      = timestampDiff isoDate (col cs 0) (col cs 1) /\
    (truthy (col cs 0) = false \/ truthy (col cs 1) = false ->
     scheduledDuration (makeClass isoDate [] "class-1" (hd [] open_ended_classes))
       = Int 0).
Proof.
  destruct (timestampDiff_missing_zero_invalid_nan isoDate
              (Some EmptyString) (Some "2023-01-15 10:00:00")) as [H0 _].
  destruct (timestampDiff_missing_zero_invalid_nan isoDate
              (Some "unknown") (Some "2023-01-15 10:00:00")) as [_ [Hn Hc]].
  split; [apply H0; left; reflexivity|].
  split; [apply Hn; [reflexivity|reflexivity|left; reflexivity]|].
  apply (Hc open_ended_classes [] "class-1").
  vm_compute. left. reflexivity.
Defined.

(* ----------------------------------------------------------------- *)
(** *** Tardiness and its clamp bounds *)

(** The clamp on numbers: [NaN] goes through, a number is cut to
    [[-3600, d]]. *)
Lemma clampTardiness_value (raw : jsnum) (d : Z) :
  -3600 <= d ->
  match raw with
  | NaN => clampTardiness raw (Int d) = NaN
  | Int r => clampTardiness raw (Int d) = Int (Z.max (-3600) (Z.min d r))
  end.
Proof.
  intros Hd. unfold clampTardiness, js_gt, js_lt. destruct raw as [|r]; simpl.
  - reflexivity.
  - destruct (Z.ltb r (-3600)) eqn:E1.
    + apply Z.ltb_lt in E1. f_equal. lia.
    + apply Z.ltb_ge in E1. destruct (Z.ltb d r) eqn:E2.
      * apply Z.ltb_lt in E2. f_equal. lia.
      * apply Z.ltb_ge in E2. f_equal. lia.
Qed.

(** The difference of the two timestamps of a participant row is [NaN]
    exactly when both are present and one is not a date. *)
Lemma timestampDiff_NaN_iff Date_ms (pr : list string) :
  timestampDiff Date_ms (col pr 3) (col pr 11) = NaN <-> unparseable_join Date_ms pr.
Proof.
  unfold timestampDiff, unparseable_join.
  destruct (truthy (col pr 3)); destruct (truthy (col pr 11)); cbn [negb orb];
    try (split; [discriminate|intros [? [? _]]; discriminate]).
  destruct (Date_ms (replace_space_T (or_empty (col pr 3)))) as [a|];
    destruct (Date_ms (replace_space_T (or_empty (col pr 11)))) as [b|].
  - split; [discriminate|]. intros [_ [_ [H|H]]]; discriminate.
  - split; auto.
  - split; auto.
  - split; auto.
Qed.

(** The tardiness the normalizer stores for the participant row [pr] of a
    class lasting [d >= -3600] seconds. *)
Lemma stored_tardiness Date_ms (pr : list string) (d : Z) :
  -3600 <= d ->
  let tardiness :=
    clampTardiness (timestampDiff Date_ms (col pr 3) (col pr 11)) (Int d) in
  (tardiness = NaN <-> unparseable_join Date_ms pr)
  /\ (~ unparseable_join Date_ms pr -> within_clamp tardiness (Int d))
  /\ (forall raw, timestampDiff Date_ms (col pr 3) (col pr 11) = Int raw ->
      tardiness = Int (Z.max (-3600) (Z.min d raw))).
Proof.
  intros Hd tardiness. unfold tardiness.
  pose proof (clampTardiness_value (timestampDiff Date_ms (col pr 3) (col pr 11))
                d Hd) as Hv.
  pose proof (timestampDiff_NaN_iff Date_ms pr) as Hn.
  destruct (timestampDiff Date_ms (col pr 3) (col pr 11)) as [|raw].
  - rewrite Hv. split; [tauto|]. split; [|discriminate].
    intros H. exfalso. apply H. now apply Hn.
  - rewrite Hv. split; [|split].
    + split; [discriminate|]. intros H. apply Hn in H. discriminate.
    + intros _. exists (Z.max (-3600) (Z.min d raw)), d.
      split; [reflexivity|]. split; [reflexivity|lia].
    + intros r [= <-]. reflexivity.
Qed.

(** C5, as stated, fails in three ways: the student of a class whose end
    lies two hours before its start has tardiness -7200, below -3600; the
    student whose join time is not a date has tardiness [NaN]; and in a
    class whose end is not a date the duration is [NaN], which bounds
    nothing. *)
Lemma tardiness_outside_bounds :
  ~ (forall k cls s,
       In (k, cls) (processData isoDate reversed_classes reversed_participants) ->
       In s (students cls) ->
       within_clamp (s_tardiness s) (scheduledDuration cls))
  /\ ~ (forall k cls s,
       In (k, cls) (processData isoDate scenario_classes
                      unparseable_join_participants) ->
       In s (students cls) ->
       within_clamp (s_tardiness s) (scheduledDuration cls))
  /\ ~ (forall k cls s,
       In (k, cls) (processData isoDate unparseable_end_classes
                      reversed_participants) ->
       In s (students cls) ->
       within_clamp (s_tardiness s) (scheduledDuration cls)).
Proof.
  split; [|split]; intros H.
  - destruct (H "class-1"
                (makeClass isoDate reversed_participants "class-1"
                   (hd [] reversed_classes))
                (makeStudent isoDate (Some "2023-01-15 10:00:00") (Int (-7200))
                   (hd [] reversed_participants)))
      as [z [d [Hz [Hd Hb]]]].
    + vm_compute. left. reflexivity.
    + vm_compute. left. reflexivity.
    + vm_compute in Hz. vm_compute in Hd. inversion Hz. inversion Hd. lia.
  - destruct (H "class-1"
                (makeClass isoDate unparseable_join_participants "class-1"
                   (hd [] scenario_classes))
                (makeStudent isoDate (Some "2023-01-15 10:00:00") (Int 3600)
                   (hd [] unparseable_join_participants)))
      as [z [d [Hz _]]].
    + vm_compute. left. reflexivity.
    + vm_compute. left. reflexivity.
    + vm_compute in Hz. discriminate.
  - destruct (H "class-1"
                (makeClass isoDate reversed_participants "class-1"
                   (hd [] unparseable_end_classes))
                (makeStudent isoDate (Some "2023-01-15 10:00:00") NaN
                   (hd [] reversed_participants)))
      as [z [d [_ [Hd _]]]].
    + vm_compute. left. reflexivity.
    + vm_compute. left. reflexivity.
    + vm_compute in Hd. discriminate.
Qed.

(** C5, amended: in every class of the model whose [scheduledDuration] is
    a number not below -3600, each student and the teacher come from a
    participant row of the class; their tardiness is [NaN] exactly when
    the scheduled start and the join time of that row are both present
    and one of them is not a date, and otherwise it lies in
    [[-3600, scheduledDuration]]: it is the difference of the two
    timestamps cut to that interval. *)
Theorem tardiness_within_bounds :
  forall (Date_ms : string -> option Z) cd pd k cls d,
    In (k, cls) (processData Date_ms cd pd) ->
    scheduledDuration cls = Int d ->
    -3600 <= d ->
    (forall s, In s (students cls) ->
       exists pr,
         In pr pd /\ col pr 2 = Some k /\ s_username s = col pr 4
         /\ (s_tardiness s = NaN <-> unparseable_join Date_ms pr)
         /\ (~ unparseable_join Date_ms pr ->
             within_clamp (s_tardiness s) (scheduledDuration cls))
         /\ (forall raw,
               timestampDiff Date_ms (col pr 3) (col pr 11) = Int raw ->
               s_tardiness s = Int (Z.max (-3600) (Z.min d raw))))
    /\ (forall t, teacher cls = Some t ->
       exists pr,
         In pr pd /\ col pr 2 = Some k /\ t_username t = col pr 4
         /\ (t_tardiness t = NaN <-> unparseable_join Date_ms pr)
         /\ (~ unparseable_join Date_ms pr ->
             within_clamp (t_tardiness t) (scheduledDuration cls))
         /\ (forall raw,
               timestampDiff Date_ms (col pr 3) (col pr 11) = Int raw ->
               t_tardiness t = Int (Z.max (-3600) (Z.min d raw)))).
Proof.
  intros D cd pd k cls d Hin Hd Hge.
  destruct (processData_In D cd pd k cls Hin) as [cs [_ [_ [_ ->]]]].
  simpl in Hd.
  assert (Hslug : forall p, str_eq_cell k (col p 2) = true -> col p 2 = Some k).
  { intros p. unfold str_eq_cell. destruct (col p 2) as [v|]; [|discriminate].
    intros E. apply String.eqb_eq in E. now subst. }
  split.
  - intros s Hs. simpl in Hs. apply in_map_iff in Hs.
    destruct Hs as [pr [<- Hpr]].
    apply filter_In in Hpr. destruct Hpr as [Hpr _].
    apply filter_In in Hpr. destruct Hpr as [Hpr Hk].
    exists pr. split; [exact Hpr|]. split; [now apply Hslug|].
    split; [reflexivity|].
    cbn [s_tardiness makeStudent scheduledDuration makeClass]. rewrite Hd.
    exact (stored_tardiness D pr d Hge).
  - intros t Ht. simpl in Ht.
    destruct (find teacherMarker _) as [teacherRow|] eqn:Ef; [|discriminate].
    inversion Ht. subst t. apply find_some in Ef. destruct Ef as [Hpr _].
    apply filter_In in Hpr. destruct Hpr as [Hpr Hk].
    exists teacherRow. split; [exact Hpr|]. split; [now apply Hslug|].
    split; [reflexivity|].
    cbn [t_tardiness makeTeacher scheduledDuration makeClass]. rewrite Hd.
    exact (stored_tardiness D teacherRow d Hge).
Qed.

(** In the scenario the teacher, 400 s late, has tardiness 400; and the
    student of the class with a join time that is not a date has [NaN]. *)
Lemma tardiness_within_bounds_witness :
  (forall t,
     teacher (makeClass isoDate scenario_participants "class-1"
                (hd [] scenario_classes)) = Some t ->
     t_tardiness t = Int 400 /\ within_clamp (t_tardiness t) (Int 3600))
  /\ (forall s,
     In s (students (makeClass isoDate unparseable_join_participants "class-1"
                       (hd [] scenario_classes))) ->
     s_tardiness s = NaN).
Proof.
  split.
  - intros t Ht.
    destruct (tardiness_within_bounds isoDate scenario_classes
                scenario_participants "class-1"
                (makeClass isoDate scenario_participants "class-1"
                   (hd [] scenario_classes)) 3600) as [_ H].
    + vm_compute. left. reflexivity.
    + vm_compute. reflexivity.
    + lia.
    + destruct (H t Ht) as (pr & Hpr & _ & Hu & _ & Hw & Hv).
      assert (Ht' := Ht). vm_compute in Ht'. injection Ht' as <-.
      vm_compute in Hpr. destruct Hpr as [<-|[<-|[]]]; [|discriminate Hu].
      split.
      * rewrite (Hv 400); reflexivity.
      * apply Hw. intros (_ & _ & [E|E]); vm_compute in E; discriminate.
  - intros s Hs.
    destruct (tardiness_within_bounds isoDate scenario_classes
                unparseable_join_participants "class-1"
                (makeClass isoDate unparseable_join_participants "class-1"
                   (hd [] scenario_classes)) 3600) as [H _].
    + vm_compute. left. reflexivity.
    + vm_compute. reflexivity.
    + lia.
    + destruct (H s Hs) as (pr & Hpr & _ & _ & Hn & _).
      apply Hn. vm_compute in Hpr. destruct Hpr as [<-|[]].
      split; [reflexivity|]. split; [reflexivity|]. right. reflexivity.
Defined.

Local Close Scope string_scope.

(* ----------------------------------------------------------------- *)
(** *** Cancellation attribution *)

Local Open Scope string_scope.

(** C4, as stated, fails: this class is flagged as cancelled by the student
    and by the teacher at once. *)
Lemma cancellation_flags_overlap :
  exists cls,
    In ("class-1", cls)
       (processData isoDate shared_name_classes shared_name_participants) /\
    cancelledBy cls <> EmptyString /\
    cancelledByStudent cls = true /\ cancelledByTeacher cls = true /\
    exactly_one (cancelledByStudent cls) (cancelledByTeacher cls)
                (cancelledByAdmin cls) = false.
Proof.
  eexists. split; [vm_compute; left; reflexivity|].
  repeat split; try reflexivity. discriminate.
Qed.

Local Close Scope string_scope.

(** C4, amended: in every class of the model with a non-empty [cancelledBy],
    the student flag says that the actor is the username of a student of the
    class, the teacher flag that it is the teacher's username, and the admin
    flag is set exactly when both are unset, so at least one flag is set;
    when the teacher's username is not also a student's username of the
    class, exactly one flag is set. *)
Theorem cancellation_flags_exhaustive :
  forall (Date_ms : string -> option Z) cd pd k cls,
    In (k, cls) (processData Date_ms cd pd) ->
    cancelledBy cls <> EmptyString ->
    cancelledByStudent cls
      = includes (map s_username (students cls)) (cancelledBy cls)
    /\ cancelledByTeacher cls
      = str_eq_cell (cancelledBy cls) (teacher_username cls)
    /\ cancelledByAdmin cls
      = (negb (cancelledByStudent cls) && negb (cancelledByTeacher cls))%bool
    /\ (cancelledByStudent cls || cancelledByTeacher cls
        || cancelledByAdmin cls)%bool = true
    /\ ((forall t, teacher_username cls = Some t ->
           includes (map s_username (students cls)) t = false) ->
        exactly_one (cancelledByStudent cls) (cancelledByTeacher cls)
                    (cancelledByAdmin cls) = true).
Proof.
  intros D cd pd k cls Hin Hne.
  destruct (processData_In D cd pd k cls Hin) as [cs [_ [_ [_ ->]]]].
  cbn [cancelledBy makeClass] in Hne.
  apply truthy_nonempty in Hne.
  unfold teacher_username.
  cbn [cancelledByStudent cancelledByTeacher cancelledByAdmin cancelledBy
       students teacher makeClass].
  rewrite Hne.
  set (names := map s_username _).
  set (tname := match match find teacherMarker _ with
                      | Some r => Some (makeTeacher D _ r)
                      | None => None
                      end with
                | Some t => t_username t
                | None => None
                end).
  repeat split.
  - destruct (includes names _), (str_eq_cell _ tname); reflexivity.
  - intros Hdistinct.
    destruct (str_eq_cell (or_empty (col cs 22)) tname) eqn:ET.
    + destruct tname as [t|]; [|discriminate]. simpl in ET.
      apply String.eqb_eq in ET. rewrite ET.
      rewrite (Hdistinct t eq_refl). reflexivity.
    + destruct (includes names _); reflexivity.
Qed.

Lemma cancellation_flags_exhaustive_witness :
  exists cls,
    In ("class-1"%string, cls)
       (processData isoDate shared_name_classes (tl shared_name_participants)) /\
    cancelledByAdmin cls
      = (negb (cancelledByStudent cls) && negb (cancelledByTeacher cls))%bool /\
    exactly_one (cancelledByStudent cls) (cancelledByTeacher cls)
                (cancelledByAdmin cls) = true.
Proof.
  eexists. split; [vm_compute; left; reflexivity|].
  match goal with
  | |- context [cancelledByAdmin ?c] =>
      destruct (cancellation_flags_exhaustive isoDate shared_name_classes
                  (tl shared_name_participants) "class-1"%string c)
        as [_ [_ [Ha [_ Hx]]]]
  end.
  - vm_compute. left. reflexivity.
  - vm_compute. discriminate.
  - split; [exact Ha|]. apply Hx. intros t Ht. vm_compute in Ht. discriminate.
Defined.

(** ** The hour-count aggregation *)

Lemma bucket_of_with_bucket pair ty b : bucket_of (with_bucket pair ty b) ty = b.
Proof. now destruct ty. Qed.

Lemma bucket_of_with_bucket_other pair ty ty' b :
  ty' <> ty -> bucket_of (with_bucket pair ty b) ty' = bucket_of pair ty'.
Proof. destruct ty, ty'; simpl; congruence. Qed.

Lemma bucketFor_get_or durs d ty :
  bucketFor durs d ty
  = bucket_of (get_or key_eqb durs d (zeroBucket, zeroBucket)) ty.
Proof.
  unfold bucketFor, get_or. destruct (aget key_eqb durs d); [reflexivity|].
  now destruct ty.
Qed.

Section AggregateFacts.

Variable settings : Settings.
Variable credit : Class -> string -> Bucket -> Bucket.

Local Abbreviation step := (aggregateClass settings credit).

Lemma aggregateClass_unassigned st cls :
  assigned settings cls = None ->
  step st cls = (fst st, set_add (minutes_of (scheduledDuration cls)) (snd st)).
Proof.
  unfold assigned, aggregateClass. destruct st as [r s]. simpl.
  destruct (teacher_username cls) as [t|]; [|reflexivity].
  destruct (truthy (Some t)); simpl; [|reflexivity].
  destruct (filter_excludes _ _); simpl; [reflexivity|discriminate].
Qed.

Lemma aggregateClass_assigned st cls t d ty :
  assigned settings cls = Some (t, d, ty) ->
  step st cls
  = (obj_set (fst st) t
       (aset key_eqb (get_or String.eqb (fst st) t []) d
          (with_bucket
             (get_or key_eqb (get_or String.eqb (fst st) t []) d
                     (zeroBucket, zeroBucket))
             ty
             (updateBucket settings credit cls t ty (bucketAt (fst st) t d ty)))),
     set_add d (snd st)).
Proof.
  unfold assigned, aggregateClass, bucketAt. destruct st as [r s]. simpl.
  destruct (teacher_username cls) as [t0|]; [|discriminate].
  destruct (truthy (Some t0)); simpl; [|discriminate].
  destruct (filter_excludes _ _); simpl; [discriminate|].
  intros H. inversion H. subst. now rewrite bucketFor_get_or.
Qed.

Lemma aggregateClass_durations st cls :
  snd (step st cls) = set_add (minutes_of (scheduledDuration cls)) (snd st).
Proof.
  destruct (assigned settings cls) as [[[t d] ty]|] eqn:A.
  - rewrite (aggregateClass_assigned _ _ _ _ _ A). simpl.
    unfold assigned in A. destruct (teacher_username cls); [|discriminate].
    destruct (_ && _)%bool; [|discriminate]. now inversion A.
  - now rewrite (aggregateClass_unassigned _ _ A).
Qed.

(** The step on an assigned class updates its own bucket. *)
Lemma bucketAt_step_same st cls t d ty :
  assigned settings cls = Some (t, d, ty) ->
  bucketAt (fst (step st cls)) t d ty
  = updateBucket settings credit cls t ty (bucketAt (fst st) t d ty).
Proof.
  intros A. rewrite (aggregateClass_assigned _ _ _ _ _ A). simpl.
  unfold bucketAt at 1, obj_set.
  rewrite (get_or_aset_same String.eqb String.eqb_eq).
  unfold bucketFor. rewrite (aget_aset_same key_eqb key_eqb_eq).
  apply bucket_of_with_bucket.
Qed.

(** ... and leaves every other bucket as it was. *)
Lemma bucketAt_step_other st cls t d ty t' d' ty' :
  assigned settings cls = Some (t, d, ty) ->
  (t', d', ty') <> (t, d, ty) ->
  bucketAt (fst (step st cls)) t' d' ty' = bucketAt (fst st) t' d' ty'.
Proof.
  intros A Hne. rewrite (aggregateClass_assigned _ _ _ _ _ A). simpl.
  unfold bucketAt, obj_set.
  destruct (string_dec t' t) as [->|Ht].
  - rewrite (get_or_aset_same String.eqb String.eqb_eq).
    rewrite !bucketFor_get_or.
    destruct (key_eqb d' d) eqn:Ed.
    + apply key_eqb_eq in Ed. subst d'.
      rewrite (get_or_aset_same key_eqb key_eqb_eq).
      apply bucket_of_with_bucket_other. congruence.
    + rewrite (get_or_aset_other key_eqb key_eqb_eq); [reflexivity|].
      intros ->. rewrite (proj2 (key_eqb_eq d d) eq_refl) in Ed. discriminate.
  - now rewrite (get_or_aset_other String.eqb String.eqb_eq).
Qed.

Lemma assigned_to_true t d ty cls :
  assigned_to settings t d ty cls = true <-> assigned settings cls = Some (t, d, ty).
Proof.
  unfold assigned_to. destruct (assigned settings cls) as [[[t' d'] ty']|].
  - rewrite !andb_true_iff, String.eqb_eq, key_eqb_eq.
    split.
    + intros [[-> ->] H]. destruct ty, ty'; simpl in H; congruence.
    + intros H. inversion H. subst. destruct ty; auto.
  - split; discriminate.
Qed.

Lemma bucketAt_step st cls t d ty :
  bucketAt (fst (step st cls)) t d ty
  = if assigned_to settings t d ty cls
    then updateBucket settings credit cls t ty (bucketAt (fst st) t d ty)
    else bucketAt (fst st) t d ty.
Proof.
  destruct (assigned_to settings t d ty cls) eqn:E.
  - apply assigned_to_true in E. now apply bucketAt_step_same.
  - destruct (assigned settings cls) as [[[t' d'] ty']|] eqn:A.
    + apply (bucketAt_step_other _ _ _ _ _ _ _ _ A).
      intros H. inversion H. subst.
      apply assigned_to_true in A. congruence.
    + now rewrite (aggregateClass_unassigned _ _ A).
Qed.

(** The counters of a bucket after the whole loop: the per-class updates
    of the classes counted in it, in enumeration order. *)
Lemma bucketAt_fold (l : list Class) st t d ty :
  bucketAt (fst (fold_left step l st)) t d ty
  = fold_left
      (fun b cls =>
         if assigned_to settings t d ty cls
         then updateBucket settings credit cls t ty b else b)
      l (bucketAt (fst st) t d ty).
Proof.
  revert st. induction l as [|cls r IH]; intros st; simpl; [reflexivity|].
  rewrite IH. now rewrite bucketAt_step.
Qed.

(** The teacher reports do not depend on the set of durations. *)
Lemma fold_reports_irrelevant (l : list Class) r s s' :
  fst (fold_left step l (r, s)) = fst (fold_left step l (r, s')).
Proof.
  revert r s s'. induction l as [|cls l IH]; intros r s s';
    cbn [fold_left]; [reflexivity|].
  destruct (assigned settings cls) as [[[t d] ty]|] eqn:A.
  - rewrite (aggregateClass_assigned (r, s) _ _ _ _ A).
    rewrite (aggregateClass_assigned (r, s') _ _ _ _ A). simpl. apply IH.
  - rewrite (aggregateClass_unassigned (r, s) _ A).
    rewrite (aggregateClass_unassigned (r, s') _ A). simpl. apply IH.
Qed.

End AggregateFacts.

(* ----------------------------------------------------------------- *)
(** *** Step 1a: credits for late cancellations *)

Section CreditFacts.

Variable Date_ms : string -> option Z.
Variable settings : Settings.

Lemma credit_fold cls t (ss : list Student) b :
  fold_left
    (fun b student =>
       if lateCancellation Date_ms settings cls t student then incr_cancelled b
       else b) ss b
  = mkBucket (attended b) (noShow b)
      (cancelled b
       + Z.of_nat (List.length (filter (lateCancellation Date_ms settings cls t) ss)))
      (late b) (studentNoShow b).
Proof.
  revert b. induction ss as [|s r IH]; intros b.
  - simpl. rewrite Z.add_0_r. now destruct b.
  - cbn [fold_left filter]. rewrite IH.
    destruct (lateCancellation Date_ms settings cls t s); simpl; f_equal.
    lia.
Qed.

(** [main.js] adds one credit for each student that passes the test. *)
Lemma creditCancellations_counts cls t b :
  creditCancellations Date_ms settings cls t b
  = mkBucket (attended b) (noShow b)
      (cancelled b + lateCancellations Date_ms settings cls t)
      (late b) (studentNoShow b).
Proof. apply credit_fold. Qed.

(** The older builder adds at most one credit per class. *)
Lemma creditCancellations_legacy_at_most_once cls t b :
  creditCancellations_legacy Date_ms settings cls t b = b \/
  creditCancellations_legacy Date_ms settings cls t b = incr_cancelled b.
Proof.
  unfold creditCancellations_legacy.
  induction (students cls) as [|s r IH]; simpl; [now left|].
  destruct (lateCancellation_legacy Date_ms settings cls t s); auto.
Qed.

Lemma updateBucket_studentNoShow cls t ty b :
  studentNoShow
    (updateBucket settings (creditCancellations Date_ms settings) cls t ty b)
  = bump (studentNoShow_counted cls) (studentNoShow b).
Proof.
  unfold updateBucket, studentNoShow_counted.
  set (b1 := match ty with
             | private =>
                 if payLastMinuteCancellation settings
                 then creditCancellations Date_ms settings cls t b else b
             | group => b
             end).
  assert (H1 : studentNoShow b1 = studentNoShow b).
  { unfold b1. destruct ty; [|reflexivity].
    destruct (payLastMinuteCancellation settings); [|reflexivity].
    now rewrite creditCancellations_counts. }
  destruct (teacher_attended cls); simpl.
  - destruct (negb (teacher_cancelled cls) && _ && _)%bool;
      destruct (penaliseTardiness settings && _)%bool; simpl; lia.
  - exact H1.
Qed.

End CreditFacts.

(** C2 on the code of [main.js]: the class of [rebooked_classes] has two
    students who cancelled within the window, and the bucket of its teacher
    is credited twice; the older builder credits it once. *)
Theorem late_cancellation_credited_twice :
  let data := processData isoDate rebooked_classes rebooked_participants in
  cancelled
    (bucketAt
       (fst (aggregate paid_cancellation_settings
               (creditCancellations isoDate paid_cancellation_settings) data))
       "tina" (Int 60) private) = 2
  /\ cancelled
    (bucketAt
       (fst (aggregate paid_cancellation_settings
               (creditCancellations_legacy isoDate paid_cancellation_settings) data))
       "tina" (Int 60) private) = 1.
Proof. split; vm_compute; reflexivity. Qed.

(** The quantity compared with the window is the cancellation time minus
    the start, negative for a cancellation made ahead of the class: a
    student who cancelled ten days ahead, 240 hours by the interval stored
    on the student object, is credited under a window of 24 hours. *)
Lemma early_cancellation_credited :
  let data := processData isoDate early_cancel_classes early_cancel_participants in
  map (fun cls => map s_cancelledInterval (students cls)) (map snd data)
    = [[Some (Frac (toFixed2 240))]]
  /\ cancelled
       (bucketAt
          (fst (aggregate paid_cancellation_settings
                  (creditCancellations isoDate paid_cancellation_settings) data))
          "tina" (Int 60) private) = 1.
Proof. split; vm_compute; reflexivity. Qed.

(* ----------------------------------------------------------------- *)
(** *** Step 1c: student no-shows *)

(** C3, as stated, fails: the session below is cancelled, yet it is counted
    as a student no-show of its teacher. *)
Lemma studentNoShow_counted_for_cancelled_session :
  exists cls,
    processData isoDate cancelled_session_classes cancelled_session_participants
      = [("class-1"%string, cls)] /\
    cancelledBy cls <> EmptyString /\
    studentNoShow_specified cls = false /\
    studentNoShow
      (bucketAt
         (fst (aggregate scenario_settings
                 (creditCancellations isoDate scenario_settings)
                 [("class-1"%string, cls)]))
         "tina" (Int 60) private) = 1.
Proof.
  eexists. split; [vm_compute; reflexivity|].
  split; [discriminate|]. split; vm_compute; reflexivity.
Qed.

(** C3, amended: for a class counted in the bucket [(t, d, ty)], the
    [studentNoShow] counter of that bucket grows by one exactly when the
    teacher attended, the teacher's own row is not flagged as cancelled,
    the class has a student and no student attended; otherwise it keeps
    its value. *)
Theorem studentNoShow_incremented_iff :
  forall (Date_ms : string -> option Z) settings state cls t d ty,
    assigned settings cls = Some (t, d, ty) ->
    studentNoShow
      (bucketAt
         (fst (aggregateClass settings (creditCancellations Date_ms settings)
                 state cls)) t d ty)
    = studentNoShow (bucketAt (fst state) t d ty)
      + (if (teacher_attended cls && negb (teacher_cancelled cls)
             && (0 <? Z.of_nat (List.length (students cls)))
             && forallb (fun s => negb (s_attended s)) (students cls))%bool
         then 1 else 0).
Proof.
  intros D settings state cls t d ty A.
  rewrite (bucketAt_step_same settings _ state cls t d ty A).
  rewrite updateBucket_studentNoShow. unfold bump, studentNoShow_counted.
  unfold every_absent.
  destruct (_ && _ && _ && _)%bool; lia.
Qed.

Lemma studentNoShow_incremented_iff_witness :
  let cls := makeClass isoDate scenario_participants "class-1"
               (hd [] scenario_classes) in
  studentNoShow
    (bucketAt
       (fst (aggregateClass scenario_settings
               (creditCancellations isoDate scenario_settings) ([], []) cls))
       "tina" (Int 60) private)
  = studentNoShow (bucketAt [] "tina" (Int 60) private)
    + (if (teacher_attended cls && negb (teacher_cancelled cls)
           && (0 <? Z.of_nat (List.length (students cls)))
           && forallb (fun s => negb (s_attended s)) (students cls))%bool
       then 1 else 0).
Proof.
  intros cls.
  apply (studentNoShow_incremented_iff isoDate scenario_settings ([], []) cls
           "tina" (Int 60) private).
  vm_compute. reflexivity.
Defined.

(* ----------------------------------------------------------------- *)
(** *** Rounding to two decimals *)

Lemma Qlt_bool_iff (x y : Q) : Qlt_bool x y = true <-> (x < y)%Q.
Proof.
  unfold Qlt_bool. rewrite negb_true_iff.
  split.
  - intros H. apply Qnot_le_lt. intros Hle.
    apply Qle_bool_iff in Hle. congruence.
  - intros H. destruct (Qle_bool y x) eqn:E; [|reflexivity].
    apply Qle_bool_iff in E. exfalso. apply (Qlt_not_le _ _ H E).
Qed.

Lemma Qlt_bool_comp (x x' y y' : Q) :
  (x == x')%Q -> (y == y')%Q -> Qlt_bool x y = Qlt_bool x' y'.
Proof.
  intros Hx Hy.
  destruct (Qlt_bool x y) eqn:E, (Qlt_bool x' y') eqn:E'; try reflexivity.
  - apply Qlt_bool_iff in E. rewrite Hx, Hy in E.
    apply Qlt_bool_iff in E. congruence.
  - apply Qlt_bool_iff in E'. rewrite <- Hx, <- Hy in E'.
    apply Qlt_bool_iff in E'. congruence.
Qed.

Lemma toFixed2_comp (q q' : Q) : (q == q')%Q -> (toFixed2 q == toFixed2 q')%Q.
Proof.
  intros H. unfold toFixed2.
  rewrite (Qlt_bool_comp q q' 0 0 H (Qeq_refl 0)).
  destruct (Qlt_bool q' 0); now rewrite H.
Qed.

Lemma toFixed2_hundredths (q : Q) :
  exists n : Z, (toFixed2 q == inject_Z n / 100)%Q.
Proof.
  unfold toFixed2. destruct (Qlt_bool q 0).
  - exists (- Qfloor (- q * 100 + (1 # 2))). rewrite inject_Z_opp. field.
  - eexists. reflexivity.
Qed.

Lemma toFixed2_close (q : Q) : (Qabs (toFixed2 q - q) <= 1 # 200)%Q.
Proof.
  unfold toFixed2. destruct (Qlt_bool q 0).
  - pose proof (Qfloor_le (- q * 100 + (1 # 2))) as H1.
    pose proof (Qlt_floor (- q * 100 + (1 # 2))) as H2.
    rewrite inject_Z_plus in H2. change (inject_Z 1) with 1%Q in H2.
    set (f := inject_Z (Qfloor (- q * 100 + (1 # 2)))) in *. clearbody f.
    assert (E : (f / 100 == f * (1 # 100))%Q) by field. rewrite E.
    apply Qabs_Qle_condition. split; lra.
  - pose proof (Qfloor_le (q * 100 + (1 # 2))) as H1.
    pose proof (Qlt_floor (q * 100 + (1 # 2))) as H2.
    rewrite inject_Z_plus in H2. change (inject_Z 1) with 1%Q in H2.
    set (f := inject_Z (Qfloor (q * 100 + (1 # 2)))) in *. clearbody f.
    assert (E : (f / 100 == f * (1 # 100))%Q) by field. rewrite E.
    apply Qabs_Qle_condition. split; lra.
Qed.

(** 54 seconds are 0.015 hours; the double quotient lies just below, and
    [toFixed(2)] shows 0.01. *)
Lemma interval_halfway :
  toFixed2_double (ddiv (d_of_jsnum (Int 54)) (DFin 3600)) = Frac (1 # 100).
Proof. vm_compute. reflexivity. Qed.

Local Open Scope Q_scope.

(** *** Whole numbers and hundredths *)
Lemma Qred_opp_eq (q : Q) : Qred (- q) == - q.
Proof. apply Qred_correct. Qed.

(** Sums, differences and products of whole numbers below [2^53] are exact. *)
Lemma dadd_Z (x y : Z) :
  (Z.abs (x + y) < 2 ^ 53)%Z -> dadd (d_of_Z x) (d_of_Z y) = d_of_Z (x + y).
Proof.
  intros H. unfold dadd, d_of_Z.
  rewrite (binary64_comp _ (inject_Z (x + y))) by (now rewrite inject_Z_plus).
  now apply binary64_Z.
Qed.

Lemma dsub_Z (x y : Z) :
  (Z.abs (x - y) < 2 ^ 53)%Z -> dsub (d_of_Z x) (d_of_Z y) = d_of_Z (x - y).
Proof.
  intros H. unfold dsub, dadd, dneg, d_of_Z.
  rewrite (binary64_comp _ (inject_Z (x - y))).
  - now apply binary64_Z.
  - rewrite Qred_opp_eq. unfold Z.sub. now rewrite inject_Z_plus, inject_Z_opp.
Qed.

Lemma dmul_Z (x y : Z) :
  (Z.abs (x * y) < 2 ^ 53)%Z -> dmul (d_of_Z x) (d_of_Z y) = d_of_Z (x * y).
Proof.
  intros H. unfold dmul, d_of_Z.
  rewrite (binary64_comp _ (inject_Z (x * y))) by (now rewrite inject_Z_mult).
  now apply binary64_Z.
Qed.

(** The difference of two finite doubles. *)
Lemma dsub_finite (a b : Q) (K : Z) :
  Qabs (a - b) <= pow2 K -> (-1022 <= K <= 1023)%Z ->
  dsub (DFin a) (DFin b) = DFin (round64 (a - b)).
Proof.
  intros H HK. unfold dsub, dadd, dneg.
  assert (E : a + Qred (- b) == a - b) by (rewrite Qred_opp_eq; reflexivity).
  rewrite (binary64_comp _ _ E). now apply (binary64_finite _ K).
Qed.

Lemma toFixed2_Z (z : Z) : toFixed2 (inject_Z z) == inject_Z z.
Proof.
  unfold toFixed2. destruct (Qlt_bool (inject_Z z) 0).
  - assert (E : - inject_Z z * 100 + (1 # 2) == inject_Z (- z * 100) + (1 # 2)).
    { rewrite inject_Z_mult, inject_Z_opp. reflexivity. }
    rewrite (Qfloor_comp _ _ E).
    assert (F : Qfloor (inject_Z (- z * 100) + (1 # 2)) = (- z * 100)%Z).
    { pose proof (Qfloor_le (inject_Z (- z * 100) + (1 # 2))) as H1.
      pose proof (Qlt_floor (inject_Z (- z * 100) + (1 # 2))) as H2.
      set (f := Qfloor (inject_Z (- z * 100) + (1 # 2))) in *.
      assert (A : (f <= - z * 100)%Z).
      { apply Z.lt_succ_r. rewrite Zlt_Qlt. unfold Z.succ. rewrite inject_Z_plus.
        change (inject_Z 1) with 1. clearbody f. lra. }
      assert (B : (- z * 100 < f + 1)%Z).
      { rewrite Zlt_Qlt. clearbody f. lra. }
      lia. }
    rewrite F, inject_Z_mult, inject_Z_opp. change (inject_Z 100) with 100. field.
  - assert (E : inject_Z z * 100 + (1 # 2) == inject_Z (z * 100) + (1 # 2)).
    { rewrite inject_Z_mult. reflexivity. }
    rewrite (Qfloor_comp _ _ E).
    assert (F : Qfloor (inject_Z (z * 100) + (1 # 2)) = (z * 100)%Z).
    { pose proof (Qfloor_le (inject_Z (z * 100) + (1 # 2))) as H1.
      pose proof (Qlt_floor (inject_Z (z * 100) + (1 # 2))) as H2.
      set (f := Qfloor (inject_Z (z * 100) + (1 # 2))) in *.
      assert (A : (f <= z * 100)%Z).
      { apply Z.lt_succ_r. rewrite Zlt_Qlt. unfold Z.succ. rewrite inject_Z_plus.
        change (inject_Z 1) with 1. clearbody f. lra. }
      assert (B : (z * 100 < f + 1)%Z).
      { rewrite Zlt_Qlt. clearbody f. lra. }
      lia. }
    rewrite F, inject_Z_mult. change (inject_Z 100) with 100. field.
Qed.

(** [parseFloat(x.toFixed(2))] of a whole number below [2^53] is that
    number. *)
Lemma parseFloat_toFixed2_Z (z : Z) :
  (Z.abs z < 2 ^ 53)%Z -> parseFloat_toFixed2 (d_of_Z z) = d_of_Z z.
Proof.
  intros H. unfold parseFloat_toFixed2, d_of_Z.
  assert (L : Qlt_bool (Qabs (inject_Z z)) (inject_Z (10 ^ 21)) = true).
  { apply Qlt_bool_iff. rewrite Qabs_inject_Z. rewrite <- Zlt_Qlt.
    assert (2 ^ 53 < 10 ^ 21)%Z by reflexivity. lia. }
  rewrite L. rewrite (binary64_comp _ _ (toFixed2_Z z)). now apply binary64_Z.
Qed.

(** A bound on a product from bounds on its factors. *)
Lemma Qabs_mult_le (s x S X : Q) :
  Qabs s <= S -> Qabs x <= X -> Qabs (s * x) <= S * X.
Proof.
  intros Hs Hx. rewrite Qabs_Qmult.
  pose proof (Qabs_nonneg s). pose proof (Qabs_nonneg x).
  apply Qle_trans with (Qabs s * X).
  - rewrite (Qmult_comm (Qabs s) (Qabs x)), (Qmult_comm (Qabs s) X).
    apply Qmult_le_compat_r; assumption.
  - apply Qmult_le_compat_r; [assumption|]. eapply Qle_trans; eassumption.
Qed.

Lemma Qfloor_unique (x : Q) (m : Z) :
  inject_Z m <= x -> x < inject_Z m + 1 -> Qfloor x = m.
Proof.
  intros H1 H2.
  pose proof (Qfloor_le x) as F1. pose proof (Qlt_floor x) as F2.
  rewrite inject_Z_plus in F2. change (inject_Z 1) with 1 in F2.
  assert (A : (Qfloor x < m + 1)%Z).
  { rewrite Zlt_Qlt, inject_Z_plus. change (inject_Z 1) with 1. lra. }
  assert (B : (m < Qfloor x + 1)%Z).
  { rewrite Zlt_Qlt, inject_Z_plus. change (inject_Z 1) with 1. lra. }
  lia.
Qed.

(** A hundredth closer than half a hundredth to [q] is [q.toFixed(2)]. *)
Lemma toFixed2_unique (q : Q) (n : Z) :
  Qabs (inject_Z n / 100 - q) < 1 # 200 -> toFixed2 q == inject_Z n / 100.
Proof.
  intros H. apply Qabs_Qlt_condition in H. destruct H as [H1 H2].
  assert (E : inject_Z n / 100 == inject_Z n * (1 # 100)) by field.
  rewrite E in H1, H2. rewrite E. unfold toFixed2.
  destruct (Qlt_bool q 0).
  - rewrite (Qfloor_unique (- q * 100 + (1 # 2)) (- n)).
    + rewrite inject_Z_opp. field.
    + rewrite inject_Z_opp. lra.
    + rewrite inject_Z_opp. lra.
  - rewrite (Qfloor_unique (q * 100 + (1 # 2)) n).
    + field.
    + lra.
    + lra.
Qed.

(** An integer within half of [q] and not halfway is [Math.round(q)]. *)
Lemma Math_round_unique (q : Q) (n : Z) :
  Qabs (inject_Z n - q) < 1 # 2 -> Math_round q = n.
Proof.
  intros H. apply Qabs_Qlt_condition in H. destruct H as [H1 H2].
  unfold Math_round. apply Qfloor_unique; lra.
Qed.

Local Close Scope Q_scope.

(* ----------------------------------------------------------------- *)
(** *** The data rows of the hour-count report *)

Lemma nth_error_flat_map_width {A B : Type} (f : A -> list B) (w : nat)
    (l : list A) (i j : nat) (x : A) :
  (forall y, List.length (f y) = w) ->
  nth_error l i = Some x -> (j < w)%nat ->
  nth_error (flat_map f l) (i * w + j) = nth_error (f x) j.
Proof.
  intros Hw. revert i. induction l as [|y r IH]; intros i Hi Hj.
  - destruct i; discriminate.
  - destruct i as [|i]; simpl in *.
    + inversion Hi. subst. rewrite nth_error_app1; [reflexivity|].
      now rewrite Hw.
    + rewrite nth_error_app2; rewrite Hw; [|lia].
      replace (w + i * w + j - w)%nat with (i * w + j)%nat by lia.
      now apply IH.
Qed.

Section RowFacts.

Variable settings : Settings.
Variable simpleReport : bool.

Lemma fold_pushDuration durationBuckets type (ds : list jsnum) row tc tm :
  exists totalCount totalMin,
    fold_left (pushDuration settings simpleReport durationBuckets type) ds
              (row, tc, tm)
    = (row ++ flat_map
                (fun d => durationCells settings simpleReport type
                            (bucketFor durationBuckets d type)) ds,
       totalCount, totalMin).
Proof.
  revert row tc tm. induction ds as [|d r IH]; intros row tc tm.
  - exists tc, tm. simpl. now rewrite app_nil_r.
  - cbn [fold_left pushDuration flat_map].
    destruct (IH (row ++ durationCells settings simpleReport type
                          (bucketFor durationBuckets d type))
                 (dadd tc (netCount settings type
                             (bucketFor durationBuckets d type)))
                 (dadd tm (dmul (netCount settings type
                                   (bucketFor durationBuckets d type))
                                (d_of_jsnum d))))
      as [c [m E]].
    exists c, m. rewrite E. now rewrite <- app_assoc.
Qed.

(** [pushType] appends the cells of every duration, in order, and the two
    totals of the type. *)
Lemma pushType_cells durations durationBuckets row type :
  exists totalCount totalMin,
    pushType settings simpleReport durations durationBuckets row type
    = row ++ flat_map
               (fun d => durationCells settings simpleReport type
                           (bucketFor durationBuckets d type)) durations
          ++ [Double totalCount; Double totalMin].
Proof.
  unfold pushType.
  destruct (fold_pushDuration durationBuckets type durations row (DFin 0) (DFin 0))
    as [c [m E]].
  rewrite E. exists c, m. now rewrite <- app_assoc.
Qed.

Lemma durationCells_length type bucket :
  List.length (durationCells settings simpleReport type bucket)
  = cell_width simpleReport type.
Proof. unfold durationCells, cell_width. now destruct simpleReport, type. Qed.

Lemma durationCells_last type bucket :
  nth_error (durationCells settings simpleReport type bucket)
            (cell_width simpleReport type - 1)
  = Some (Double (netCount settings type bucket)).
Proof. unfold durationCells, cell_width. now destruct simpleReport, type. Qed.

Lemma cell_width_pos type : (0 < cell_width simpleReport type)%nat.
Proof. unfold cell_width. destruct simpleReport, type; lia. Qed.

Lemma pushType_netCount durations durationBuckets row type i d :
  nth_error durations i = Some d ->
  nth_error (pushType settings simpleReport durations durationBuckets row type)
            (List.length row + i * cell_width simpleReport type
             + (cell_width simpleReport type - 1))
  = Some (Double (netCount settings type (bucketFor durationBuckets d type))).
Proof.
  intros Hd.
  destruct (pushType_cells durations durationBuckets row type) as [c [m ->]].
  rewrite nth_error_app2 by lia.
  replace (List.length row + i * cell_width simpleReport type
           + (cell_width simpleReport type - 1) - List.length row)%nat
    with (i * cell_width simpleReport type + (cell_width simpleReport type - 1))%nat
    by lia.
  pose proof (cell_width_pos type) as Hpos.
  assert (Hnth :
    nth_error (flat_map (fun d0 => durationCells settings simpleReport type
                                     (bucketFor durationBuckets d0 type)) durations)
              (i * cell_width simpleReport type + (cell_width simpleReport type - 1))
    = Some (Double (netCount settings type (bucketFor durationBuckets d type)))).
  { rewrite (nth_error_flat_map_width _ (cell_width simpleReport type)
               durations i _ d); [apply durationCells_last| |assumption|lia].
    intros y. apply durationCells_length. }
  rewrite nth_error_app1; [exact Hnth|].
  apply nth_error_Some. rewrite Hnth. discriminate.
Qed.

Lemma pushType_length durations durationBuckets row type :
  List.length (pushType settings simpleReport durations durationBuckets row type)
  = (List.length row + (List.length durations * cell_width simpleReport type + 2))%nat.
Proof.
  destruct (pushType_cells durations durationBuckets row type) as [c [m ->]].
  rewrite !length_app. simpl. f_equal.
  assert (H : forall l : list jsnum,
    List.length (flat_map (fun d => durationCells settings simpleReport type
                                      (bucketFor durationBuckets d type)) l)
    = (List.length l * cell_width simpleReport type)%nat).
  { induction l as [|y r IH]; simpl; [reflexivity|].
    now rewrite length_app, durationCells_length, IH. }
  rewrite H. lia.
Qed.

Lemma pushType_prefix durations durationBuckets row type k :
  (k < List.length row)%nat ->
  nth_error (pushType settings simpleReport durations durationBuckets row type) k
  = nth_error row k.
Proof.
  intros Hk.
  destruct (pushType_cells durations durationBuckets row type) as [c [m ->]].
  now rewrite nth_error_app1.
Qed.

(** The [netCount] cell of a duration and a type the filter lets through. *)
Lemma teacherRow_netCount durations teacher durationBuckets type i d :
  filter_excludes (classTypeFilter settings) type = false ->
  nth_error durations i = Some d ->
  nth_error (teacherRow settings simpleReport durations teacher durationBuckets)
            (netCount_index (classTypeFilter settings) simpleReport
                            (List.length durations) type i)
  = Some (Double (netCount settings type (bucketFor durationBuckets d type))).
Proof.
  intros Hf Hd. unfold teacherRow, netCount_index, block_start.
  assert (Hi : (i < List.length durations)%nat).
  { apply nth_error_Some. rewrite Hd. discriminate. }
  pose proof (cell_width_pos type) as Hpos.
  destruct (classTypeFilter settings), type; try discriminate Hf.
  - apply (pushType_netCount durations durationBuckets [Text teacher] private i d Hd).
  - apply (pushType_netCount durations durationBuckets [Text teacher] group i d Hd).
  - rewrite pushType_prefix.
    + apply (pushType_netCount durations durationBuckets [Text teacher] private i d Hd).
    + rewrite pushType_length. simpl List.length.
      assert ((i * cell_width simpleReport private + cell_width simpleReport private
               <= List.length durations * cell_width simpleReport private)%nat).
      { replace (i * cell_width simpleReport private
                 + cell_width simpleReport private)%nat
          with (S i * cell_width simpleReport private)%nat by (simpl; lia).
        apply Nat.mul_le_mono_r. lia. }
      lia.
  - pose proof (pushType_netCount durations durationBuckets
                  (pushType settings simpleReport durations durationBuckets
                            [Text teacher] private) group i d Hd) as H.
    rewrite pushType_length in H. simpl List.length in H. exact H.
Qed.

Lemma teacherRow_head durations teacher durationBuckets :
  nth_error (teacherRow settings simpleReport durations teacher durationBuckets) 0
  = Some (Text teacher).
Proof.
  unfold teacherRow.
  destruct (classTypeFilter settings);
    repeat (rewrite pushType_prefix;
            [|try rewrite pushType_length; simpl; lia]); reflexivity.
Qed.

End RowFacts.

(* ----------------------------------------------------------------- *)
(** *** The counters of a bucket, by sessions *)

Lemma updateBucket_contribution Date_ms settings cls t ty b :
  updateBucket settings (creditCancellations Date_ms settings) cls t ty b
  = bucket_plus b (contribution Date_ms settings cls t ty).
Proof.
  unfold updateBucket, contribution, bucket_plus, studentNoShow_counted, bump.
  destruct b as [a n c l s].
  destruct ty; [destruct (payLastMinuteCancellation settings)|];
    try rewrite creditCancellations_counts;
    destruct (teacher_attended cls); cbn -[Z.add minutes_gt minutes_of];
    repeat match goal with
           | |- context [if ?c then _ else _] => destruct c
           end;
    unfold incr_studentNoShow, incr_late, incr_attended, incr_noShow;
    cbn [attended noShow cancelled late studentNoShow]; f_equal; lia.
Qed.

(** Each counter of a bucket is the sum of the contributions of the classes
    counted in it. *)
Lemma bucketAt_sessions Date_ms settings (data : object Class) t d ty :
  bucketAt (fst (aggregate settings (creditCancellations Date_ms settings) data))
           t d ty
  = fold_left
      (fun b cls =>
         if assigned_to settings t d ty cls
         then bucket_plus b (contribution Date_ms settings cls t ty) else b)
      (map snd data) zeroBucket.
Proof.
  unfold aggregate. rewrite bucketAt_fold.
  change (bucketAt (fst ([], [])) t d ty) with zeroBucket.
  generalize zeroBucket. induction (map snd data) as [|cls r IH]; intros b.
  - reflexivity.
  - cbn [fold_left]. rewrite IH.
    now rewrite updateBucket_contribution.
Qed.

(* ----------------------------------------------------------------- *)
(** *** Sessions without a teacher *)

Lemma In_set_add (x d : jsnum) (s : list jsnum) :
  In x (set_add d s) <-> x = d \/ In x s.
Proof.
  unfold set_add. destruct (existsb (key_eqb d) s) eqn:E.
  - split; [auto|]. intros [->|H]; [|exact H].
    apply existsb_exists in E. destruct E as [y [Hy Hk]].
    apply key_eqb_eq in Hk. now subst.
  - rewrite in_app_iff. simpl. split.
    + intros [H|[H|[]]]; auto.
    + intros [H|H]; auto.
Qed.

Lemma aggregate_durations settings credit (l : list Class) st d :
  In d (snd (fold_left (aggregateClass settings credit) l st))
  <-> In d (snd st)
      \/ exists cls, In cls l /\ d = minutes_of (scheduledDuration cls).
Proof.
  revert st. induction l as [|c r IH]; intros st; cbn [fold_left].
  - split; [auto|]. intros [H|[cls [[] _]]]. exact H.
  - rewrite IH, aggregateClass_durations, In_set_add. split.
    + intros [[->|H]|[cls [Hc Hd]]]; [right|left|right].
      * exists c. simpl. auto.
      * exact H.
      * exists cls. simpl. auto.
    + intros [H|[cls [[<-|Hc] Hd]]]; [left; right; exact H|left; left; exact Hd|].
      right. exists cls. auto.
Qed.

Lemma find_all_false {A : Type} (f : A -> bool) (l : list A) :
  (forall x, In x l -> f x = false) -> find f l = None.
Proof.
  induction l as [|a r IH]; intros H; simpl; [reflexivity|].
  rewrite (H a (or_introl eq_refl)). apply IH. intros x Hx. apply H. now right.
Qed.

Lemma teacher_username_none cls : teacher cls = None -> teacher_username cls = None.
Proof. unfold teacher_username. now intros ->. Qed.

Lemma assigned_none settings cls : teacher cls = None -> assigned settings cls = None.
Proof. intros H. unfold assigned. now rewrite (teacher_username_none cls H). Qed.

Lemma sumZ_app {A : Type} (f : A -> Z) (l1 l2 : list A) :
  sumZ f (l1 ++ l2) = sumZ f l1 + sumZ f l2.
Proof. induction l1 as [|a r IH]; simpl; [reflexivity|]. rewrite IH. lia. Qed.

Lemma sumZ_insert {A : Type} (f : A -> Z) (l1 l2 : list A) (a : A) :
  sumZ f (l1 ++ a :: l2) = sumZ f (l1 ++ l2) + f a.
Proof. rewrite !sumZ_app. simpl. lia. Qed.

(** A counter that every selected update raises by an amount of the
    element alone is a sum over the list. *)
Lemma fold_counter {A S : Type} (p : S -> Z) (upd : A -> S -> S)
    (sel : A -> bool) (delta : A -> Z) :
  (forall a s, p (upd a s) = p s + delta a) ->
  forall l s,
    p (fold_left (fun s a => if sel a then upd a s else s) l s)
    = p s + sumZ (fun a => if sel a then delta a else 0) l.
Proof.
  intros H. induction l as [|a r IH]; intros s; simpl; [lia|].
  rewrite IH. destruct (sel a); [rewrite H|]; lia.
Qed.

Section TallyFacts.

Variable window : Q.
Variable type : ClassType.

(** The bucket of a duration after [tally]: the updates of the classes of
    that duration, in order. *)
Lemma tally_bucket (l : list Class) (m : list (jsnum * Tally)) (d : jsnum) :
  get_or key_eqb (fold_left (tallyStep window type) l m) d zeroTally
  = fold_left
      (fun b cls =>
         if key_eqb d (minutes_of (scheduledDuration cls))
         then tallyBucket window type cls b else b)
      l (get_or key_eqb m d zeroTally).
Proof.
  revert m. induction l as [|cls r IH]; intros m; cbn [fold_left]; [reflexivity|].
  rewrite IH. f_equal. unfold tallyStep.
  destruct (key_eqb d (minutes_of (scheduledDuration cls))) eqn:E.
  - apply key_eqb_eq in E. subst d.
    now rewrite (get_or_aset_same key_eqb key_eqb_eq).
  - apply (get_or_aset_other key_eqb key_eqb_eq).
    intros ->. rewrite (proj2 (key_eqb_eq _ _) eq_refl) in E. discriminate.
Qed.

Lemma tally_counter (p : Tally -> Z) (delta : Class -> Z)
    (data : object Class) (d : jsnum) :
  (forall cls b, p (tallyBucket window type cls b) = p b + delta cls) ->
  p zeroTally = 0 ->
  p (get_or key_eqb (tally window data type) d zeroTally)
  = sumZ (fun cls =>
            if key_eqb d (minutes_of (scheduledDuration cls)) then delta cls else 0)
         (filter (tallyFilter type) (map snd data)).
Proof.
  intros H H0. unfold tally. rewrite tally_bucket.
  rewrite (fold_counter p (tallyBucket window type) _ delta H).
  change (get_or key_eqb [] d zeroTally) with zeroTally. rewrite H0. lia.
Qed.

Lemma tally_counter_insert (p : Tally -> Z) (delta : Class -> Z)
    (data1 data2 : object Class) (k : string) (cls : Class) :
  (forall c b, p (tallyBucket window type c b) = p b + delta c) ->
  p zeroTally = 0 ->
  tallyFilter type cls = true ->
  p (get_or key_eqb (tally window (data1 ++ (k, cls) :: data2) type)
            (minutes_of (scheduledDuration cls)) zeroTally)
  = p (get_or key_eqb (tally window (data1 ++ data2) type)
              (minutes_of (scheduledDuration cls)) zeroTally)
    + delta cls.
Proof.
  intros H H0 Hf.
  rewrite !(tally_counter p delta _ _ H H0).
  rewrite !map_app, !filter_app. cbn [map filter snd]. rewrite Hf.
  rewrite sumZ_insert.
  now rewrite (proj2 (key_eqb_eq _ _) eq_refl).
Qed.

End TallyFacts.

(** C8, as stated, fails: the second class of [unstaffed_classes] has no
    teacher, and the row of the hour-count report for the teacher of the
    first class gets the cells of a 30-minute column because of it. *)
Lemma teacherless_session_adds_cells :
  let data := processData isoDate unstaffed_classes unstaffed_participants in
  let others :=
    processData isoDate (firstn 1 unstaffed_classes) unstaffed_participants in
  (exists cls, data = others ++ [("class-2"%string, cls)] /\ teacher cls = None)
  /\ map (@List.length csv)
         (buildTeacherHourCountCSV isoDate data scenario_settings true) = [9%nat]
  /\ map (@List.length csv)
         (buildTeacherHourCountCSV isoDate others scenario_settings true) = [7%nat]
  /\ buildTeacherHourCountCSV isoDate data scenario_settings true
     <> buildTeacherHourCountCSV isoDate others scenario_settings true.
Proof.
  cbv zeta. split; [eexists; split; vm_compute; reflexivity|].
  split; [vm_compute; reflexivity|]. split; [vm_compute; reflexivity|].
  intros H. apply (f_equal (map (@List.length csv))) in H.
  vm_compute in H. discriminate.
Qed.

(** C8, amended: a class of the model none of whose participant rows
    carries the teacher marker has an empty [teacher]; a class with an empty
    [teacher] leaves the teacher reports of the hour-count report (every
    counter of every teacher) as they are without it and only adds its
    rounded duration to the set of durations that become columns; and when
    its seat count is 1 (or greater than 1) it is counted in the private
    (or group) overview tally of its duration as a class whose teacher did
    not attend: [total] grows by one, [completed] does not grow, and
    [teacherNoShow] grows by one unless the class is cancelled. *)
Theorem session_without_teacher :
  forall (Date_ms : string -> option Z) (settings : Settings) (window : Q),
    (forall cd pd k cls,
        In (k, cls) (processData Date_ms cd pd) ->
        (forall p, In p pd -> col p 2 = Some k -> teacherMarker p = false) ->
        teacher cls = None)
    /\ (forall (data1 data2 : object Class) k cls,
        teacher cls = None ->
        let credit := creditCancellations Date_ms settings in
        let data := data1 ++ (k, cls) :: data2 in
        let others := data1 ++ data2 in
        let d := minutes_of (scheduledDuration cls) in
        fst (aggregate settings credit data) = fst (aggregate settings credit others)
        /\ (forall x,
              In x (snd (aggregate settings credit data))
              <-> x = d \/ In x (snd (aggregate settings credit others)))
        /\ (forall type,
              tallyFilter type cls = true ->
              let after := get_or key_eqb (tally window data type) d zeroTally in
              let before := get_or key_eqb (tally window others type) d zeroTally in
              o_total after = o_total before + 1
              /\ o_completed after = o_completed before
              /\ o_teacherNoShow after
                 = o_teacherNoShow before
                   + (if truthy (Some (cancelledBy cls)) then 0 else 1))).
Proof.
  intros D settings window. split.
  { intros cd pd k cls Hin Hrows.
    destruct (processData_In D cd pd k cls Hin) as [cs [_ [_ [_ ->]]]].
    cbn [teacher makeClass].
    rewrite find_all_false; [reflexivity|].
    intros p Hp. apply filter_In in Hp. destruct Hp as [Hp Hslug].
    apply Hrows; [exact Hp|].
    unfold str_eq_cell in Hslug. destruct (col p 2) as [s|]; [|discriminate].
    apply String.eqb_eq in Hslug. now subst. }
  intros data1 data2 k cls Hnone credit data others d.
  pose proof (assigned_none settings cls Hnone) as A.
  split; [|split].
  - unfold aggregate, data, others. rewrite !map_app. cbn [map snd].
    rewrite !fold_left_app. cbn [fold_left].
    destruct (fold_left (aggregateClass settings credit) (map snd data1) ([], []))
      as [r s].
    rewrite (aggregateClass_unassigned settings credit (r, s) cls A).
    apply fold_reports_irrelevant.
  - intros x. unfold aggregate, data, others.
    rewrite !aggregate_durations. rewrite !map_app. cbn [map snd].
    split.
    + intros [[]|[c [Hc Hx]]]. apply in_app_iff in Hc.
      destruct Hc as [Hc|[<-|Hc]]; [right; right|left; exact Hx|right; right];
        exists c; (split; [apply in_app_iff; auto|exact Hx]).
    + intros [->|[[]|[c [Hc Hx]]]]; right.
      * exists cls. split; [apply in_app_iff; right; left; reflexivity|reflexivity].
      * exists c. split; [|exact Hx]. apply in_app_iff in Hc.
        apply in_app_iff. destruct Hc; [left|right; right]; assumption.
  - intros type Hf after before. unfold after, before, data, others, d.
    assert (Ht : teacher_attended cls = false)
      by (unfold teacher_attended; now rewrite Hnone).
    split; [|split].
    + rewrite (tally_counter_insert window type o_total (fun _ => 1)
                 data1 data2 k cls); auto.
    + rewrite (tally_counter_insert window type o_completed
                 (fun c => if (teacher_attended c
                               && negb (truthy (Some (cancelledBy c))))%bool
                           then 1 else 0)
                 data1 data2 k cls); auto.
      * rewrite Ht. simpl. lia.
      * intros c b. cbn [o_completed tallyBucket]. unfold bump.
        destruct (_ && _)%bool; lia.
    + rewrite (tally_counter_insert window type o_teacherNoShow
                 (fun c => if (negb (teacher_attended c)
                               && negb (truthy (Some (cancelledBy c))))%bool
                           then 1 else 0)
                 data1 data2 k cls); auto.
      * rewrite Ht. simpl. now destruct (truthy (Some (cancelledBy cls))).
      * intros c b. cbn [o_teacherNoShow tallyBucket]. unfold bump.
        destruct (_ && _)%bool; lia.
Qed.

Lemma session_without_teacher_witness :
  let data := processData isoDate unstaffed_classes unstaffed_participants in
  let others :=
    processData isoDate (firstn 1 unstaffed_classes) unstaffed_participants in
  let credit := creditCancellations isoDate scenario_settings in
  fst (aggregate scenario_settings credit data)
  = fst (aggregate scenario_settings credit others)
  /\ o_total (get_or key_eqb (tally 24 data private) (Int 30) zeroTally)
     = o_total (get_or key_eqb (tally 24 others private) (Int 30) zeroTally) + 1.
Proof.
  cbv zeta.
  destruct (session_without_teacher isoDate scenario_settings 24) as [Hteacher Hrest].
  assert (Hcls : exists cls,
             In ("class-2"%string, cls)
                (processData isoDate unstaffed_classes unstaffed_participants)
             /\ processData isoDate unstaffed_classes unstaffed_participants
                = processData isoDate (firstn 1 unstaffed_classes)
                    unstaffed_participants ++ [("class-2"%string, cls)]
             /\ minutes_of (scheduledDuration cls) = Int 30
             /\ tallyFilter private cls = true).
  { eexists. split; [vm_compute; right; left; reflexivity|].
    split; [vm_compute; reflexivity|]. split; vm_compute; reflexivity. }
  destruct Hcls as [cls [Hin [Hdata [Hd Hf]]]].
  assert (Hnone : teacher cls = None).
  { apply (Hteacher unstaffed_classes unstaffed_participants "class-2"%string cls Hin).
    intros p Hp Hslug. vm_compute in Hp.
    destruct Hp as [<-|[<-|[]]]; vm_compute in Hslug; discriminate. }
  destruct (Hrest (processData isoDate (firstn 1 unstaffed_classes)
                     unstaffed_participants) [] "class-2"%string cls Hnone)
    as [Hfst [_ Htally]].
  rewrite app_nil_r in Hfst, Htally. rewrite <- Hdata in Hfst, Htally.
  split; [exact Hfst|].
  destruct (Htally private Hf) as [Htotal _].
  rewrite Hd in Htotal. exact Htotal.
Defined.

(* ----------------------------------------------------------------- *)
(** *** Private and group classes, engine by engine *)









(* ----------------------------------------------------------------- *)
(** *** Objects with distinct keys *)

Section AssocKeys.

Context {V : Type}.

Lemma keys_aset (o : object V) k v :
  map fst (obj_set o k v) = map fst o
  \/ (~ In k (map fst o) /\ map fst (obj_set o k v) = map fst o ++ [k]).
Proof.
  unfold obj_set. induction o as [|[k' v'] r IH]; simpl.
  - right. split; [tauto|reflexivity].
  - destruct (String.eqb_spec k k') as [->|Hne]; simpl.
    + now left.
    + destruct IH as [E|[Hn E]].
      * left. now rewrite E.
      * right. split; [|now rewrite E]. intros [H|H]; [congruence|tauto].
Qed.

Lemma NoDup_aset (o : object V) k v :
  NoDup (map fst o) -> NoDup (map fst (obj_set o k v)).
Proof.
  intros H. destruct (keys_aset o k v) as [->|[Hn ->]]; [exact H|].
  apply NoDup_app; [exact H|repeat constructor; tauto|].
  intros x Hx [<-|[]]. contradiction.
Qed.

Lemma In_aget_NoDup (o : object V) k v :
  NoDup (map fst o) -> In (k, v) o -> obj_get o k = Some v.
Proof.
  unfold obj_get. induction o as [|[k' v'] r IH]; simpl; [tauto|].
  intros Hnd [H|H].
  - inversion H. subst. now rewrite String.eqb_refl.
  - inversion Hnd as [|? ? Hnotin Hnd']. subst.
    destruct (String.eqb_spec k k') as [->|Hne].
    + exfalso. apply Hnotin. apply in_map_iff. exists (k', v). auto.
    + now apply IH.
Qed.

End AssocKeys.

(* ----------------------------------------------------------------- *)
(** *** The course overview *)

Lemma filter_snoc {A : Type} (f : A -> bool) (l : list A) (a : A) :
  filter f (l ++ [a]) = filter f l ++ (if f a then [a] else []).
Proof. now rewrite filter_app. Qed.

(** The groups of [groupByCourse]: distinct course ids, each with the
    classes of that id in enumeration order, none of them empty. *)
Lemma groupByCourse_groups (data : object Class) :
  NoDup (map fst (groupByCourse data))
  /\ (forall id,
        get_or String.eqb (groupByCourse data) id []
        = filter (fun cls => String.eqb (courseKey cls) id) (map snd data))
  /\ (forall id l, obj_get (groupByCourse data) id = Some l -> l <> []).
Proof.
  unfold groupByCourse.
  set (step := fun (byCourse : object (list Class)) (cls : Class) =>
                 obj_set byCourse (courseKey cls)
                   (get_or String.eqb byCourse (courseKey cls) [] ++ [cls])).
  assert (G : forall l m done,
    NoDup (map fst m) ->
    (forall id, get_or String.eqb m id []
                = filter (fun cls => String.eqb (courseKey cls) id) done) ->
    (forall id v, obj_get m id = Some v -> v <> []) ->
    NoDup (map fst (fold_left step l m))
    /\ (forall id, get_or String.eqb (fold_left step l m) id []
                   = filter (fun cls => String.eqb (courseKey cls) id) (done ++ l))
    /\ (forall id v, obj_get (fold_left step l m) id = Some v -> v <> [])).
  { induction l as [|cls r IH]; intros m done Hnd Hget Hne.
    - simpl. rewrite app_nil_r. auto.
    - cbn [fold_left].
      replace (done ++ cls :: r) with ((done ++ [cls]) ++ r)
        by (now rewrite <- app_assoc).
      apply IH.
      + unfold step. now apply NoDup_aset.
      + intros id. unfold step, obj_set. rewrite filter_snoc.
        destruct (String.eqb_spec (courseKey cls) id) as [<-|Hk].
        * rewrite (get_or_aset_same String.eqb String.eqb_eq). now rewrite Hget.
        * rewrite (get_or_aset_other String.eqb String.eqb_eq) by congruence.
          rewrite app_nil_r. apply Hget.
      + intros id v. unfold step, obj_set, obj_get.
        destruct (String.eqb_spec (courseKey cls) id) as [<-|Hk].
        * rewrite (aget_aset_same String.eqb String.eqb_eq).
          intros H. inversion H. now destruct (get_or String.eqb m (courseKey cls) []).
        * rewrite (aget_aset_other String.eqb String.eqb_eq) by congruence.
          apply Hne. }
  apply (G (map snd data) [] []).
  - constructor.
  - reflexivity.
  - discriminate.
Qed.

Section CourseFacts.

Variable Date_ms : string -> option Z.

Lemma insert_class_perm c l : Permutation (insert_class Date_ms c l) (c :: l).
Proof.
  induction l as [|e r IH]; simpl; [reflexivity|].
  destruct (starts_before Date_ms c e); [reflexivity|].
  rewrite IH. apply perm_swap.
Qed.

Lemma sort_classes_perm l : Permutation (sort_classes Date_ms l) l.
Proof.
  unfold sort_classes.
  assert (G : forall acc, Permutation (fold_left (fun a c => insert_class Date_ms c a) l acc)
                                      (acc ++ l)).
  { induction l as [|c r IH]; intros acc; simpl.
    - now rewrite app_nil_r.
    - rewrite IH, insert_class_perm. apply Permutation_middle. }
  apply (G []).
Qed.

End CourseFacts.

Lemma filter_length_perm {A : Type} (f : A -> bool) (l l' : list A) :
  Permutation l l' -> List.length (filter f l) = List.length (filter f l').
Proof.
  induction 1 as [|x l l' _ IH|x y l|l l' l'' _ IH1 _ IH2]; simpl.
  - reflexivity.
  - destruct (f x); simpl; congruence.
  - destruct (f x), (f y); reflexivity.
  - congruence.
Qed.

Lemma countParticipation_fold (ss : list Student) names att tot :
  fold_left countParticipation ss (names, att, tot)
  = (names ++ map s_username ss,
     att + Z.of_nat (List.length (filter s_attended ss)),
     tot + Z.of_nat (List.length ss)).
Proof.
  revert names att tot. induction ss as [|s r IH]; intros names att tot.
  - simpl. now rewrite app_nil_r, !Z.add_0_r.
  - cbn [fold_left countParticipation]. rewrite IH. cbn [map filter].
    rewrite <- app_assoc. unfold bump.
    destruct (s_attended s); cbn [List.length app];
      (apply f_equal2; [apply f_equal2|]; [reflexivity|lia|lia]).
Qed.

(** The counters of the loop: the attended and the total participations of
    the classes. *)
Lemma countParticipations_counts (classes : list Class) :
  countParticipations classes
  = (map s_username (flat_map students classes),
     Z.of_nat (List.length (filter s_attended (flat_map students classes))),
     Z.of_nat (List.length (flat_map students classes))).
Proof.
  unfold countParticipations.
  assert (G : forall names att tot,
    fold_left (fun acc cls => fold_left countParticipation (students cls) acc)
              classes (names, att, tot)
    = (names ++ map s_username (flat_map students classes),
       att + Z.of_nat (List.length (filter s_attended (flat_map students classes))),
       tot + Z.of_nat (List.length (flat_map students classes)))).
  { induction classes as [|c r IH]; intros names att tot.
    - simpl. now rewrite app_nil_r, !Z.add_0_r.
    - cbn [fold_left flat_map]. rewrite countParticipation_fold, IH.
      rewrite map_app, filter_app, !length_app, <- app_assoc.
      apply f_equal2; [apply f_equal2|]; [reflexivity|lia|lia]. }
  apply (G [] 0 0).
Qed.

Lemma Math_round_close (q : Q) : (Qabs (inject_Z (Math_round q) - q) <= 1 # 2)%Q.
Proof.
  unfold Math_round.
  pose proof (Qfloor_le (q + (1 # 2))) as H1.
  pose proof (Qlt_floor (q + (1 # 2))) as H2.
  rewrite inject_Z_plus in H2. change (inject_Z 1) with 1%Q in H2.
  set (f := inject_Z (Qfloor (q + (1 # 2)))) in *. clearbody f.
  apply Qabs_Qle_condition. split; lra.
Qed.

(** The attendance rate before [Math.round]: the quotient and the product,
    each rounded to a double, lie between 0 and 100 and within [2^-45] of
    the exact percentage. *)
Lemma attendance_double (a t : Z) :
  0 <= a <= t -> 0 < t ->
  let y := round64 (round64 (inject_Z a / inject_Z t) * 100) in
  dmul (ddiv (d_of_Z a) (d_of_Z t)) (DFin 100) = DFin y
  /\ (0 <= y <= 100)%Q
  /\ (Qabs (y - inject_Z a / inject_Z t * 100) <= pow2 (-45))%Q.
Proof.
  intros Ha Ht y.
  assert (Htq : (0 < inject_Z t)%Q).
  { change (inject_Z 0 < inject_Z t)%Q. rewrite <- Zlt_Qlt. exact Ht. }
  set (q := (inject_Z a / inject_Z t)%Q) in *.
  assert (H0 : (0 <= q)%Q).
  { apply Qle_shift_div_l; [exact Htq|]. rewrite Qmult_0_l.
    change (inject_Z 0 <= inject_Z a)%Q. rewrite <- Zle_Qle. lia. }
  assert (H1 : (q <= 1)%Q).
  { apply Qle_shift_div_r; [exact Htq|]. rewrite Qmult_1_l.
    rewrite <- Zle_Qle. lia. }
  assert (Aq : (Qabs q <= pow2 0)%Q).
  { rewrite (Qabs_pos q H0). exact H1. }
  set (x := round64 q) in *.
  assert (X0 : (0 <= x)%Q) by (apply round64_nonneg; exact H0).
  assert (X1 : (x <= 1)%Q).
  { assert (E : (1 == inject_Z 1 * pow2 0)%Q) by reflexivity.
    rewrite E. apply (round64_upper q 1 0 0 Aq); [lia|lia|].
    rewrite <- E. exact H1. }
  pose proof (round64_error q 0 Aq ltac:(lia)) as Xe. fold x in Xe.
  assert (Ax : (Qabs (x * 100) <= pow2 7)%Q).
  { rewrite Qabs_pos by lra. change (pow2 7) with 128%Q. lra. }
  assert (Y0 : (0 <= y)%Q) by (apply round64_nonneg; lra).
  assert (Y1 : (y <= 100)%Q).
  { assert (E : (100 == inject_Z 25 * pow2 2)%Q) by reflexivity.
    rewrite E. apply (round64_upper (x * 100) 25 2 7 Ax); [lia|lia|].
    rewrite <- E. lra. }
  pose proof (round64_error (x * 100) 7 Ax ltac:(lia)) as Ye. fold y in Ye.
  split; [|split; [split; assumption|]].
  - unfold ddiv, dmul, d_of_Z.
    assert (Tz : Qeq_bool (inject_Z t) 0 = false).
    { destruct (Qeq_bool (inject_Z t) 0) eqn:T; [|reflexivity].
      apply Qeq_bool_iff in T. rewrite T in Htq. discriminate. }
    rewrite Tz. fold q. rewrite (binary64_finite q 0 Aq) by lia. fold x.
    rewrite (binary64_finite (x * 100) 7 Ax) by lia. reflexivity.
  - change (pow2 (0 - 53)) with (1 # 9007199254740992)%Q in Xe.
    change (pow2 (7 - 53)) with (1 # 70368744177664)%Q in Ye.
    change (pow2 (-45)) with (1 # 35184372088832)%Q.
    apply Qabs_Qle_condition in Xe. apply Qabs_Qle_condition in Ye.
    apply Qabs_Qle_condition. clearbody x y q. split; lra.
Qed.

(** 23 of 40 is 57.5 %; in double precision 23 / 40 * 100 is
    57.49999999999999, which [Math.round] takes to 57. *)
Lemma attendanceRate_halfway : attendanceRate 23 40 = Count 57.
Proof. vm_compute. reflexivity. Qed.

(** C9: in the cross-course overview, when no course id is a name objects
    inherit, the row of every course group holds as attendance rate the
    attended participations of the classes of the course divided by all
    their participations, times 100, computed in double precision and
    rounded by [Math.round]: an integer between 0 and 100 which, below
    [2^40] participations, is a nearest integer of the exact percentage,
    and its rounding unless that lies halfway between two integers; the
    cell is empty when the course has no participation. *)
Theorem attendance_rate_overview :
  forall (Date_ms : string -> option Z) (data : object Class)
         (courseId : string) (classes : list Class),
    (forall k cls, In (k, cls) data -> inherited (courseKey cls) = false) ->
    In (courseId, classes) (groupByCourse data) ->
    let sessions :=
      filter (fun cls => String.eqb (courseKey cls) courseId) (map snd data) in
    let participations := flat_map students sessions in
    let total := Z.of_nat (List.length participations) in
    let attendedCount := Z.of_nat (List.length (filter s_attended participations)) in
    let exact := (inject_Z attendedCount / inject_Z total * 100)%Q in
    let row := courseRow Date_ms courseId classes in
    In row (buildAllCoursesOverviewCSV Date_ms data)
    /\ nth_error row 0 = Some (Text (quoted courseId))
    /\ (total = 0 -> nth_error row 10 = Some (Text EmptyString))
    /\ (total <> 0 ->
        exists r : Z,
          nth_error row 10 = Some (Count r)
          /\ r = Math_round
                   (round64
                      (round64 (inject_Z attendedCount / inject_Z total) * 100))
          /\ 0 <= r <= 100
          /\ (total < 2 ^ 40 -> (Qabs (inject_Z r - exact) <= 1 # 2)%Q)
          /\ ((Qabs (inject_Z r - exact) < 1 # 2)%Q -> r = Math_round exact)).
Proof.
  intros D data courseId classes _ Hin sessions participations total attendedCount
         exact row.
  destruct (groupByCourse_groups data) as [Hnd [Hget Hne]].
  pose proof (In_aget_NoDup _ _ _ Hnd Hin) as Hsome.
  assert (Hcls : classes = sessions).
  { unfold sessions. rewrite <- (Hget courseId). unfold get_or.
    unfold obj_get in Hsome. now rewrite Hsome. }
  pose proof (Hne _ _ Hsome) as Hnonempty.
  pose proof (sort_classes_perm D classes) as Hperm.
  assert (Hrow :
    exists firstClass rest c1 c2 c3 c4 c5 c6 c7 c8,
      sort_classes D classes = firstClass :: rest /\
      row = [Text (quoted courseId); c1; c2; c3; c4; c5; c6; c7; c8;
             Count (Z.of_nat (List.length
                      (unique (map s_username (flat_map students
                                                 (sort_classes D classes))))));
             attendanceRate attendedCount total]).
  { unfold row, courseRow.
    destruct (sort_classes D classes) as [|firstClass rest] eqn:E.
    - apply Permutation_nil in Hperm. contradiction.
    - rewrite countParticipations_counts. rewrite <- E.
      assert (Hp : Permutation (flat_map students (sort_classes D classes))
                               participations).
      { unfold participations. rewrite <- Hcls.
        apply Permutation_flat_map. rewrite E. exact Hperm. }
      rewrite (filter_length_perm s_attended _ _ Hp).
      rewrite (Permutation_length Hp).
      fold total attendedCount.
      do 10 eexists. split; [exact E|]. rewrite E. reflexivity. }
  destruct Hrow as (f & r & c1 & c2 & c3 & c4 & c5 & c6 & c7 & c8 & _ & Hrow).
  split.
  { unfold buildAllCoursesOverviewCSV. apply in_map_iff.
    exists (courseId, classes). split; [reflexivity|exact Hin]. }
  rewrite Hrow. split; [reflexivity|]. cbn [nth_error].
  unfold attendanceRate. split.
  - intros ->. reflexivity.
  - intros Ht. rewrite (proj2 (Z.eqb_neq total 0) Ht).
    assert (Hat : 0 <= attendedCount <= total).
    { unfold attendedCount, total. split; [lia|].
      apply inj_le. apply filter_length_le. }
    assert (Hpos : 0 < total) by (unfold total in *; lia).
    destruct (attendance_double attendedCount total Hat Hpos) as [Ey [[Y0 Y1] Ye]].
    cbn zeta in Ey, Y0, Y1, Ye. fold exact in Ye.
    set (y := round64 (round64 (inject_Z attendedCount / inject_Z total) * 100))
      in *.
    exists (Math_round y). rewrite Ey. cbn [dround Double].
    split; [reflexivity|]. split; [reflexivity|].
    pose proof (Qfloor_le (y + (1 # 2))) as F1.
    pose proof (Qlt_floor (y + (1 # 2))) as F2.
    rewrite inject_Z_plus in F2. change (inject_Z 1) with 1%Q in F2.
    fold (Math_round y) in F1, F2.
    split; [|split; [|intros Hlt; symmetry; now apply Math_round_unique]].
    + split.
      * unfold Math_round. change 0 with (Qfloor (inject_Z 0)).
        apply Qfloor_resp_le. change (inject_Z 0) with 0%Q. lra.
      * assert (H : Math_round y < 101); [|lia].
        rewrite Zlt_Qlt. eapply Qle_lt_trans; [exact F1|].
        change (inject_Z 101) with 101%Q. lra.
    + intros Hsmall.
      change (pow2 (-45)) with (1 # 35184372088832)%Q in Ye.
      apply Qabs_Qle_condition in Ye. destruct Ye as [Ye1 Ye2].
      set (R := Math_round y) in *.
      assert (Htq : (0 < inject_Z total)%Q).
      { change (inject_Z 0 < inject_Z total)%Q. rewrite <- Zlt_Qlt. exact Hpos. }
      assert (HT : (inject_Z total <= 1099511627776)%Q).
      { change 1099511627776%Q with (inject_Z (2 ^ 40)). rewrite <- Zle_Qle. lia. }
      assert (ET : (exact * inject_Z total == 100 * inject_Z attendedCount)%Q).
      { unfold exact. field. intros E. rewrite E in Htq. discriminate. }
      (* the exact percentage, times the total, against the half-integers *)
      assert (U : (exact * inject_Z total
                   < (inject_Z R + (1 # 2) + (1 # 35184372088832))
                     * inject_Z total)%Q).
      { apply Qmult_lt_compat_r; [exact Htq|]. lra. }
      assert (L : ((inject_Z R - (1 # 2) - (1 # 35184372088832))
                   * inject_Z total
                   <= exact * inject_Z total)%Q).
      { apply Qmult_le_compat_r; [lra|]. apply Qlt_le_weak. exact Htq. }
      assert (Eps : ((1 # 35184372088832) * inject_Z total <= 1 # 32)%Q).
      { assert (E : (1 # 32 == (1 # 35184372088832) * 1099511627776)%Q)
          by reflexivity.
        rewrite E. apply Qmult_le_l; [reflexivity|exact HT]. }
      assert (ZU : 200 * attendedCount <= 2 * R * total + total).
      { assert (Q1 : (inject_Z (200 * attendedCount)
                      < inject_Z (2 * R * total + total + 1))%Q).
        { rewrite !inject_Z_plus, !inject_Z_mult.
          change (inject_Z 200) with 200%Q. change (inject_Z 2) with 2%Q.
          change (inject_Z 1) with 1%Q.
          set (A := inject_Z attendedCount) in *. set (T := inject_Z total) in *.
          set (RR := inject_Z R) in *. set (RT := (RR * T)%Q) in *.
          assert (X : ((RR + (1 # 2) + (1 # 35184372088832)) * T
                       == RT + (1 # 2) * T + (1 # 35184372088832) * T)%Q)
            by (unfold RT; ring).
          rewrite X, ET in U.
          assert (Y : (2 * RR * T == 2 * RT)%Q) by (unfold RT; ring).
          rewrite Y.
          set (ee := ((1 # 35184372088832) * T)%Q) in *.
          clearbody A T RR RT ee. lra. }
        rewrite <- Zlt_Qlt in Q1. lia. }
      assert (ZL : 2 * R * total - total <= 200 * attendedCount).
      { assert (Q1 : (inject_Z (2 * R * total - total - 1)
                      < inject_Z (200 * attendedCount))%Q).
        { unfold Z.sub. rewrite !inject_Z_plus, !inject_Z_opp, !inject_Z_mult.
          change (inject_Z 200) with 200%Q. change (inject_Z 2) with 2%Q.
          change (inject_Z 1) with 1%Q.
          set (A := inject_Z attendedCount) in *. set (T := inject_Z total) in *.
          set (RR := inject_Z R) in *. set (RT := (RR * T)%Q) in *.
          assert (X : ((RR - (1 # 2) - (1 # 35184372088832)) * T
                       == RT - (1 # 2) * T - (1 # 35184372088832) * T)%Q)
            by (unfold RT; ring).
          rewrite X, ET in L.
          assert (Y : (2 * RR * T == 2 * RT)%Q) by (unfold RT; ring).
          rewrite Y.
          set (ee := ((1 # 35184372088832) * T)%Q) in *.
          clearbody A T RR RT ee. lra. }
        rewrite <- Zlt_Qlt in Q1. lia. }
      (* back to the rationals *)
      assert (QU : (100 * inject_Z attendedCount
                    <= (inject_Z R + (1 # 2)) * inject_Z total)%Q).
      { assert (E : ((inject_Z R + (1 # 2)) * inject_Z total
                     == (1 # 2) * inject_Z (2 * R * total + total))%Q).
        { rewrite inject_Z_plus, !inject_Z_mult. change (inject_Z 2) with 2%Q.
          ring. }
        rewrite E.
        assert (E2 : (100 * inject_Z attendedCount
                      == (1 # 2) * inject_Z (200 * attendedCount))%Q).
        { rewrite inject_Z_mult. change (inject_Z 200) with 200%Q. ring. }
        rewrite E2. apply Qmult_le_l; [reflexivity|]. rewrite <- Zle_Qle. exact ZU. }
      assert (QL : ((inject_Z R - (1 # 2)) * inject_Z total
                    <= 100 * inject_Z attendedCount)%Q).
      { assert (E : ((inject_Z R - (1 # 2)) * inject_Z total
                     == (1 # 2) * inject_Z (2 * R * total - total))%Q).
        { unfold Z.sub. rewrite inject_Z_plus, inject_Z_opp, !inject_Z_mult.
          change (inject_Z 2) with 2%Q. ring. }
        rewrite E.
        assert (E2 : (100 * inject_Z attendedCount
                      == (1 # 2) * inject_Z (200 * attendedCount))%Q).
        { rewrite inject_Z_mult. change (inject_Z 200) with 200%Q. ring. }
        rewrite E2. apply Qmult_le_l; [reflexivity|]. rewrite <- Zle_Qle. exact ZL. }
      rewrite <- ET in QU, QL.
      apply Qmult_le_r in QU; [|exact Htq]. apply Qmult_le_r in QL; [|exact Htq].
      apply Qabs_Qle_condition. split; lra.
Qed.

Lemma attendance_rate_overview_witness :
  exists row,
    In row (buildAllCoursesOverviewCSV isoDate
              (processData isoDate course_classes course_participants))
    /\ nth_error row 0 = Some (Text (quoted "course-7"))
    /\ exists r : Z,
         nth_error row 10 = Some (Count r) /\ r = 67
         /\ (Qabs (inject_Z r - (2 # 3) * 100) <= 1 # 2)%Q.
Proof.
  pose (data := processData isoDate course_classes course_participants).
  pose (classes := get_or String.eqb (groupByCourse data) "course-7"%string []).
  destruct (attendance_rate_overview isoDate data "course-7"%string classes)
    as [Hin [Hhd [_ Hrate]]].
  - intros k cls H. vm_compute in H.
    destruct H as [H|[H|[H|[]]]]; injection H as _ <-; reflexivity.
  - vm_compute. left. reflexivity.
  - eexists. split; [exact Hin|]. split; [exact Hhd|].
    destruct Hrate as [r [Hr [Hval [_ [Hnear _]]]]].
    + vm_compute. discriminate.
    + exists r. split; [exact Hr|]. split; [rewrite Hval; vm_compute; reflexivity|].
      assert (E : ((2 # 3) * 100
                   == inject_Z (Z.of_nat (List.length
                        (filter s_attended
                           (flat_map students
                              (filter (fun cls => String.eqb (courseKey cls) "course-7")
                                      (map snd data))))))
                      / inject_Z (Z.of_nat (List.length
                          (flat_map students
                             (filter (fun cls => String.eqb (courseKey cls) "course-7")
                                     (map snd data)))))
                      * 100)%Q) by (vm_compute; reflexivity).
      rewrite E. apply Hnear. vm_compute. reflexivity.
Defined.

(* ----------------------------------------------------------------- *)
(** *** The student report *)

Lemma find_app {A : Type} (f : A -> bool) (l1 l2 : list A) :
  find f (l1 ++ l2)
  = match find f l1 with
    | Some x => Some x
    | None => find f l2
    end.
Proof.
  induction l1 as [|a r IH]; simpl; [reflexivity|].
  now destruct (f a).
Qed.

Lemma existsb_snoc {A : Type} (f : A -> bool) (l : list A) (a : A) :
  existsb f (l ++ [a]) = (existsb f l || f a)%bool.
Proof. rewrite existsb_app. simpl. now rewrite orb_false_r. Qed.

Section StudentFacts.

Variable Date_ms : string -> option Z.
Variable parseFloat : cell -> jsfrac.
Variable options : Options.

Local Abbreviation inv := (aggregates_inv options).

(** A student the loop passes over leaves the invariant as it is. *)
Lemma inv_passed_over done c seen st m :
  inv done (Some (c, seen)) m ->
  (forall u, listed options u = true -> has_username u st = false) ->
  inv done (Some (c, seen ++ [st])) m.
Proof.
  intros [Hnd [Hent Hnone]] Hno. split; [exact Hnd|]. split.
  - intros u agg Hu. destruct (Hent u agg Hu) as [Hname Hcases].
    split; [exact Hname|].
    destruct Hcases as [H|[Hf [c0 [seen0 [E [Hc Hs]]]]]]; [now left|right].
    split; [exact Hf|]. injection E as <- <-.
    exists c, (seen ++ [st]). split; [reflexivity|]. split; [exact Hc|].
    rewrite existsb_snoc, Hs. reflexivity.
  - intros u Hl Hu. destruct (Hnone u Hl Hu) as [Hf Hs].
    split; [exact Hf|]. intros c0 seen0 E. injection E as <- <-.
    rewrite existsb_snoc, (Hs c seen eq_refl), (Hno u Hl). reflexivity.
Qed.

Lemma studentStep_inv done c start seen st m :
  inv done (Some (c, seen)) m ->
  inv done (Some (c, seen ++ [st]))
      (recordStudent Date_ms parseFloat options c start m st).
Proof.
  intros Hinv. unfold recordStudent.
  destruct (s_username st) as [name|] eqn:En.
  2:{ apply inv_passed_over; [exact Hinv|].
      intros u _. unfold has_username. now rewrite En. }
  destruct (truthy (Some name)) eqn:Et; cbn [negb].
  2:{ apply inv_passed_over; [exact Hinv|].
      intros u Hl. unfold has_username. rewrite En. simpl.
      destruct (String.eqb_spec u name) as [->|]; [|reflexivity].
      unfold listed in Hl. rewrite Et in Hl. discriminate. }
  destruct (studentSkipped options name) eqn:Es.
  { apply inv_passed_over; [exact Hinv|].
    intros u Hl. unfold has_username. rewrite En. simpl.
    destruct (String.eqb_spec u name) as [->|]; [|reflexivity].
    unfold listed in Hl. rewrite Es, andb_false_r in Hl. discriminate. }
  destruct Hinv as [Hnd [Hent Hnone]].
  split; [now apply NoDup_aset|]. split.
  - intros u agg. unfold obj_get, obj_set.
    destruct (String.eqb_spec u name) as [->|Hne].
    + rewrite (aget_aset_same String.eqb String.eqb_eq).
      intros H. inversion H. clear H. cbn [sr_username sr_company accumulate].
      unfold get_or. destruct (aget String.eqb m name) as [old|] eqn:Eo.
      * destruct (Hent name old Eo) as [Hname Hcases].
        split; [exact Hname|].
        destruct Hcases as [Hc|[Hf [c0 [seen0 [E [Hc Hs]]]]]]; [now left|right].
        split; [exact Hf|]. injection E as <- <-.
        exists c, (seen ++ [st]). split; [reflexivity|]. split; [exact Hc|].
        rewrite existsb_snoc, Hs. reflexivity.
      * cbn [sr_username sr_company newAggregate]. split; [reflexivity|].
        right.
        assert (Hl : listed options name = true)
          by (unfold listed; now rewrite Et, Es).
        destruct (Hnone name Hl Eo) as [Hf _].
        split; [exact Hf|].
        exists c, (seen ++ [st]). split; [reflexivity|]. split; [reflexivity|].
        rewrite existsb_snoc. unfold has_username at 2. rewrite En. simpl.
        rewrite String.eqb_refl. apply orb_true_r.
    + rewrite (aget_aset_other String.eqb String.eqb_eq) by exact Hne.
      intros Hu. destruct (Hent u agg Hu) as [Hname Hcases].
      split; [exact Hname|].
      destruct Hcases as [Hc|[Hf [c0 [seen0 [E [Hc Hs]]]]]]; [now left|right].
      split; [exact Hf|]. injection E as <- <-.
      exists c, (seen ++ [st]). split; [reflexivity|]. split; [exact Hc|].
      rewrite existsb_snoc, Hs. reflexivity.
  - intros u Hl. unfold obj_get, obj_set.
    destruct (String.eqb_spec u name) as [->|Hne].
    + rewrite (aget_aset_same String.eqb String.eqb_eq). discriminate.
    + rewrite (aget_aset_other String.eqb String.eqb_eq) by exact Hne.
      intros Hu. destruct (Hnone u Hl Hu) as [Hf Hs].
      split; [exact Hf|]. intros c0 seen0 E. injection E as <- <-.
      rewrite existsb_snoc, (Hs c seen eq_refl).
      unfold has_username. rewrite En. simpl.
      now destruct (String.eqb_spec u name).
Qed.

Lemma students_fold_inv done c start (ss seen : list Student) m :
  inv done (Some (c, seen)) m ->
  inv done (Some (c, seen ++ ss))
      (fold_left (recordStudent Date_ms parseFloat options c start) ss m).
Proof.
  revert seen m. induction ss as [|st r IH]; intros seen m Hinv.
  - simpl. now rewrite app_nil_r.
  - cbn [fold_left].
    replace (seen ++ st :: r) with ((seen ++ [st]) ++ r)
      by (now rewrite <- app_assoc).
    apply IH. now apply studentStep_inv.
Qed.

(** The loop over the students of a class: once thrown, always thrown;
    and when it returns, each student was recorded. *)
Lemma fold_studentStep_None c start (ss : list Student) :
  fold_left (studentStep Date_ms parseFloat options c start) ss None = None.
Proof. induction ss as [|st r IH]; [reflexivity|exact IH]. Qed.

Lemma fold_studentStep_Some c start (ss : list Student) m m' :
  fold_left (studentStep Date_ms parseFloat options c start) ss (Some m) = Some m' ->
  m' = fold_left (recordStudent Date_ms parseFloat options c start) ss m.
Proof.
  revert m. induction ss as [|st r IH]; intros m.
  - simpl. now intros [= <-].
  - cbn [fold_left]. unfold studentStep at 2.
    destruct (hitsPrototype options st).
    + rewrite fold_studentStep_None. discriminate.
    + apply IH.
Qed.

Lemma fold_studentStep_clean c start (ss : list Student) m :
  (forall st, In st ss -> hitsPrototype options st = false) ->
  fold_left (studentStep Date_ms parseFloat options c start) ss (Some m)
  = Some (fold_left (recordStudent Date_ms parseFloat options c start) ss m).
Proof.
  revert m. induction ss as [|st r IH]; intros m H; [reflexivity|].
  cbn [fold_left]. unfold studentStep at 2.
  rewrite (H st (or_introl eq_refl)). apply IH. intros x Hx. apply H. now right.
Qed.

Lemma fold_studentStep_throws c start (ss : list Student) m st :
  In st ss -> hitsPrototype options st = true ->
  fold_left (studentStep Date_ms parseFloat options c start) ss (Some m) = None.
Proof.
  revert m. induction ss as [|x r IH]; intros m Hin Hst; [destruct Hin|].
  cbn [fold_left]. unfold studentStep at 2.
  destruct (hitsPrototype options x) eqn:Ex.
  - apply fold_studentStep_None.
  - destruct Hin as [->|Hin]; [congruence|]. now apply IH.
Qed.

Lemma fold_studentReportClass_None (l : list Class) :
  fold_left (studentReportClass Date_ms parseFloat options) l None = None.
Proof. induction l as [|c r IH]; [reflexivity|exact IH]. Qed.

(** Between two classes. *)
Lemma inv_enter done c m :
  inv done None m -> inv done (Some (c, [])) m.
Proof.
  intros [Hnd [Hent Hnone]]. split; [exact Hnd|]. split.
  - intros u agg Hu. destruct (Hent u agg Hu) as [Hname Hcases].
    split; [exact Hname|].
    destruct Hcases as [H|[_ [c0 [seen0 [E _]]]]]; [now left|discriminate].
  - intros u Hl Hu. destruct (Hnone u Hl Hu) as [Hf _].
    split; [exact Hf|]. intros c0 seen0 E. inversion E. reflexivity.
Qed.

Lemma inv_leave done c m :
  classSkipped options c = false ->
  inv done (Some (c, students c)) m -> inv (done ++ [c]) None m.
Proof.
  intros Hc [Hnd [Hent Hnone]]. split; [exact Hnd|]. split.
  - intros u agg Hu. destruct (Hent u agg Hu) as [Hname Hcases].
    split; [exact Hname|]. left. rewrite find_app.
    destruct Hcases as [[cls [Hf Hco]]|[Hf [c0 [seen0 [E [Hco Hs]]]]]].
    + exists cls. now rewrite Hf.
    + injection E as <- <-. exists c. rewrite Hf. simpl.
      unfold appears_in. rewrite Hc, Hs. simpl. auto.
  - intros u Hl Hu. destruct (Hnone u Hl Hu) as [Hf Hs].
    split; [|discriminate]. rewrite find_app, Hf. simpl.
    unfold appears_in. rewrite (Hs c (students c) eq_refl).
    now rewrite andb_false_r.
Qed.

Lemma inv_skip done c m :
  classSkipped options c = true ->
  inv done None m -> inv (done ++ [c]) None m.
Proof.
  intros Hc [Hnd [Hent Hnone]].
  assert (Hfind : forall u, find (appears_in options u) (done ++ [c])
                            = find (appears_in options u) done).
  { intros u. rewrite find_app. simpl. unfold appears_in at 2. rewrite Hc.
    simpl. now destruct (find (appears_in options u) done). }
  split; [exact Hnd|]. split.
  - intros u agg Hu. destruct (Hent u agg Hu) as [Hname Hcases].
    split; [exact Hname|]. rewrite Hfind.
    destruct Hcases as [H|[_ [c0 [seen0 [E _]]]]]; [now left|discriminate].
  - intros u Hl Hu. destruct (Hnone u Hl Hu) as [Hf _].
    rewrite Hfind. split; [exact Hf|discriminate].
Qed.

Lemma studentAggregates_inv (l done : list Class) m m' :
  inv done None m ->
  fold_left (studentReportClass Date_ms parseFloat options) l (Some m) = Some m' ->
  inv (done ++ l) None m'.
Proof.
  revert done m. induction l as [|c r IH]; intros done m Hinv.
  - simpl. intros H. inversion H. subst. now rewrite app_nil_r.
  - cbn [fold_left]. unfold studentReportClass at 2.
    replace (done ++ c :: r) with ((done ++ [c]) ++ r)
      by (now rewrite <- app_assoc).
    destruct (classSkipped options c) eqn:Ec.
    + apply IH. now apply inv_skip.
    + destruct (scheduledStart c) as [start|].
      * destruct (fold_left (studentStep Date_ms parseFloat options c _)
                            (students c) (Some m)) as [m1|] eqn:Es.
        -- apply fold_studentStep_Some in Es. subst m1.
           apply IH. apply inv_leave; [exact Ec|].
           apply (students_fold_inv done c _ (students c) [] m).
           now apply inv_enter.
        -- rewrite fold_studentReportClass_None. discriminate.
      * rewrite fold_studentReportClass_None. discriminate.
Qed.

End StudentFacts.

(** A class row with a slug has a start column: the student loop never
    fails on [scheduledStart] for the classes of the normalizer. *)
Lemma processData_scheduledStart Date_ms cd pd k cls :
  In (k, cls) (processData Date_ms cd pd) -> scheduledStart cls <> None.
Proof.
  intros Hin.
  destruct (processData_In Date_ms cd pd k cls Hin) as [cs [_ [Hslug [_ ->]]]].
  cbn [scheduledStart makeClass]. unfold col in *.
  destruct cs; [discriminate|]. discriminate.
Qed.

(** On the classes of the normalizer the student report throws exactly
    when a class it includes lists a student who passes the filters and
    whose username is a name objects inherit; otherwise it returns its
    rows. *)
Theorem buildStudentReport_returns Date_ms parseFloat options cd pd :
  let data := processData Date_ms cd pd in
  ((forall k cls st,
       In (k, cls) data -> classSkipped options cls = false ->
       In st (students cls) -> hitsPrototype options st = false) ->
   exists rows, buildStudentReport Date_ms parseFloat options data = Some rows)
  /\ (forall k cls st,
         In (k, cls) data -> classSkipped options cls = false ->
         In st (students cls) -> hitsPrototype options st = true ->
         buildStudentReport Date_ms parseFloat options data = None).
Proof.
  intros data.
  assert (Hstart : forall cls, In cls (map snd data) -> scheduledStart cls <> None).
  { intros cls H. apply in_map_iff in H. destruct H as [[k c] [<- Hin]].
    exact (processData_scheduledStart Date_ms cd pd k c Hin). }
  unfold buildStudentReport, studentAggregates.
  assert (In_snd : forall k cls, In (k, cls) data -> In cls (map snd data)).
  { intros k cls H. apply in_map_iff. now exists (k, cls). }
  assert (Of_snd : forall cls, In cls (map snd data) -> exists k, In (k, cls) data).
  { intros cls H. apply in_map_iff in H. destruct H as [[k c] [<- H]]. now exists k. }
  revert Hstart In_snd Of_snd. generalize (map snd data) as l. intros l Hstart In_snd Of_snd.
  split.
  - intros Hclean.
    assert (Hclean' : forall cls st, In cls l -> classSkipped options cls = false ->
                                     In st (students cls) ->
                                     hitsPrototype options st = false).
    { intros cls st Hc. destruct (Of_snd cls Hc) as [k Hk]. now apply (Hclean k). }
    clear Hclean In_snd Of_snd.
    assert (G : forall m, exists m',
      fold_left (studentReportClass Date_ms parseFloat options) l (Some m) = Some m').
    { induction l as [|c r IH]; intros m; [now exists m|].
      cbn [fold_left]. unfold studentReportClass at 2.
      assert (IHr : forall m0, exists m',
                 fold_left (studentReportClass Date_ms parseFloat options) r (Some m0)
                 = Some m').
      { apply IH.
        - intros cls Hc. apply Hstart. now right.
        - intros cls st Hc. apply Hclean'. now right. }
      destruct (classSkipped options c) eqn:Ec; [apply IHr|].
      destruct (scheduledStart c) as [start|] eqn:E.
      + rewrite fold_studentStep_clean; [apply IHr|].
        intros st Hst. apply (Hclean' c st (or_introl eq_refl) Ec Hst).
      + exfalso. apply (Hstart c (or_introl eq_refl)). exact E. }
    destruct (G []) as [m' ->]. eauto.
  - intros k cls st Hin Hc Hst Hhit.
    assert (G : forall m,
      fold_left (studentReportClass Date_ms parseFloat options) l (Some m) = None).
    { pose proof (In_snd k cls Hin) as Hl. clear In_snd Of_snd Hstart Hin.
      induction l as [|c r IH]; [destruct Hl|]. intros m.
      cbn [fold_left]. unfold studentReportClass at 2.
      destruct Hl as [->|Hl].
      - rewrite Hc. destruct (scheduledStart cls) as [start|].
        + rewrite (fold_studentStep_throws Date_ms parseFloat options cls _
                     (students cls) m st Hst Hhit).
          apply fold_studentReportClass_None.
        + apply fold_studentReportClass_None.
      - destruct (classSkipped options c); [now apply IH|].
        destruct (scheduledStart c) as [start|].
        + destruct (fold_left _ (students c) (Some m)) as [m1|].
          * now apply IH.
          * apply fold_studentReportClass_None.
        + apply fold_studentReportClass_None. }
    now rewrite G.
Qed.

(** With a student named [toString] the report throws; without, it
    returns one row per student. *)
Lemma buildStudentReport_returns_witness :
  buildStudentReport isoDate no_number all_students
    (processData isoDate early_cancel_classes inherited_name_participants) = None
  /\ exists rows,
       buildStudentReport isoDate no_number all_students
         (processData isoDate two_company_classes two_company_participants)
       = Some rows.
Proof.
  split.
  - pose proof (buildStudentReport_returns isoDate no_number all_students
                  early_cancel_classes inherited_name_participants) as H.
    cbn zeta in H. destruct H as [_ H].
    set (data := processData isoDate early_cancel_classes
                   inherited_name_participants) in *.
    assert (E : exists k cls st, In (k, cls) data
                /\ classSkipped all_students cls = false
                /\ In st (students cls)
                /\ hitsPrototype all_students st = true).
    { vm_compute. do 3 eexists. split; [left; reflexivity|].
      split; [reflexivity|]. split; [left; reflexivity|reflexivity]. }
    destruct E as (k & cls & st & H1 & H2 & H3 & H4).
    exact (H k cls st H1 H2 H3 H4).
  - pose proof (buildStudentReport_returns isoDate no_number all_students
                  two_company_classes two_company_participants) as H.
    cbn zeta in H. destruct H as [H _]. apply H.
    intros k cls st Hin _ Hst. vm_compute in Hin.
    destruct Hin as [Hin|[Hin|[]]]; injection Hin as _ <-;
      vm_compute in Hst; destruct Hst as [<-|[]]; reflexivity.
Defined.

(** C10: every row of the student report carries, next to the username,
    the company of the first class in enumeration order that the report
    includes and in which a student object with that username appears,
    whatever the companies of the later classes of that student. *)
Theorem student_company_first_class :
  forall (Date_ms : string -> option Z) (parseFloat : cell -> jsfrac)
         (options : Options) (data : object Class) (rows : list (list csv)),
    buildStudentReport Date_ms parseFloat options data = Some rows ->
    forall row, In row rows ->
      exists username cls,
        nth_error row 0 = Some (Text username)
        /\ find (appears_in options username) (map snd data) = Some cls
        /\ nth_error row 1 = Some (Text (or_empty (company cls))).
Proof.
  intros D pf options data rows Hrows row Hrow.
  unfold buildStudentReport in Hrows.
  destruct (studentAggregates D pf options data) as [m|] eqn:Em; [|discriminate].
  inversion Hrows. subst rows. clear Hrows.
  apply in_map_iff in Hrow. destruct Hrow as [[u agg] [<- Hin]].
  assert (Hinv : aggregates_inv options ([] ++ map snd data) None m).
  { apply (studentAggregates_inv D pf options (map snd data) [] [] m);
      [|exact Em].
    split; [constructor|]. split; [discriminate|].
    intros u0 _ _. split; [reflexivity|discriminate]. }
  destruct Hinv as [Hnd [Hent _]].
  destruct (Hent u agg (In_aget_NoDup _ _ _ Hnd Hin)) as [Hname Hcases].
  destruct Hcases as [[cls [Hf Hco]]|[_ [c [seen [E _]]]]]; [|discriminate].
  exists u, cls. cbn [snd studentRow nth_error].
  rewrite Hname, Hco. auto.
Qed.

Lemma student_company_first_class_witness :
  exists row,
    nth_error row 0 = Some (Text "sam")
    /\ nth_error row 1 = Some (Text "acme")
    /\ map company
         (map snd (processData isoDate two_company_classes two_company_participants))
       = [Some "acme"%string; Some "globex"%string].
Proof.
  pose (data := processData isoDate two_company_classes two_company_participants).
  destruct (buildStudentReport isoDate no_number all_students data)
    as [rows|] eqn:E; [|vm_compute in E; discriminate].
  assert (Hrow : exists row, In row rows /\ nth_error row 0 = Some (Text "sam")).
  { vm_compute in E. inversion E. eexists. split; [left; reflexivity|reflexivity]. }
  destruct Hrow as [row [Hin Hhd]].
  destruct (student_company_first_class isoDate no_number all_students data rows
              E row Hin) as [u [cls [Hu [Hfind Hco]]]].
  exists row. split; [exact Hhd|]. split; [|vm_compute; reflexivity].
  rewrite Hhd in Hu. inversion Hu. subst u.
  vm_compute in Hfind. inversion Hfind. subst cls. exact Hco.
Defined.

(* ----------------------------------------------------------------- *)
(** *** The per-course student summary *)

Lemma toFixed2_percent (q : Q) : (0 <= q <= 100)%Q -> (0 <= toFixed2 q <= 100)%Q.
Proof.
  intros [H0 H1]. unfold toFixed2.
  destruct (Qlt_bool q 0) eqn:E.
  - apply Qlt_bool_iff in E. lra.
  - assert (Hlo : 0 <= Qfloor (q * 100 + (1 # 2))).
    { change 0 with (Qfloor (inject_Z 0)). apply Qfloor_resp_le.
      change (inject_Z 0) with 0%Q. lra. }
    assert (Hhi : Qfloor (q * 100 + (1 # 2)) < 10001).
    { rewrite Zlt_Qlt. eapply Qle_lt_trans; [apply Qfloor_le|].
      change (inject_Z 10001) with 10001%Q. lra. }
    set (n := Qfloor (q * 100 + (1 # 2))) in *.
    assert (Hn0 : (inject_Z 0 <= inject_Z n)%Q) by (rewrite <- Zle_Qle; exact Hlo).
    assert (Hn1 : (inject_Z n <= inject_Z 10000)%Q) by (rewrite <- Zle_Qle; lia).
    change (inject_Z 0) with 0%Q in Hn0.
    change (inject_Z 10000) with 10000%Q in Hn1.
    assert (Ediv : (inject_Z n / 100 == inject_Z n * (1 # 100))%Q) by field.
    rewrite Ediv. split; lra.
Qed.

(** Every student of the summary is enrolled at least once and attended at
    most as often as enrolled, so the printed rate lies between 0 and 100. *)
Lemma courseStudentRate_bounds (data : object Class) (courseId u : string)
    (st : CourseStudentStats) :
  In (u, st) (courseStudentStats data courseId) ->
  0 <= cs_attended st <= cs_enrolled st /\ 1 <= cs_enrolled st
  /\ (0 <= courseStudentRate st <= 100)%Q.
Proof.
  intros Hin.
  assert (Hcount : 0 <= cs_attended st <= cs_enrolled st /\ 1 <= cs_enrolled st).
  { revert Hin. unfold courseStudentStats.
    set (ok := fun s : CourseStudentStats =>
                 0 <= cs_attended s <= cs_enrolled s /\ 1 <= cs_enrolled s).
    assert (Hstep : forall ss m,
      (forall k s, In (k, s) m -> ok s) ->
      forall k s, In (k, s) (fold_left courseStudentStep ss m) -> ok s).
    { induction ss as [|x r IH]; intros m Hm; [exact Hm|].
      cbn [fold_left]. apply IH. intros k s Hks.
      unfold courseStudentStep, obj_set in Hks.
      apply (In_aset String.eqb String.eqb_eq) in Hks.
      destruct Hks as [Hks|[_ ->]]; [now apply (Hm k)|].
      unfold ok, bump. cbn [cs_attended cs_enrolled].
      unfold get_or.
      destruct (aget String.eqb m (String_of (s_username x))) as [old|] eqn:Eo.
      - apply (aget_In String.eqb String.eqb_eq) in Eo.
        destruct (Hm _ _ Eo) as [Ha He].
        destruct (s_attended x); lia.
      - cbn [cs_attended cs_enrolled]. destruct (s_attended x); lia. }
    generalize (filter (fun cls => String.eqb (courseKey cls) courseId)
                       (map snd data)).
    intros classes.
    assert (Hall : forall cs m,
      (forall k s, In (k, s) m -> ok s) ->
      forall k s,
        In (k, s) (fold_left (fun stats cls =>
                                fold_left courseStudentStep (students cls) stats)
                             cs m) -> ok s).
    { induction cs as [|c r IH]; intros m Hm; [exact Hm|].
      cbn [fold_left]. apply IH. now apply Hstep. }
    intros H. apply (Hall classes [] (fun k s (F : In (k, s) []) => match F with end) u st H). }
  split; [apply Hcount|]. split; [apply Hcount|].
  destruct Hcount as [[Ha Hae] He].
  unfold courseStudentRate. apply toFixed2_percent.
  assert (Htq : (0 < inject_Z (cs_enrolled st))%Q).
  { change (inject_Z 0 < inject_Z (cs_enrolled st))%Q. rewrite <- Zlt_Qlt. lia. }
  assert (H0 : (0 <= inject_Z (cs_attended st) / inject_Z (cs_enrolled st))%Q).
  { apply Qle_shift_div_l; [exact Htq|]. rewrite Qmult_0_l.
    change (inject_Z 0 <= inject_Z (cs_attended st))%Q. rewrite <- Zle_Qle. lia. }
  assert (H1 : (inject_Z (cs_attended st) / inject_Z (cs_enrolled st) <= 1)%Q).
  { apply Qle_shift_div_r; [exact Htq|]. rewrite Qmult_1_l.
    rewrite <- Zle_Qle. lia. }
  split; lra.
Qed.

(* ================================================================= *)
(** * Further properties of the code *)

(** ** Helpers *)

(** [clampTardiness] is the identity on [[-3600, d]] and clamping twice is
    clamping once, whenever the upper bound is not a number below -3600. *)
Theorem clampTardiness_idempotent :
  forall (raw d : jsnum),
    (forall z, d = Int z -> -3600 <= z) ->
    clampTardiness (clampTardiness raw d) d = clampTardiness raw d
    /\ (forall r z, raw = Int r -> d = Int z -> -3600 <= r <= z ->
        clampTardiness raw d = raw).
Proof.
  intros raw d Hd. split.
  - unfold clampTardiness, js_gt, js_lt.
    destruct raw as [|r], d as [|z]; try reflexivity.
    + destruct (r <? -3600) eqn:E1; [reflexivity|now rewrite E1].
    + specialize (Hd z eq_refl).
      destruct (r <? -3600) eqn:E1.
      * change (-3600 <? -3600) with false. cbv iota.
        destruct (z <? -3600) eqn:E2; [apply Z.ltb_lt in E2; lia|reflexivity].
      * destruct (z <? r) eqn:E2.
        -- destruct (z <? -3600) eqn:E3; [apply Z.ltb_lt in E3; lia|].
           now rewrite Z.ltb_irrefl.
        -- now rewrite E1, E2.
  - intros r z -> -> Hr. unfold clampTardiness, js_gt, js_lt.
    destruct (r <? -3600) eqn:E1; [apply Z.ltb_lt in E1; lia|].
    destruct (z <? r) eqn:E2; [apply Z.ltb_lt in E2; lia|reflexivity].
Qed.

Lemma clampTardiness_idempotent_witness :
  clampTardiness (clampTardiness (Int 9000) (Int 3600)) (Int 3600)
  = clampTardiness (Int 9000) (Int 3600)
  /\ clampTardiness (Int 400) (Int 3600) = Int 400.
Proof.
  destruct (clampTardiness_idempotent (Int 9000) (Int 3600)) as [H _].
  { intros z E. inversion E. lia. }
  destruct (clampTardiness_idempotent (Int 400) (Int 3600)) as [_ H'].
  { intros z E. inversion E. lia. }
  split; [exact H|]. apply (H' 400 3600); [reflexivity|reflexivity|lia].
Defined.

Lemma cell_eqb_eq (a b : cell) : cell_eqb a b = true <-> a = b.
Proof.
  destruct a as [x|], b as [y|]; simpl; split; try discriminate; try reflexivity.
  - intros H. apply String.eqb_eq in H. now subst.
  - intros H. inversion H. apply String.eqb_refl.
Qed.

Lemma existsb_cell_eqb (x : cell) (l : list cell) :
  existsb (cell_eqb x) l = true <-> In x l.
Proof.
  rewrite existsb_exists. split.
  - intros [y [Hy E]]. apply cell_eqb_eq in E. now subst.
  - intros H. exists x. split; [exact H|]. now apply cell_eqb_eq.
Qed.

Lemma unique_fold (l acc : list cell) :
  NoDup acc ->
  let r := fold_left
             (fun seen x => if existsb (cell_eqb x) seen then seen else seen ++ [x])
             l acc in
  NoDup r /\ (forall x, In x r <-> In x acc \/ In x l)
  /\ (List.length r <= List.length acc + List.length l)%nat.
Proof.
  revert acc. induction l as [|a l IH]; intros acc Hnd; cbn zeta.
  - simpl. split; [exact Hnd|]. split; [intros x; tauto|lia].
  - cbn [fold_left]. destruct (existsb (cell_eqb a) acc) eqn:E.
    + destruct (IH acc Hnd) as [H1 [H2 H3]]. split; [exact H1|].
      split; [|simpl; lia]. intros x. rewrite H2. simpl.
      apply existsb_cell_eqb in E. split; [tauto|].
      intros [H|[<-|H]]; auto.
    + assert (Hnd' : NoDup (acc ++ [a])).
      { apply NoDup_app; [exact Hnd|repeat constructor; tauto|].
        intros x Hx [<-|[]].
        apply existsb_cell_eqb in Hx. congruence. }
      destruct (IH (acc ++ [a]) Hnd') as [H1 [H2 H3]]. split; [exact H1|].
      split.
      * intros x. rewrite H2, in_app_iff. simpl. tauto.
      * rewrite length_app in H3. simpl in *. lia.
Qed.

Lemma unique_fold_nodup (l acc : list cell) :
  NoDup (acc ++ l) ->
  fold_left (fun seen x => if existsb (cell_eqb x) seen then seen else seen ++ [x])
            l acc
  = acc ++ l.
Proof.
  revert acc. induction l as [|a l IH]; intros acc Hnd; simpl.
  - now rewrite app_nil_r.
  - assert (E : existsb (cell_eqb a) acc = false).
    { destruct (existsb (cell_eqb a) acc) eqn:E; [|reflexivity].
      apply existsb_cell_eqb in E. apply NoDup_remove_2 in Hnd.
      exfalso. apply Hnd. apply in_app_iff. now left. }
    rewrite E. replace (acc ++ a :: l) with ((acc ++ [a]) ++ l)
      by (now rewrite <- app_assoc).
    apply IH. now rewrite <- app_assoc.
Qed.

(** [unique] keeps one copy of every element, in order of first occurrence:
    its result has no duplicate and the same elements, is never longer
    than its argument, and is left as it is by a second call. *)
Theorem unique_distinct :
  forall l : list cell,
    NoDup (unique l)
    /\ (forall x, In x (unique l) <-> In x l)
    /\ (List.length (unique l) <= List.length l)%nat
    /\ unique (unique l) = unique l
    /\ (NoDup l -> unique l = l).
Proof.
  intros l. destruct (unique_fold l [] (NoDup_nil _)) as [H1 [H2 H3]].
  cbn zeta in *. fold (unique l) in *.
  split; [exact H1|]. split; [intros x; rewrite H2; simpl; tauto|].
  split; [simpl in H3; exact H3|].
  split; apply (unique_fold_nodup _ []); simpl; assumption.
Qed.

(** ** The normalizer *)

Lemma keys_obj_set {V : Type} (o : object V) k v :
  map fst (obj_set o k v)
  = if existsb (String.eqb k) (map fst o) then map fst o else map fst o ++ [k].
Proof.
  unfold obj_set. induction o as [|[k' v'] r IH]; simpl; [reflexivity|].
  destruct (String.eqb_spec k k') as [->|Hne]; simpl; [reflexivity|].
  rewrite IH. now destruct (existsb (String.eqb k) (map fst r)).
Qed.

Lemma processData_snoc Date_ms cd c pd :
  processData Date_ms (cd ++ [c]) pd
  = processRow Date_ms pd (processData Date_ms cd pd) c.
Proof. unfold processData. now rewrite fold_left_app. Qed.

(** The model has one class per slug: the keys are distinct and not empty,
    a slug is a key exactly when some class row carries it, and its class
    is built from the last such row (a later row with the same slug
    replaces the earlier one; rows without slug are skipped). *)
Theorem processData_lookup :
  forall (Date_ms : string -> option Z) (cd pd : list (list string)) (k : string),
    NoDup (map fst (processData Date_ms cd pd))
    /\ obj_get (processData Date_ms cd pd) k
       = (if truthy (Some k)
          then option_map (makeClass Date_ms pd k) (find (has_slug k) (rev cd))
          else None).
Proof.
  intros D cd pd k. induction cd as [|c cd IH] using rev_ind.
  - simpl. split; [constructor|]. now destruct (truthy (Some k)).
  - destruct IH as [Hnd Hget]. rewrite processData_snoc, rev_app_distr.
    cbn [rev app find]. unfold processRow, has_slug at 1, str_eq_cell.
    destruct (col c 6) as [slug0|] eqn:Es; [|split; assumption].
    destruct (truthy (Some slug0)) eqn:Et.
    + split; [now apply NoDup_aset|].
      unfold obj_get, obj_set.
      destruct (String.eqb_spec k slug0) as [->|Hne].
      * rewrite (aget_aset_same String.eqb String.eqb_eq). now rewrite Et.
      * rewrite (aget_aset_other String.eqb String.eqb_eq) by exact Hne.
        exact Hget.
    + split; [exact Hnd|].
      destruct (String.eqb_spec k slug0) as [->|Hne]; [|exact Hget].
      rewrite Et in *. exact Hget.
Qed.

(** In every class of the model the three cancellation flags are all unset
    exactly when [cancelledBy] is empty, so the status computed from the
    flags and the status computed from [cancelledBy] agree; a class that is
    not cancelled has an empty interval, and every class is stored under
    its own slug. *)
Theorem cancellation_status_agrees :
  forall (Date_ms : string -> option Z) (cd pd : list (list string)) k cls,
    In (k, cls) (processData Date_ms cd pd) ->
    (cancelledByStudent cls || cancelledByTeacher cls || cancelledByAdmin cls)%bool
      = truthy (Some (cancelledBy cls))
    /\ (cancelledBy cls = EmptyString -> cancelledInterval cls = None)
    /\ slug cls = k.
Proof.
  intros D cd pd k cls Hin.
  destruct (processData_In D cd pd k cls Hin) as [cs [_ [_ [_ ->]]]].
  cbn [cancelledByStudent cancelledByTeacher cancelledByAdmin cancelledBy
       cancelledInterval slug makeClass].
  split; [|split; [|reflexivity]].
  - destruct (truthy (Some (or_empty (col cs 22)))); [|reflexivity].
    destruct (includes _ _), (str_eq_cell _ _); reflexivity.
  - intros E. rewrite E. reflexivity.
Qed.

Lemma cancellation_status_agrees_witness :
  exists cls,
    In ("class-1"%string, cls)
       (processData isoDate cancelled_session_classes cancelled_session_participants)
    /\ (cancelledByStudent cls || cancelledByTeacher cls || cancelledByAdmin cls)%bool
       = true.
Proof.
  eexists. split; [vm_compute; left; reflexivity|].
  match goal with
  | |- (cancelledByStudent ?c || _ || _)%bool = _ =>
      destruct (cancellation_status_agrees isoDate cancelled_session_classes
                  cancelled_session_participants "class-1"%string c) as [H _]
  end.
  - vm_compute. left. reflexivity.
  - rewrite H. vm_compute. reflexivity.
Defined.

(** ** The hour-count report *)

Lemma insert_duration_In d l x :
  In x (insert_duration d l) <-> x = d \/ In x l.
Proof.
  induction l as [|e r IH]; simpl; [intuition|].
  destruct (js_lt d e); simpl; [intuition|]. rewrite IH. intuition.
Qed.

Lemma sort_durations_In (s : list jsnum) (x : jsnum) :
  In x (sort_durations s) <-> In x s.
Proof.
  unfold sort_durations.
  assert (G : forall acc, In x (fold_left (fun a d => insert_duration d a) s acc)
                          <-> In x acc \/ In x s).
  { induction s as [|d r IH]; intros acc; simpl; [intuition|].
    rewrite IH, insert_duration_In. intuition. }
  rewrite G. simpl. intuition.
Qed.

Lemma insert_duration_perm d l : Permutation (insert_duration d l) (d :: l).
Proof.
  induction l as [|e r IH]; simpl; [reflexivity|].
  destruct (js_lt d e); [reflexivity|]. rewrite IH. apply perm_swap.
Qed.

Lemma insert_duration_length d l :
  List.length (insert_duration d l) = S (List.length l).
Proof.
  induction l as [|e r IH]; simpl; [reflexivity|].
  destruct (js_lt d e); simpl; [reflexivity|]. now rewrite IH.
Qed.

Lemma sort_durations_length (s : list jsnum) :
  List.length (sort_durations s) = List.length s.
Proof.
  unfold sort_durations.
  assert (G : forall acc,
    List.length (fold_left (fun a d => insert_duration d a) s acc)
    = (List.length acc + List.length s)%nat).
  { induction s as [|d r IH]; intros acc; simpl; [lia|].
    rewrite IH, insert_duration_length. lia. }
  apply (G []).
Qed.

Lemma ascending_head_bound (z : Z) (l : list jsnum) :
  ascending l ->
  (forall x, In x l -> exists y, x = Int y /\ z < y) ->
  ascending (Int z :: l).
Proof.
  intros Ha Hb. destruct l as [|e r]; simpl; [auto|].
  split; [|exact Ha].
  destruct (Hb e (or_introl eq_refl)) as [y [-> Hy]]. simpl.
  now apply Z.ltb_lt.
Qed.

Lemma ascending_tail_bound (z : Z) (l : list jsnum) :
  ascending (Int z :: l) -> (forall x, In x l -> is_number x) ->
  forall x, In x l -> exists y, x = Int y /\ z < y.
Proof.
  revert z. induction l as [|e r IH]; intros z Ha Hn x Hx; [destruct Hx|].
  destruct Ha as [Hlt Ha]. destruct (Hn e (or_introl eq_refl)) as [ye ->].
  simpl in Hlt. apply Z.ltb_lt in Hlt.
  destruct Hx as [<-|Hx]; [eauto|].
  destruct (IH ye Ha (fun x0 H0 => Hn x0 (or_intror H0)) x Hx) as [y [-> Hy]].
  exists y. split; [reflexivity|lia].
Qed.

Lemma insert_duration_ascending (z : Z) (l : list jsnum) :
  ascending l -> (forall x, In x l -> is_number x) -> ~ In (Int z) l ->
  ascending (insert_duration (Int z) l).
Proof.
  induction l as [|e r IH]; intros Ha Hn Hnot; [simpl; auto|].
  destruct (Hn e (or_introl eq_refl)) as [ye ->].
  cbn [insert_duration js_lt].
  destruct (z <? ye) eqn:E.
  - split; [simpl; exact E|exact Ha].
  - assert (Hlt : ye < z).
    { apply Z.ltb_ge in E. assert (z <> ye) by (intros ->; apply Hnot; now left).
      lia. }
    apply ascending_head_bound.
    + apply IH; [apply Ha|intros x Hx; apply Hn; now right|].
      intros H. apply Hnot. now right.
    + intros x Hx. apply insert_duration_In in Hx. destruct Hx as [->|Hx].
      * eauto.
      * destruct (ascending_tail_bound ye r Ha
                    (fun x0 H0 => Hn x0 (or_intror H0)) x Hx) as [y [-> Hy]].
        eauto.
Qed.

Lemma sort_durations_ascending (s : list jsnum) :
  NoDup s -> (forall x, In x s -> is_number x) -> ascending (sort_durations s).
Proof.
  unfold sort_durations. intros Hnd Hn.
  assert (G : forall acc,
    ascending acc -> (forall x, In x acc -> is_number x) ->
    NoDup (acc ++ s) ->
    ascending (fold_left (fun a d => insert_duration d a) s acc)).
  { clear Hnd. induction s as [|d r IH]; intros acc Ha Hacc Hnd; [exact Ha|].
    cbn [fold_left]. destruct (Hn d (or_introl eq_refl)) as [z ->].
    apply IH.
    - intros x Hx. apply Hn. now right.
    - apply insert_duration_ascending; [exact Ha|exact Hacc|].
      intros H. apply NoDup_remove_2 in Hnd. apply Hnd.
      apply in_app_iff. now left.
    - intros x Hx. apply insert_duration_In in Hx.
      destruct Hx as [->|Hx]; [now exists z|now apply Hacc].
    - apply NoDup_remove in Hnd. destruct Hnd as [Hnd Hnot].
      apply (Permutation_NoDup (l := (Int z :: acc) ++ r)).
      + apply Permutation_app_tail. symmetry. apply insert_duration_perm.
      + simpl. constructor; assumption. }
  apply (G []); simpl; [exact I|tauto|exact Hnd].
Qed.

Lemma set_add_NoDup d s : NoDup s -> NoDup (set_add d s).
Proof.
  intros H. unfold set_add. destruct (existsb (key_eqb d) s) eqn:E; [exact H|].
  apply NoDup_app; [exact H|repeat constructor; tauto|].
  intros x Hx [E'|[]]. subst x.
  assert (existsb (key_eqb d) s = true); [|congruence].
  apply existsb_exists. exists d. split; [exact Hx|]. now apply key_eqb_eq.
Qed.

Lemma aggregate_durations_NoDup settings credit (l : list Class) st :
  NoDup (snd st) ->
  NoDup (snd (fold_left (aggregateClass settings credit) l st)).
Proof.
  revert st. induction l as [|c r IH]; intros st H; [exact H|].
  cbn [fold_left]. apply IH. rewrite aggregateClass_durations.
  now apply set_add_NoDup.
Qed.

(** The durations of the report, when every class has a number as
    [scheduledDuration]: the rounded minutes of the classes of the data
    (with or without teacher), each once, in strictly ascending order. *)
Theorem report_durations_ascending :
  forall (settings : Settings) (credit : Class -> string -> Bucket -> Bucket)
         (data : object Class),
    (forall k cls, In (k, cls) data -> is_number (scheduledDuration cls)) ->
    let durations := sort_durations (snd (aggregate settings credit data)) in
    ascending durations
    /\ (forall d, In d durations
                  <-> exists k cls, In (k, cls) data
                                    /\ d = minutes_of (scheduledDuration cls)).
Proof.
  intros settings credit data Hnum durations.
  assert (Hin : forall d, In d durations
                  <-> exists k cls, In (k, cls) data
                                    /\ d = minutes_of (scheduledDuration cls)).
  { intros d. unfold durations, aggregate.
    rewrite sort_durations_In, aggregate_durations. simpl. split.
    - intros [[]|[cls [Hc Hd]]]. apply in_map_iff in Hc.
      destruct Hc as [[k c] [<- Hc]]. exists k, c. auto.
    - intros [k [cls [Hc Hd]]]. right. exists cls. split; [|exact Hd].
      apply in_map_iff. exists (k, cls). auto. }
  split; [|exact Hin].
  apply sort_durations_ascending.
  - unfold aggregate. apply aggregate_durations_NoDup. constructor.
  - intros x Hx. apply sort_durations_In in Hx. fold durations in Hx.
    apply Hin in Hx. destruct Hx as [k [cls [Hc ->]]].
    destruct (Hnum k cls Hc) as [z ->]. simpl. eexists. reflexivity.
Qed.

Lemma report_durations_ascending_witness :
  ascending
    (sort_durations
       (snd (aggregate scenario_settings
               (creditCancellations isoDate scenario_settings)
               (processData isoDate unstaffed_classes unstaffed_participants))))
  /\ sort_durations
       (snd (aggregate scenario_settings
               (creditCancellations isoDate scenario_settings)
               (processData isoDate unstaffed_classes unstaffed_participants)))
     = [Int 30; Int 60].
Proof.
  assert (Hn : forall k cls,
             In (k, cls)
                (processData isoDate unstaffed_classes unstaffed_participants) ->
             is_number (scheduledDuration cls)).
  { intros k cls H. vm_compute in H.
    destruct H as [H|[H|[]]]; inversion H; subst; vm_compute; eexists; reflexivity. }
  pose proof (report_durations_ascending scenario_settings
                (creditCancellations isoDate scenario_settings)
                (processData isoDate unstaffed_classes unstaffed_participants) Hn)
    as H.
  cbn zeta in H. destruct H as [H _].
  split; [exact H|vm_compute; reflexivity].
Defined.

(** Every data row of the report has the same number of cells: the teacher,
    then for each type the filter lets through the cells of every duration
    and the two totals. *)
Theorem report_rows_rectangular :
  forall (Date_ms : string -> option Z) (data : object Class)
         (settings : Settings) (simpleReport : bool) (row : list csv),
    In row (buildTeacherHourCountCSV Date_ms data settings simpleReport) ->
    List.length row
    = row_width (classTypeFilter settings) simpleReport
        (List.length
           (sort_durations
              (snd (aggregate settings (creditCancellations Date_ms settings) data)))).
Proof.
  intros D data settings simple row Hin.
  unfold buildTeacherHourCountCSV in Hin.
  destruct (aggregate settings (creditCancellations D settings) data)
    as [teacherReports durationsSet].
  apply in_map_iff in Hin. destruct Hin as [[t b] [<- _]].
  cbn [fst snd]. unfold teacherRow, row_width.
  destruct (classTypeFilter settings); rewrite !pushType_length; simpl; lia.
Qed.

Lemma report_rows_rectangular_witness :
  map (@List.length csv)
      (buildTeacherHourCountCSV isoDate
         (processData isoDate unstaffed_classes unstaffed_participants)
         scenario_settings true)
  = [row_width both true 2].
Proof.
  pose (data := processData isoDate unstaffed_classes unstaffed_participants).
  assert (E : exists row,
             buildTeacherHourCountCSV isoDate data scenario_settings true = [row]).
  { eexists. vm_compute. reflexivity. }
  destruct E as [row E]. fold data. rewrite E. cbn [map]. f_equal.
  rewrite (report_rows_rectangular isoDate data scenario_settings true row).
  - vm_compute. reflexivity.
  - rewrite E. left. reflexivity.
Defined.

(** *** Counters and totals *)

Lemma contribution_counts Date_ms settings cls t ty :
  let c := contribution Date_ms settings cls t ty in
  attended c + noShow c = 1
  /\ 0 <= late c <= attended c
  /\ 0 <= studentNoShow c <= attended c
  /\ 0 <= noShow c /\ 0 <= cancelled c
  /\ (penaliseTardiness settings = false -> late c = 0)
  /\ (ty = group \/ payLastMinuteCancellation settings = false -> cancelled c = 0).
Proof.
  cbn zeta. unfold contribution, studentNoShow_counted, bump, lateCancellations.
  cbn [attended noShow late studentNoShow cancelled].
  destruct (teacher_attended cls); cbn [andb negb].
  - repeat split; try lia;
      try (destruct (penaliseTardiness settings && _)%bool; lia);
      try (destruct (negb (teacher_cancelled cls) && _ && _)%bool; lia);
      try (destruct ty; [destruct (payLastMinuteCancellation settings)|]; lia).
    + intros ->. reflexivity.
    + intros [->| ->]; [reflexivity|now destruct ty].
  - repeat split; try lia;
      try (destruct ty; [destruct (payLastMinuteCancellation settings)|]; lia).
    intros [->| ->]; [reflexivity|now destruct ty].
Qed.

(** The counters of a bucket fit together: [attended] plus [noShow] is the
    number of classes counted in the bucket; [late] and [studentNoShow]
    never exceed [attended]; no counter is negative; [late] stays 0
    without the tardiness penalty and [cancelled] stays 0 in a group bucket
    and when late cancellations are not paid. *)
Theorem bucket_counters_consistent :
  forall (Date_ms : string -> option Z) (settings : Settings)
         (data : object Class) (t : string) (d : jsnum) (ty : ClassType),
    let b :=
      bucketAt (fst (aggregate settings (creditCancellations Date_ms settings) data))
               t d ty in
    attended b + noShow b
      = Z.of_nat (List.length (classes_of_bucket settings t d ty data))
    /\ 0 <= late b <= attended b
    /\ 0 <= studentNoShow b <= attended b
    /\ 0 <= noShow b /\ 0 <= cancelled b
    /\ (penaliseTardiness settings = false -> late b = 0)
    /\ (ty = group \/ payLastMinuteCancellation settings = false -> cancelled b = 0).
Proof.
  intros D settings data t d ty b. unfold b, classes_of_bucket.
  rewrite bucketAt_sessions.
  set (F := fun b0 cls =>
              if assigned_to settings t d ty cls
              then bucket_plus b0 (contribution D settings cls t ty) else b0).
  assert (G : forall l b0,
    (0 <= late b0 <= attended b0 /\ 0 <= studentNoShow b0 <= attended b0
     /\ 0 <= noShow b0 /\ 0 <= cancelled b0
     /\ (penaliseTardiness settings = false -> late b0 = 0)
     /\ (ty = group \/ payLastMinuteCancellation settings = false
         -> cancelled b0 = 0)) ->
    let r := fold_left F l b0 in
    attended r + noShow r
      = attended b0 + noShow b0
        + Z.of_nat (List.length (filter (assigned_to settings t d ty) l))
    /\ 0 <= late r <= attended r /\ 0 <= studentNoShow r <= attended r
    /\ 0 <= noShow r /\ 0 <= cancelled r
    /\ (penaliseTardiness settings = false -> late r = 0)
    /\ (ty = group \/ payLastMinuteCancellation settings = false
        -> cancelled r = 0)).
  { induction l as [|cls l IH]; intros b0 H0; cbn zeta.
    - simpl. split; [lia|exact H0].
    - cbn [fold_left filter].
      assert (EF : F b0 cls
                   = if assigned_to settings t d ty cls
                     then bucket_plus b0 (contribution D settings cls t ty)
                     else b0) by reflexivity.
      rewrite EF. clear EF.
      destruct (assigned_to settings t d ty cls).
      + destruct (contribution_counts D settings cls t ty)
          as (C1 & C2 & C3 & C4 & C5 & C6 & C7).
        destruct H0 as (I2 & I3 & I4 & I5 & I6 & I7).
        destruct (IH (bucket_plus b0 (contribution D settings cls t ty)))
          as [E R].
        { cbn [bucket_plus attended noShow late studentNoShow cancelled].
          repeat split; try lia.
          - intros Hp. rewrite (I6 Hp), (C6 Hp). reflexivity.
          - intros Hp. rewrite (I7 Hp), (C7 Hp). reflexivity. }
        split; [|exact R]. rewrite E.
        cbn [bucket_plus attended noShow List.length]. lia.
      + apply IH. exact H0. }
  apply (G (map snd data) zeroBucket). simpl. repeat split; try lia; auto.
Qed.

Lemma unassigned_class_ignored settings credit (data1 data2 : object Class) k cls :
  assigned settings cls = None ->
  fst (aggregate settings credit (data1 ++ (k, cls) :: data2))
  = fst (aggregate settings credit (data1 ++ data2)).
Proof.
  intros A. unfold aggregate. rewrite !map_app. cbn [map snd].
  rewrite !fold_left_app. cbn [fold_left].
  destruct (fold_left (aggregateClass settings credit) (map snd data1) ([], []))
    as [r s].
  rewrite (aggregateClass_unassigned settings credit (r, s) cls A).
  apply fold_reports_irrelevant.
Qed.

(** A class whose teacher has no username, or whose type the filter
    excludes, changes no teacher report: the reports are those of the data
    without it, in both builders. *)
Theorem uncounted_class_ignored :
  forall (settings : Settings) (credit : Class -> string -> Bucket -> Bucket)
         (data1 data2 : object Class) (k : string) (cls : Class),
    teacher_username cls = None
    \/ teacher_username cls = Some EmptyString
    \/ filter_excludes (classTypeFilter settings) (class_type cls) = true ->
    fst (aggregate settings credit (data1 ++ (k, cls) :: data2))
    = fst (aggregate settings credit (data1 ++ data2)).
Proof.
  intros settings credit data1 data2 k cls H.
  apply unassigned_class_ignored. unfold assigned.
  destruct H as [->|[->|H]]; [reflexivity|reflexivity|].
  destruct (teacher_username cls) as [t|]; [|reflexivity].
  rewrite H. now rewrite andb_false_r.
Qed.

Lemma uncounted_class_ignored_witness :
  fst (aggregate private_only_settings
         (creditCancellations isoDate private_only_settings)
         ([] ++ processData isoDate zero_seat_classes zero_seat_participants))
  = fst (aggregate private_only_settings
           (creditCancellations isoDate private_only_settings) ([] ++ [])).
Proof.
  assert (E : exists cls,
             processData isoDate zero_seat_classes zero_seat_participants
             = [("class-1"%string, cls)]
             /\ filter_excludes only_private (class_type cls) = true).
  { eexists. split; vm_compute; reflexivity. }
  destruct E as [cls [-> Hf]].
  apply (uncounted_class_ignored private_only_settings
           (creditCancellations isoDate private_only_settings) [] []
           "class-1"%string cls).
  right. right. exact Hf.
Defined.

Lemma updateBucket_no_credit settings credit credit' cls t ty b :
  payLastMinuteCancellation settings = false ->
  updateBucket settings credit cls t ty b = updateBucket settings credit' cls t ty b.
Proof. intros H. unfold updateBucket. rewrite H. now destruct ty. Qed.

Lemma aggregate_no_credit settings credit credit' (data : object Class) :
  payLastMinuteCancellation settings = false ->
  aggregate settings credit data = aggregate settings credit' data.
Proof.
  intros H. unfold aggregate. generalize (@nil (string * DurationBuckets), @nil jsnum).
  induction (map snd data) as [|cls l IH]; intros st; [reflexivity|].
  cbn [fold_left]. rewrite <- IH. f_equal.
  unfold aggregateClass. destruct st as [r s].
  destruct (teacher_username cls) as [t|]; [|reflexivity].
  destruct (negb (truthy (Some t))); [reflexivity|].
  destruct (filter_excludes _ _); [reflexivity|].
  now rewrite (updateBucket_no_credit settings credit credit').
Qed.

(** When late cancellations are not paid the two builders give the same
    report: they differ in the credit loop only. *)
Theorem builders_agree_without_credit :
  forall (Date_ms : string -> option Z) (data : object Class)
         (settings : Settings) (simpleReport : bool),
    payLastMinuteCancellation settings = false ->
    buildTeacherHourCountCSV_legacy Date_ms data settings simpleReport
    = buildTeacherHourCountCSV Date_ms data settings simpleReport.
Proof.
  intros D data settings simple H.
  unfold buildTeacherHourCountCSV_legacy, buildTeacherHourCountCSV.
  now rewrite (aggregate_no_credit settings
                 (creditCancellations_legacy D settings)
                 (creditCancellations D settings) data H).
Qed.

Lemma builders_agree_without_credit_witness :
  buildTeacherHourCountCSV_legacy isoDate
    (processData isoDate rebooked_classes rebooked_participants)
    scenario_settings false
  = buildTeacherHourCountCSV isoDate
      (processData isoDate rebooked_classes rebooked_participants)
      scenario_settings false.
Proof.
  apply (builders_agree_without_credit isoDate
           (processData isoDate rebooked_classes rebooked_participants)
           scenario_settings false).
  reflexivity.
Defined.

Lemma updateBucket_legacy_counts Date_ms settings cls t ty b :
  let b' := updateBucket settings (creditCancellations_legacy Date_ms settings)
                         cls t ty b in
  attended b' + noShow b' = attended b + noShow b + 1
  /\ cancelled b <= cancelled b' <= cancelled b + 1.
Proof.
  cbn zeta. unfold updateBucket.
  set (b1 := match ty with
             | private =>
                 if payLastMinuteCancellation settings
                 then creditCancellations_legacy Date_ms settings cls t b else b
             | group => b
             end).
  assert (H1 : attended b1 = attended b /\ noShow b1 = noShow b
               /\ cancelled b <= cancelled b1 <= cancelled b + 1).
  { unfold b1. destruct ty; [|lia].
    destruct (payLastMinuteCancellation settings); [|lia].
    destruct (creditCancellations_legacy_at_most_once Date_ms settings cls t b)
      as [-> | ->]; simpl; lia. }
  destruct H1 as (Ha & Hn & Hc).
  destruct (teacher_attended cls); cbn [andb];
    repeat match goal with
           | |- context [if ?c then _ else _] => destruct c
           end;
    unfold incr_studentNoShow, incr_late, incr_attended, incr_noShow;
    cbn [attended noShow cancelled late studentNoShow]; lia.
Qed.

(** In the older builder a class adds at most one cancellation credit, so
    the [cancelled] counter of a bucket never exceeds the number of classes
    counted in it ([attended] plus [noShow]). *)
Theorem legacy_credit_at_most_once_per_class :
  forall (Date_ms : string -> option Z) (settings : Settings)
         (data : object Class) (t : string) (d : jsnum) (ty : ClassType),
    let b :=
      bucketAt
        (fst (aggregate settings (creditCancellations_legacy Date_ms settings) data))
        t d ty in
    0 <= cancelled b <= attended b + noShow b.
Proof.
  intros D settings data t d ty b. unfold b, aggregate.
  rewrite bucketAt_fold.
  change (bucketAt (fst ([], [])) t d ty) with zeroBucket.
  assert (G : forall l b0,
    0 <= cancelled b0 <= attended b0 + noShow b0 ->
    let r := fold_left
               (fun b1 cls =>
                  if assigned_to settings t d ty cls
                  then updateBucket settings (creditCancellations_legacy D settings)
                                    cls t ty b1
                  else b1) l b0 in
    0 <= cancelled r <= attended r + noShow r).
  { induction l as [|cls l IH]; intros b0 H0; [exact H0|].
    cbn [fold_left]. apply IH.
    destruct (assigned_to settings t d ty cls); [|exact H0].
    pose proof (updateBucket_legacy_counts D settings cls t ty b0) as H.
    cbn zeta in H. lia. }
  apply G. simpl. lia.
Qed.

Lemma filterDurations_In selected (data : object Class) k cls :
  In (k, cls) (filterDurations selected data)
  <-> In (k, cls) data /\ In (minutes_of (scheduledDuration cls)) selected.
Proof.
  unfold filterDurations. rewrite filter_In. cbn [snd].
  split; intros [H1 H2]; split; try exact H1.
  - apply existsb_exists in H2. destruct H2 as [y [Hy Hk]].
    apply key_eqb_eq in Hk. now subst.
  - apply existsb_exists. exists (minutes_of (scheduledDuration cls)).
    split; [exact H2|]. now apply key_eqb_eq.
Qed.

(** The duration filter of the hour-count page: the filtered data are the
    classes whose rounded minutes are selected; the report built from them
    has columns for selected durations only, and every bucket of another
    duration is untouched. *)
Theorem report_of_selected_durations :
  forall (settings : Settings) (credit : Class -> string -> Bucket -> Bucket)
         (selected : list jsnum) (data : object Class),
    let filtered := filterDurations selected data in
    let report := aggregate settings credit filtered in
    (forall k cls,
        In (k, cls) filtered
        <-> In (k, cls) data /\ In (minutes_of (scheduledDuration cls)) selected)
    /\ (forall d, In d (sort_durations (snd report)) -> In d selected)
    /\ (forall t d ty, ~ In d selected -> bucketAt (fst report) t d ty = zeroBucket).
Proof.
  intros settings credit selected data filtered report.
  split; [|split].
  - intros k cls. apply filterDurations_In.
  - intros d Hd. unfold report, aggregate in Hd.
    rewrite sort_durations_In, aggregate_durations in Hd.
    destruct Hd as [[]|[cls [Hc ->]]].
    apply in_map_iff in Hc. destruct Hc as [[k c] [<- Hin]].
    apply filterDurations_In in Hin. apply Hin.
  - intros t d ty Hd. unfold report, aggregate. rewrite bucketAt_fold.
    change (bucketAt (fst ([], [])) t d ty) with zeroBucket.
    assert (G : forall l b,
      (forall cls, In cls l -> In (minutes_of (scheduledDuration cls)) selected) ->
      fold_left (fun b0 cls =>
                   if assigned_to settings t d ty cls
                   then updateBucket settings credit cls t ty b0 else b0) l b = b).
    { induction l as [|cls l IH]; intros b Hl; [reflexivity|].
      cbn [fold_left].
      assert (A : assigned_to settings t d ty cls = false).
      { unfold assigned_to, assigned.
        destruct (teacher_username cls) as [t'|]; [|reflexivity].
        destruct (_ && _)%bool; [|reflexivity].
        destruct (key_eqb d (minutes_of (scheduledDuration cls))) eqn:K.
        - apply key_eqb_eq in K. exfalso. apply Hd. rewrite K.
          apply Hl. now left.
        - now rewrite andb_false_r. }
      rewrite A. apply IH. intros c Hc. apply Hl. now right. }
    apply G. intros cls Hc.
    apply in_map_iff in Hc. destruct Hc as [[k c] [<- Hin]].
    apply filterDurations_In in Hin. apply Hin.
Qed.

(** *** The overview tables *)

Lemma tallyBucket_counts window type cls b :
  let b' := tallyBucket window type cls b in
  o_total b' - o_total b = 1
  /\ (o_completed b' - o_completed b) + (o_cancelled b' - o_cancelled b)
     + (o_teacherNoShow b' - o_teacherNoShow b) = 1
  /\ 0 <= o_bothNoShow b' - o_bothNoShow b <= o_teacherNoShow b' - o_teacherNoShow b
  /\ 0 <= o_studentCancelledLate b' - o_studentCancelledLate b
       <= o_cancelledByStudent b' - o_cancelledByStudent b
  /\ o_cancelledByStudent b' - o_cancelledByStudent b
       <= o_cancelled b' - o_cancelled b
  /\ 0 <= o_cancelledByTeacher b' - o_cancelledByTeacher b
       <= o_cancelled b' - o_cancelled b
  /\ 0 <= o_cancelledByAdmin b' - o_cancelledByAdmin b
       <= o_cancelled b' - o_cancelled b
  /\ 0 <= o_studentNoShow b' - o_studentNoShow b <= 1
  /\ 0 <= o_completed b' - o_completed b
  /\ (type = private ->
      (o_studentNoShow b' - o_studentNoShow b)
      + (o_teacherNoShow b' - o_teacherNoShow b) <= 1).
Proof.
  cbn zeta. unfold tallyBucket, bump.
  cbn [o_total o_completed o_cancelled o_cancelledByStudent o_cancelledByTeacher
       o_cancelledByAdmin o_studentCancelledLate o_teacherNoShow o_studentNoShow
       o_bothNoShow].
  destruct (teacher_attended cls), (truthy (Some (cancelledBy cls)));
    cbn [andb negb];
    repeat split; try lia;
    try (destruct (cancelledByStudent cls); cbn [andb];
         try destruct (interval_lt _ _); lia);
    try (destruct (cancelledByTeacher cls); lia);
    try (destruct (cancelledByAdmin cls); lia);
    try (destruct ((0 <? Z.of_nat (List.length (students cls)))
                   && every_absent (students cls))%bool; lia);
    try (destruct type;
         destruct ((0 <? Z.of_nat (List.length (students cls)))
                   && every_absent (students cls))%bool; lia);
    try (intros ->;
         destruct ((0 <? Z.of_nat (List.length (students cls)))
                   && every_absent (students cls))%bool; lia).
Qed.

Lemma sumZ_indicator {A : Type} (sel : A -> bool) (l : list A) :
  sumZ (fun a => if sel a then 1 else 0) l = Z.of_nat (List.length (filter sel l)).
Proof.
  induction l as [|a r IH]; [reflexivity|].
  cbn [sumZ fold_right filter]. fold (sumZ (fun a => if sel a then 1 else 0) r).
  rewrite IH. destruct (sel a); cbn [List.length]; lia.
Qed.

(** The counters of a duration in an overview table fit together: [total]
    is the number of classes of the type and the duration, and it splits
    into [completed], [cancelled] and [teacherNoShow]; [bothNoShow] is part
    of [teacherNoShow]; late student cancellations are part of the student
    cancellations, and those, like the teacher's and the admin's, part of
    [cancelled]; [studentNoShow] is at most [total], and for private classes
    it does not overlap with [teacherNoShow]. *)
Theorem overview_counters_consistent :
  forall (window : Q) (data : object Class) (type : ClassType) (d : jsnum),
    let b := get_or key_eqb (tally window data type) d zeroTally in
    o_total b = Z.of_nat (List.length (classes_of_duration type d data))
    /\ o_total b = o_completed b + o_cancelled b + o_teacherNoShow b
    /\ 0 <= o_bothNoShow b <= o_teacherNoShow b
    /\ 0 <= o_studentCancelledLate b <= o_cancelledByStudent b
    /\ o_cancelledByStudent b <= o_cancelled b
    /\ 0 <= o_cancelledByTeacher b <= o_cancelled b
    /\ 0 <= o_cancelledByAdmin b <= o_cancelled b
    /\ 0 <= o_studentNoShow b <= o_total b
    /\ 0 <= o_completed b
    /\ (type = private -> o_studentNoShow b + o_teacherNoShow b <= o_total b).
Proof.
  intros window data type d b. split.
  - unfold b, classes_of_duration.
    rewrite (tally_counter window type o_total (fun _ => 1)).
    + apply sumZ_indicator.
    + intros cls b0. reflexivity.
    + reflexivity.
  - unfold b, tally. rewrite tally_bucket.
    change (get_or key_eqb [] d zeroTally) with zeroTally.
    assert (G : forall l b0,
      (o_total b0 = o_completed b0 + o_cancelled b0 + o_teacherNoShow b0
       /\ 0 <= o_bothNoShow b0 <= o_teacherNoShow b0
       /\ 0 <= o_studentCancelledLate b0 <= o_cancelledByStudent b0
       /\ o_cancelledByStudent b0 <= o_cancelled b0
       /\ 0 <= o_cancelledByTeacher b0 <= o_cancelled b0
       /\ 0 <= o_cancelledByAdmin b0 <= o_cancelled b0
       /\ 0 <= o_studentNoShow b0 <= o_total b0
       /\ 0 <= o_completed b0
       /\ (type = private -> o_studentNoShow b0 + o_teacherNoShow b0 <= o_total b0)) ->
      let r := fold_left
                 (fun b1 cls =>
                    if key_eqb d (minutes_of (scheduledDuration cls))
                    then tallyBucket window type cls b1 else b1) l b0 in
      o_total r = o_completed r + o_cancelled r + o_teacherNoShow r
      /\ 0 <= o_bothNoShow r <= o_teacherNoShow r
      /\ 0 <= o_studentCancelledLate r <= o_cancelledByStudent r
      /\ o_cancelledByStudent r <= o_cancelled r
      /\ 0 <= o_cancelledByTeacher r <= o_cancelled r
      /\ 0 <= o_cancelledByAdmin r <= o_cancelled r
      /\ 0 <= o_studentNoShow r <= o_total r
      /\ 0 <= o_completed r
      /\ (type = private -> o_studentNoShow r + o_teacherNoShow r <= o_total r)).
    { induction l as [|cls l IH]; intros b0 H0; [exact H0|].
      cbn [fold_left]. apply IH.
      destruct (key_eqb d (minutes_of (scheduledDuration cls))); [|exact H0].
      pose proof (tallyBucket_counts window type cls b0) as S. cbn zeta in S.
      destruct S as (S1 & S2 & S3 & S4 & S5 & S6 & S7 & S8 & S9 & S10).
      destruct H0 as (I1 & I2 & I3 & I4 & I5 & I6 & I7 & I8 & I9).
      repeat split; try lia.
      intros Hp. specialize (S10 Hp). specialize (I9 Hp). lia. }
    apply G. simpl. repeat split; try lia.
Qed.

Lemma keys_aset_key (o : list (jsnum * Tally)) k v :
  map fst (aset key_eqb o k v)
  = if existsb (key_eqb k) (map fst o) then map fst o else map fst o ++ [k].
Proof.
  induction o as [|[k' v'] r IH]; simpl; [reflexivity|].
  destruct (key_eqb k k') eqn:E; simpl; [reflexivity|].
  rewrite IH. now destruct (existsb (key_eqb k) (map fst r)).
Qed.

Lemma tally_keys window type (l : list Class) (m : list (jsnum * Tally)) :
  map fst (fold_left (tallyStep window type) l m)
  = fold_left (fun s cls => set_add (minutes_of (scheduledDuration cls)) s)
              l (map fst m).
Proof.
  revert m. induction l as [|cls l IH]; intros m; [reflexivity|].
  cbn [fold_left]. rewrite IH. f_equal. unfold tallyStep, set_add.
  apply keys_aset_key.
Qed.

Lemma fold_set_add_In (l : list Class) (s : list jsnum) (d : jsnum) :
  In d (fold_left (fun s cls => set_add (minutes_of (scheduledDuration cls)) s) l s)
  <-> In d s \/ exists cls, In cls l /\ d = minutes_of (scheduledDuration cls).
Proof.
  revert s. induction l as [|c r IH]; intros s; cbn [fold_left].
  - split; [auto|]. intros [H|[cls [[] _]]]. exact H.
  - rewrite IH, In_set_add. split.
    + intros [[->|H]|[cls [Hc Hd]]]; [right|left|right].
      * exists c. simpl. auto.
      * exact H.
      * exists cls. simpl. auto.
    + intros [H|[cls [[<-|Hc] Hd]]]; [left; right; exact H|left; left; exact Hd|].
      right. exists cls. auto.
Qed.

Lemma fold_set_add_NoDup (l : list Class) (s : list jsnum) :
  NoDup s ->
  NoDup (fold_left (fun s cls => set_add (minutes_of (scheduledDuration cls)) s) l s).
Proof.
  revert s. induction l as [|c r IH]; intros s H; [exact H|].
  cbn [fold_left]. apply IH. now apply set_add_NoDup.
Qed.

Lemma sort_durations_perm (s : list jsnum) : Permutation (sort_durations s) s.
Proof.
  unfold sort_durations.
  assert (G : forall acc,
    Permutation (fold_left (fun a d => insert_duration d a) s acc) (s ++ acc)).
  { induction s as [|d r IH]; intros acc; cbn [fold_left]; [reflexivity|].
    rewrite IH. rewrite insert_duration_perm.
    symmetry. simpl. apply Permutation_middle. }
  rewrite (G []). now rewrite app_nil_r.
Qed.

Lemma sumZ_perm {A : Type} (f : A -> Z) (l l' : list A) :
  Permutation l l' -> sumZ f l = sumZ f l'.
Proof.
  induction 1; simpl; try lia.
Qed.

Lemma sumZ_plus {A : Type} (f g : A -> Z) (l : list A) :
  sumZ (fun a => f a + g a) l = sumZ f l + sumZ g l.
Proof. induction l as [|a r IH]; simpl; [reflexivity|]. rewrite IH. lia. Qed.

Lemma sumZ_ext {A : Type} (f g : A -> Z) (l : list A) :
  (forall a, In a l -> f a = g a) -> sumZ f l = sumZ g l.
Proof.
  induction l as [|a r IH]; intros H; simpl; [reflexivity|].
  rewrite IH by (intros x Hx; apply H; now right).
  rewrite (H a) by now left. reflexivity.
Qed.

Lemma sumZ_zero {A : Type} (l : list A) : sumZ (fun _ => 0) l = 0.
Proof. induction l as [|a r IH]; simpl; [reflexivity|]. rewrite IH. lia. Qed.

Lemma sumZ_one_key (x : jsnum) (l : list jsnum) :
  NoDup l -> In x l ->
  sumZ (fun d => if key_eqb d x then 1 else 0) l = 1.
Proof.
  induction l as [|y r IH]; intros Hnd Hin; [destruct Hin|].
  inversion Hnd as [|? ? Hn Hr]; subst. simpl.
  destruct (key_eqb y x) eqn:E.
  - apply key_eqb_eq in E. subst y.
    rewrite (sumZ_ext _ (fun _ => 0)).
    + rewrite sumZ_zero. lia.
    + intros a Ha. destruct (key_eqb a x) eqn:E'; [|reflexivity].
      apply key_eqb_eq in E'. subst a. contradiction.
  - destruct Hin as [->|Hin].
    + rewrite (proj2 (key_eqb_eq x x) eq_refl) in E. discriminate.
    + rewrite (IH Hr Hin). lia.
Qed.

Lemma metricRow_cells dataset durations m :
  metricRow dataset durations m
  = (m, metric_cells dataset durations m, sumZ (fun v => v) (metric_cells dataset durations m)).
Proof.
  unfold metricRow, metric_cells.
  assert (G : forall l row total,
    fold_left
      (fun (acc : list Z * Z) d =>
         let v := metric_value m (get_or key_eqb dataset d zeroTally) in
         (fst acc ++ [v], snd acc + v)) l (row, total)
    = (row ++ map (fun d => metric_value m (get_or key_eqb dataset d zeroTally)) l,
       total + sumZ (fun v => v)
                 (map (fun d => metric_value m (get_or key_eqb dataset d zeroTally)) l))).
  { induction l as [|d r IH]; intros row total.
    - simpl. rewrite app_nil_r. f_equal. lia.
    - cbn [fold_left fst snd map]. rewrite IH. rewrite <- app_assoc.
      f_equal. simpl. lia. }
  rewrite G. reflexivity.
Qed.

(** The overview table of a type: [render] gives one row per metric, each
    with one cell per duration of the table and their sum as total; the
    total of the first row is the number of classes of the type. *)
Theorem overview_table_totals :
  forall (window : Q) (data : object Class) (type : ClassType),
    let dataset := tally window data type in
    let durations := sort_durations (map fst dataset) in
    render dataset
    = map (fun m => (m, metric_cells dataset durations m,
                     sumZ (fun v => v) (metric_cells dataset durations m)))
          metrics
    /\ sumZ (fun v => v) (metric_cells dataset durations m_total)
       = Z.of_nat (List.length (filter (tallyFilter type) (map snd data))).
Proof.
  intros window data type dataset durations. split.
  - unfold render. fold durations. apply map_ext. intros m.
    apply metricRow_cells.
  - unfold metric_cells.
    assert (Hs : forall (f : jsnum -> Z) l, sumZ (fun v => v) (map f l) = sumZ f l).
    { intros f l. induction l as [|a r IH]; simpl; [reflexivity|]. now rewrite IH. }
    rewrite Hs. rewrite (sumZ_perm _ _ _ (sort_durations_perm (map fst dataset))).
    cbn [metric_value].
    rewrite (sumZ_ext _ (fun d =>
               sumZ (fun cls =>
                       if key_eqb d (minutes_of (scheduledDuration cls)) then 1 else 0)
                    (filter (tallyFilter type) (map snd data)))).
    2:{ intros d _. unfold dataset.
        apply (tally_counter window type o_total (fun _ => 1)); reflexivity. }
    assert (Hk : map fst dataset
                 = fold_left (fun s cls => set_add (minutes_of (scheduledDuration cls)) s)
                             (filter (tallyFilter type) (map snd data)) []).
    { unfold dataset, tally. now rewrite tally_keys. }
    assert (Hnd : NoDup (map fst dataset)).
    { rewrite Hk. apply fold_set_add_NoDup. constructor. }
    assert (Hin : forall cls, In cls (filter (tallyFilter type) (map snd data)) ->
                              In (minutes_of (scheduledDuration cls)) (map fst dataset)).
    { intros cls Hc. rewrite Hk. apply fold_set_add_In. right. now exists cls. }
    revert Hin. generalize (filter (tallyFilter type) (map snd data)).
    induction l as [|cls l IH]; intros Hin.
    + cbn [sumZ fold_right List.length]. apply sumZ_zero.
    + rewrite (sumZ_ext _ (fun d =>
                 (if key_eqb d (minutes_of (scheduledDuration cls)) then 1 else 0)
                 + sumZ (fun c => if key_eqb d (minutes_of (scheduledDuration c))
                                  then 1 else 0) l))
        by (intros; reflexivity).
      rewrite sumZ_plus. rewrite IH by (intros c Hc; apply Hin; now right).
      rewrite (sumZ_one_key _ _ Hnd (Hin cls (or_introl eq_refl))).
      cbn [List.length]. lia.
Qed.

(** *** The student report *)

Section StudentCounters.

Variable Date_ms : string -> option Z.
Variable parseFloat : cell -> jsfrac.
Variable options : Options.

Lemma newAggregate_counters u cls : counters_agree (newAggregate u cls).
Proof. unfold counters_agree, totalClasses. simpl. lia. Qed.

Lemma accumulate_counters cls start st s :
  counters_agree s ->
  counters_agree (accumulate Date_ms parseFloat options cls start st s)
  /\ 1 <= totalClasses (accumulate Date_ms parseFloat options cls start st s).
Proof.
  unfold counters_agree, totalClasses, accumulate, bump.
  cbn [sr_totalGroup sr_totalPrivate sr_attended sr_noShow sr_cancelled
       sr_cancelledLate sr_cancellationIntervals sr_ratingCount
       sr_enrolmentIntervals sr_tardinessCount sr_classDates].
  intros (H1 & H2 & H3 & H4 & H5 & H6 & H7 & H8 & H9 & H10 & H11).
  rewrite length_app. cbn [List.length].
  destruct (js_eqb (available_seats cls) (Int 1)); cbn [negb];
    destruct (s_cancelled st); cbn [andb negb];
    destruct (s_attended st); cbn [andb negb];
    destruct (isNaN (parseFloat (s_rating st))); cbn [negb];
    destruct (truthy (s_enrolledTime st));
    try destruct (truthy (s_cancelledTime st)); cbn [andb];
    try destruct (frac_lt _ _);
    rewrite ?length_app; cbn [List.length]; lia.
Qed.

Lemma studentStep_entries (P : string -> StudentAggregate -> Prop) cls start :
  (forall u st s,
      listed options u = true ->
      s = newAggregate u cls \/ P u s ->
      P u (accumulate Date_ms parseFloat options cls start st s)) ->
  forall (m : object StudentAggregate) st,
    (forall u a, In (u, a) m -> P u a) ->
    forall u a,
      In (u, a) (recordStudent Date_ms parseFloat options cls start m st) -> P u a.
Proof.
  intros Hacc m st Hm u a. unfold recordStudent.
  destruct (s_username st) as [name|]; [|apply Hm].
  destruct (truthy (Some name)) eqn:Et; cbn [negb]; [|apply Hm].
  destruct (studentSkipped options name) eqn:Es; [apply Hm|].
  intros Hin. apply (In_aset String.eqb String.eqb_eq) in Hin.
  destruct Hin as [Hin|[-> ->]]; [now apply Hm|].
  apply Hacc.
  - unfold listed. now rewrite Et, Es.
  - unfold get_or.
    destruct (aget String.eqb m name) as [v|] eqn:Eg; [|now left].
    right. apply Hm. now apply (aget_In String.eqb String.eqb_eq).
Qed.

Lemma studentAggregates_entries (P : string -> StudentAggregate -> Prop) :
  (forall cls start u st s,
      listed options u = true ->
      s = newAggregate u cls \/ P u s ->
      P u (accumulate Date_ms parseFloat options cls start st s)) ->
  forall (data : object Class) m,
    studentAggregates Date_ms parseFloat options data = Some m ->
    forall u a, In (u, a) m -> P u a.
Proof.
  intros Hacc data. unfold studentAggregates.
  assert (G : forall l (m0 m : object StudentAggregate),
    (forall u a, In (u, a) m0 -> P u a) ->
    fold_left (studentReportClass Date_ms parseFloat options) l (Some m0) = Some m ->
    forall u a, In (u, a) m -> P u a).
  { induction l as [|cls l IH]; intros m0 m H0 E.
    - simpl in E. injection E as <-. exact H0.
    - cbn [fold_left] in E. unfold studentReportClass at 2 in E.
      destruct (classSkipped options cls); [exact (IH _ _ H0 E)|].
      destruct (scheduledStart cls) as [start|].
      + destruct (fold_left (studentStep Date_ms parseFloat options cls _)
                            (students cls) (Some m0)) as [m1|] eqn:Es;
          [|now rewrite fold_studentReportClass_None in E].
        apply fold_studentStep_Some in Es. subst m1.
        refine (IH _ _ _ E).
        generalize (students cls) m0 H0.
        induction l0 as [|st r IHr]; intros m1 H1; [exact H1|].
        cbn [fold_left]. apply IHr.
        apply (studentStep_entries P cls _ (Hacc cls _)). exact H1.
      + now rewrite fold_studentReportClass_None in E. }
  intros m E. apply (G (map snd data) [] m); [intros u a []|exact E].
Qed.

End StudentCounters.

Lemma toFixed2_unit (q : Q) : (0 <= q <= 1)%Q -> (0 <= toFixed2 q <= 1)%Q.
Proof.
  intros [H0 H1]. unfold toFixed2.
  destruct (Qlt_bool q 0) eqn:E.
  - apply Qlt_bool_iff in E. lra.
  - assert (Hlo : 0 <= Qfloor (q * 100 + (1 # 2))).
    { change 0 with (Qfloor (inject_Z 0)). apply Qfloor_resp_le.
      change (inject_Z 0) with 0%Q. lra. }
    assert (Hhi : Qfloor (q * 100 + (1 # 2)) < 101).
    { rewrite Zlt_Qlt. eapply Qle_lt_trans; [apply Qfloor_le|].
      change (inject_Z 101) with 101%Q. lra. }
    set (n := Qfloor (q * 100 + (1 # 2))) in *.
    assert (Hn0 : (inject_Z 0 <= inject_Z n)%Q) by (rewrite <- Zle_Qle; exact Hlo).
    assert (Hn1 : (inject_Z n <= inject_Z 100)%Q) by (rewrite <- Zle_Qle; lia).
    change (inject_Z 0) with 0%Q in Hn0.
    change (inject_Z 100) with 100%Q in Hn1.
    assert (Ediv : (inject_Z n / 100 == inject_Z n * (1 # 100))%Q) by field.
    rewrite Ediv. split; lra.
Qed.

Lemma rate_or_blank_unit (n total : Z) :
  0 <= n <= total -> 1 <= total -> unit_rate (rate_or_blank n total).
Proof.
  intros Hn Ht. unfold unit_rate, rate_or_blank.
  destruct (total =? 0) eqn:E; [apply Z.eqb_eq in E; lia|].
  eexists. split; [reflexivity|]. apply toFixed2_unit.
  assert (Hpos : (0 < inject_Z total)%Q).
  { change 0%Q with (inject_Z 0). rewrite <- Zlt_Qlt. lia. }
  assert (Hn0 : (0 <= inject_Z n)%Q).
  { change 0%Q with (inject_Z 0). rewrite <- Zle_Qle. lia. }
  assert (Hn1 : (inject_Z n <= inject_Z total)%Q) by (rewrite <- Zle_Qle; lia).
  split.
  - apply Qle_shift_div_l; [exact Hpos|]. lra.
  - apply Qle_shift_div_r; [exact Hpos|]. lra.
Qed.

(** Every aggregate of the student report is filed under its own username,
    which is not empty and passes the student filter; it counts at least
    one participation, and its counters fit together: group plus private
    classes is attended plus no-show plus cancelled, the number of class
    dates and the tardiness count; late cancellations are at most the
    cancellations that carry a time, and those at most the cancellations. *)
Theorem student_counters_agree :
  forall (Date_ms : string -> option Z) (parseFloat : cell -> jsfrac)
         (options : Options) (data : object Class)
         (m : object StudentAggregate) (u : string) (agg : StudentAggregate),
    studentAggregates Date_ms parseFloat options data = Some m ->
    In (u, agg) m ->
    sr_username agg = u
    /\ listed options u = true
    /\ 1 <= totalClasses agg
    /\ counters_agree agg.
Proof.
  intros D pf options data m u agg E Hin.
  refine (studentAggregates_entries D pf options
            (fun u a => sr_username a = u /\ listed options u = true
                        /\ 1 <= totalClasses a /\ counters_agree a)
            _ data m E u agg Hin).
  intros cls start u0 st s Hl Hs.
  assert (Hc : counters_agree s /\ sr_username s = u0).
  { destruct Hs as [->|(Hu & _ & _ & Hc)]; [|auto].
    split; [apply newAggregate_counters|reflexivity]. }
  destruct Hc as [Hc Hu].
  destruct (accumulate_counters D pf options cls start st s Hc) as [H1 H2].
  repeat split; try assumption; apply H1.
Qed.

Lemma student_counters_agree_witness :
  exists agg,
    studentAggregates isoDate no_number all_students
      (processData isoDate two_company_classes two_company_participants)
    = Some [("sam"%string, agg)]
    /\ sr_username agg = "sam"%string
    /\ totalClasses agg = 2.
Proof.
  assert (E : exists agg,
             studentAggregates isoDate no_number all_students
               (processData isoDate two_company_classes two_company_participants)
             = Some [("sam"%string, agg)] /\ totalClasses agg = 2).
  { eexists. split; vm_compute; reflexivity. }
  destruct E as [agg [E Ht]]. exists agg. split; [exact E|]. split; [|exact Ht].
  apply (student_counters_agree isoDate no_number all_students
           (processData isoDate two_company_classes two_company_participants)
           [("sam"%string, agg)] "sam"%string agg E).
  left. reflexivity.
Defined.

(** The four rates of a row of the student report are never blank: each is
    a number between 0 and 1. *)
Theorem student_rates_within_unit :
  forall (Date_ms : string -> option Z) (parseFloat : cell -> jsfrac)
         (options : Options) (data : object Class)
         (m : object StudentAggregate) (u : string) (agg : StudentAggregate),
    studentAggregates Date_ms parseFloat options data = Some m ->
    In (u, agg) m ->
    forall i c,
      (4 <= i <= 7)%nat ->
      nth_error (studentRow agg) i = Some c ->
      unit_rate c.
Proof.
  intros D pf options data m u agg E Hin i c Hi Hc.
  assert (H : 1 <= totalClasses agg /\ counters_agree agg).
  { refine (studentAggregates_entries D pf options
              (fun _ a => 1 <= totalClasses a /\ counters_agree a)
              _ data m E u agg Hin).
    intros cls start u0 st s _ Hs.
    assert (Hc0 : counters_agree s).
    { destruct Hs as [->|[_ Hc0]]; [apply newAggregate_counters|exact Hc0]. }
    destruct (accumulate_counters D pf options cls start st s Hc0) as [H1 H2].
    split; assumption. }
  destruct H as [Ht (H1 & H2 & H3 & H4 & H5 & H6 & H7 & H8 & H9 & H10 & H11)].
  unfold totalClasses in *.
  assert (Ei : i = 4%nat \/ i = 5%nat \/ i = 6%nat \/ i = 7%nat) by lia.
  unfold studentRow in Hc.
  destruct Ei as [->|[->|[->| ->]]]; cbn [nth_error] in Hc;
    injection Hc as <-; apply rate_or_blank_unit; lia.
Qed.

Lemma student_rates_within_unit_witness :
  exists agg,
    studentAggregates isoDate no_number all_students
      (processData isoDate two_company_classes two_company_participants)
    = Some [("sam"%string, agg)]
    /\ unit_rate (rate_or_blank (sr_attended agg)
                    (sr_totalGroup agg + sr_totalPrivate agg)).
Proof.
  assert (E : exists agg,
             studentAggregates isoDate no_number all_students
               (processData isoDate two_company_classes two_company_participants)
             = Some [("sam"%string, agg)]).
  { eexists. vm_compute. reflexivity. }
  destruct E as [agg E]. exists agg. split; [exact E|].
  apply (student_rates_within_unit isoDate no_number all_students
           (processData isoDate two_company_classes two_company_participants)
           [("sam"%string, agg)] "sam"%string agg E (or_introl eq_refl) 4%nat).
  - lia.
  - reflexivity.
Defined.

Lemma aggregates_inv_final Date_ms parseFloat options (data : object Class) m :
  studentAggregates Date_ms parseFloat options data = Some m ->
  aggregates_inv options (map snd data) None m.
Proof.
  intros Em.
  apply (studentAggregates_inv Date_ms parseFloat options (map snd data) [] [] m);
    [|exact Em].
  split; [constructor|]. split; [discriminate|].
  intros u0 _ _. split; [reflexivity|discriminate].
Qed.

Lemma obj_get_keys {V : Type} (o : object V) (k : string) :
  In k (map fst o) <-> exists v, obj_get o k = Some v.
Proof.
  split.
  - intros H. apply in_map_iff in H. destruct H as [[k' v] [<- Hin]].
    apply (In_aget String.eqb String.eqb_eq) in Hin. exact Hin.
  - intros [v H]. apply (aget_In String.eqb String.eqb_eq) in H.
    apply in_map_iff. exists (k, v). auto.
Qed.

Lemma student_keys Date_ms parseFloat options (data : object Class) m :
  studentAggregates Date_ms parseFloat options data = Some m ->
  forall u,
    In u (map fst m)
    <-> listed options u = true
        /\ exists cls, In cls (map snd data) /\ appears_in options u cls = true.
Proof.
  intros Em u.
  destruct (aggregates_inv_final _ _ _ _ _ Em) as [Hnd [Hent Hnone]].
  split.
  - intros Hu. apply obj_get_keys in Hu. destruct Hu as [agg Hg]. split.
    + apply (aget_In String.eqb String.eqb_eq) in Hg.
      exact (studentAggregates_entries Date_ms parseFloat options
               (fun u _ => listed options u = true)
               (fun _ _ _ _ _ Hl _ => Hl) data m Em u agg Hg).
    + destruct (Hent u agg Hg) as [_ [[cls [Hf _]]|[_ [c [seen [E _]]]]]];
        [|discriminate].
      exists cls. apply find_some in Hf. exact Hf.
  - intros [Hl [cls [Hc Ha]]]. apply obj_get_keys.
    destruct (obj_get m u) as [agg|] eqn:Hg; [eauto|].
    destruct (Hnone u Hl Hg) as [Hf _].
    pose proof (find_none _ _ Hf cls Hc) as Hn. congruence.
Qed.

(** The filters of the student report: an aggregate exists for exactly the
    usernames that are not empty, pass the custom list when it is in force,
    and appear in a class the company filter lets through; no username
    has two aggregates; under a company filter other than ALL every
    aggregate carries that company. *)
Theorem student_filters_respected :
  forall (Date_ms : string -> option Z) (parseFloat : cell -> jsfrac)
         (options : Options) (data : object Class)
         (m : object StudentAggregate),
    studentAggregates Date_ms parseFloat options data = Some m ->
    NoDup (map fst m)
    /\ (forall u,
          In u (map fst m)
          <-> u <> EmptyString
              /\ (filterMode options = mode_custom -> In u (customList options))
              /\ exists cls, In cls (map snd data)
                             /\ classSkipped options cls = false
                             /\ existsb (has_username u) (students cls) = true)
    /\ (forall u agg,
          In (u, agg) m ->
          filterMode options = mode_company ->
          companyId options <> "ALL"%string ->
          String_of (sr_company agg) = companyId options).
Proof.
  intros D pf options data m Em.
  pose proof (aggregates_inv_final _ _ _ _ _ Em) as [Hnd [Hent _]].
  split; [exact Hnd|]. split.
  - intros u. rewrite (student_keys D pf options data m Em u).
    unfold listed, appears_in, studentSkipped.
    rewrite andb_true_iff, truthy_nonempty. split.
    + intros [[Hne Hs] [cls [Hc Ha]]].
      apply andb_true_iff in Ha. destruct Ha as [Ha1 Ha2].
      apply negb_true_iff in Ha1.
      split; [exact Hne|]. split; [|exists cls; auto].
      intros Hm. rewrite Hm in Hs. apply negb_true_iff, negb_false_iff in Hs.
      apply existsb_exists in Hs. destruct Hs as [x [Hx Hxe]].
      apply String.eqb_eq in Hxe. now subst.
    + intros [Hne [Hcu [cls [Hc [Hs Ha]]]]]. split.
      * split; [exact Hne|].
        destruct (filterMode options) eqn:Hm; try reflexivity.
        apply negb_true_iff, negb_false_iff. apply existsb_exists.
        exists u. split; [now apply Hcu|apply String.eqb_refl].
      * exists cls. split; [exact Hc|]. now rewrite Hs, Ha.
  - intros u agg Hin Hm Hall.
    destruct (Hent u agg (In_aget_NoDup _ _ _ Hnd Hin))
      as [_ [[cls [Hf Hco]]|[_ [c [seen [E _]]]]]]; [|discriminate].
    apply find_some in Hf. destruct Hf as [_ Ha].
    unfold appears_in, classSkipped in Ha. rewrite Hm in Ha.
    apply andb_true_iff in Ha. destruct Ha as [Ha _].
    apply negb_true_iff in Ha. apply andb_false_iff in Ha.
    rewrite Hco. destruct Ha as [Ha|Ha]; apply negb_false_iff in Ha;
      apply String.eqb_eq in Ha; [contradiction|exact Ha].
Qed.

Lemma student_filters_respected_witness :
  exists agg,
    studentAggregates isoDate no_number acme_only
      (processData isoDate two_company_classes two_company_participants)
    = Some [("sam"%string, agg)]
    /\ NoDup (map fst [("sam"%string, agg)])
    /\ totalClasses agg = 1.
Proof.
  assert (E : exists agg,
             studentAggregates isoDate no_number acme_only
               (processData isoDate two_company_classes two_company_participants)
             = Some [("sam"%string, agg)] /\ totalClasses agg = 1).
  { eexists. split; vm_compute; reflexivity. }
  destruct E as [agg [E Ht]]. exists agg. split; [exact E|]. split; [|exact Ht].
  apply (student_filters_respected isoDate no_number acme_only
           (processData isoDate two_company_classes two_company_participants)
           [("sam"%string, agg)] E).
Defined.

Lemma validated_step_spec (ss : list Student) (acc : list string) :
  let r := fold_left
             (fun acc s =>
                match s_username s with
                | None => acc
                | Some u =>
                    if (truthy (Some u) && negb (existsb (String.eqb u) acc))%bool
                    then acc ++ [u] else acc
                end) ss acc in
  (NoDup acc -> NoDup r)
  /\ (forall u, In u r
                <-> In u acc
                    \/ (u <> EmptyString
                        /\ exists st, In st ss /\ s_username st = Some u)).
Proof.
  revert acc. induction ss as [|st r IH]; intros acc; cbn zeta.
  - simpl. split; [auto|]. intros u. split; [auto|].
    intros [H|[_ [st [[] _]]]]. exact H.
  - cbn [fold_left].
    set (acc' := match s_username st with
                 | None => acc
                 | Some u =>
                     if (truthy (Some u) && negb (existsb (String.eqb u) acc))%bool
                     then acc ++ [u] else acc
                 end).
    destruct (IH acc') as [Hnd Hin]. cbn zeta in Hnd, Hin.
    assert (Hacc : (NoDup acc -> NoDup acc')
                   /\ forall u, In u acc'
                                <-> In u acc
                                    \/ (u <> EmptyString /\ s_username st = Some u)).
    { unfold acc'. destruct (s_username st) as [name|].
      - destruct (truthy (Some name)) eqn:Et; cbn [andb].
        + destruct (existsb (String.eqb name) acc) eqn:Ee; cbn [negb].
          * split; [auto|]. intros u. split; [auto|].
            intros [H|[_ H]]; [exact H|]. injection H as <-.
            apply existsb_exists in Ee. destruct Ee as [x [Hx Hxe]].
            apply String.eqb_eq in Hxe. now subst.
          * split.
            -- intros H. apply NoDup_app; [exact H|repeat constructor; tauto|].
               intros x Hx [<-|[]].
               assert (existsb (String.eqb name) acc = true); [|congruence].
               apply existsb_exists. exists name. split; [exact Hx|].
               apply String.eqb_refl.
            -- intros u. rewrite in_app_iff. simpl. split.
               ++ intros [H|[<-|[]]]; [auto|]. right. split; [|reflexivity].
                  now apply truthy_nonempty.
               ++ intros [H|[_ H]]; [auto|]. injection H as <-. auto.
        + split; [auto|]. intros u. split; [auto|].
          intros [H|[Hne H]]; [exact H|]. injection H as <-.
          apply truthy_nonempty in Hne. congruence.
      - split; [auto|]. intros u. split; [auto|].
        intros [H|[_ H]]; [exact H|discriminate]. }
    destruct Hacc as [Hnd' Hin']. split; [auto|].
    intros u. rewrite Hin, Hin'. split.
    + intros [[H|[Hne H]]|[Hne [s [Hs Hu]]]]; [auto| |].
      * right. split; [exact Hne|]. exists st. simpl. auto.
      * right. split; [exact Hne|]. exists s. simpl. auto.
    + intros [H|[Hne [s [[<-|Hs] Hu]]]]; [auto|auto|].
      right. split; [exact Hne|]. exists s. auto.
Qed.

Lemma validated_spec (l : list Class) (acc : list string) :
  let r := fold_left
             (fun acc cls =>
                fold_left
                  (fun acc s =>
                     match s_username s with
                     | None => acc
                     | Some u =>
                         if (truthy (Some u)
                             && negb (existsb (String.eqb u) acc))%bool
                         then acc ++ [u] else acc
                     end) (students cls) acc) l acc in
  (NoDup acc -> NoDup r)
  /\ (forall u, In u r
                <-> In u acc
                    \/ (u <> EmptyString
                        /\ exists cls st, In cls l /\ In st (students cls)
                                          /\ s_username st = Some u)).
Proof.
  revert acc. induction l as [|cls l IH]; intros acc; cbn zeta.
  - simpl. split; [auto|]. intros u. split; [auto|].
    intros [H|[_ [cls [st [[] _]]]]]. exact H.
  - cbn [fold_left].
    destruct (validated_step_spec (students cls) acc) as [Hnd1 Hin1].
    cbn zeta in Hnd1, Hin1.
    match goal with
    | |- context [fold_left _ l ?a] => destruct (IH a) as [Hnd Hin]
    end.
    cbn zeta in Hnd, Hin. split; [auto|].
    intros u. rewrite Hin, Hin1. split.
    + intros [[H|[Hne [st [Hs Hu]]]]|[Hne [c [st [Hc Hs]]]]]; [auto| |].
      * right. split; [exact Hne|]. exists cls, st. simpl. auto.
      * right. split; [exact Hne|]. exists c, st. simpl. tauto.
    + intros [H|[Hne [c [st [[<-|Hc] [Hs Hu]]]]]]; [auto| |].
      * left. right. split; [exact Hne|]. exists st. auto.
      * right. split; [exact Hne|]. exists c, st. auto.
Qed.

(** The usernames offered for the custom list: every non-empty username
    of a student object of the data, each once; they are the usernames
    that get a row when the student report runs without filter. *)
Theorem validated_usernames_are_the_students :
  forall (data : object Class),
    NoDup (validatedStudentUsernames data)
    /\ (forall u, In u (validatedStudentUsernames data)
                  <-> u <> EmptyString /\ enrolled_in data u)
    /\ (forall Date_ms parseFloat options m,
          filterMode options = mode_all ->
          studentAggregates Date_ms parseFloat options data = Some m ->
          forall u, In u (map fst m) <-> In u (validatedStudentUsernames data)).
Proof.
  intros data.
  destruct (validated_spec (map snd data) []) as [Hnd Hin]. cbn zeta in Hnd, Hin.
  fold (validatedStudentUsernames data) in Hnd, Hin.
  assert (Hchar : forall u, In u (validatedStudentUsernames data)
                            <-> u <> EmptyString /\ enrolled_in data u).
  { intros u. rewrite Hin. unfold enrolled_in. split.
    - intros [[]|[Hne [cls [st [Hc [Hs Hu]]]]]]. split; [exact Hne|].
      apply in_map_iff in Hc. destruct Hc as [[k c] [<- Hc]].
      exists k, c, st. auto.
    - intros [Hne [k [cls [st [Hc [Hs Hu]]]]]]. right. split; [exact Hne|].
      exists cls, st. split; [|auto]. apply in_map_iff. exists (k, cls). auto. }
  split; [apply Hnd; constructor|]. split; [exact Hchar|].
  intros D pf options m Hm Em u.
  rewrite (student_keys D pf options data m Em u), Hchar.
  unfold listed, appears_in, studentSkipped, classSkipped, enrolled_in.
  rewrite Hm. cbn [negb andb]. rewrite andb_true_r, truthy_nonempty.
  split.
  - intros [Hne [cls [Hc Ha]]]. split; [exact Hne|].
    apply in_map_iff in Hc. destruct Hc as [[k c] [<- Hc]].
    apply existsb_exists in Ha. destruct Ha as [st [Hs Hu]].
    exists k, c, st. split; [exact Hc|]. split; [exact Hs|].
    unfold has_username, str_eq_cell in Hu. cbn [snd] in Hs.
    destruct (s_username st) as [n|]; [|discriminate].
    apply String.eqb_eq in Hu. now subst.
  - intros [Hne [k [cls [st [Hc [Hs Hu]]]]]]. split; [exact Hne|].
    exists cls. split; [apply in_map_iff; exists (k, cls); auto|].
    apply existsb_exists. exists st. split; [exact Hs|].
    unfold has_username, str_eq_cell. rewrite Hu. apply String.eqb_refl.
Qed.

(** *** The course reports *)

Lemma sumZ_aset {K V : Type} (eqb : K -> K -> bool) (g : V -> Z)
    (o : list (K * V)) (k : K) (v d : V) :
  g d = 0 ->
  sumZ (fun e => g (snd e)) (aset eqb o k v)
  = sumZ (fun e => g (snd e)) o - g (get_or eqb o k d) + g v.
Proof.
  intros Hd. unfold get_or. induction o as [|[k' v'] r IH]; simpl.
  - rewrite Hd. lia.
  - destruct (eqb k k'); simpl; [lia|]. rewrite IH. lia.
Qed.

(** The courses of the overview split the classes: the course ids are
    distinct, the group of an id holds exactly the classes of that id and
    at least one, every class is in the group of its id, and the sizes of
    the groups add up to the number of classes. *)
Theorem course_groups_partition :
  forall (data : object Class),
    let groups := groupByCourse data in
    NoDup (map fst groups)
    /\ (forall id classes,
          In (id, classes) groups ->
          classes <> [] /\ classes = classes_of_course data id)
    /\ (forall k cls,
          In (k, cls) data ->
          exists classes, In (courseKey cls, classes) groups /\ In cls classes)
    /\ sumZ (fun g => Z.of_nat (List.length (snd g))) groups
       = Z.of_nat (List.length data).
Proof.
  intros data groups. unfold groups.
  destruct (groupByCourse_groups data) as [Hnd [Hget Hne]].
  split; [exact Hnd|]. split; [|split].
  - intros id classes Hin.
    pose proof (In_aget_NoDup _ _ _ Hnd Hin) as Hsome.
    split; [exact (Hne _ _ Hsome)|].
    unfold classes_of_course. rewrite <- (Hget id). unfold get_or.
    unfold obj_get in Hsome. now rewrite Hsome.
  - intros k cls Hin.
    assert (Hc : In cls (get_or String.eqb (groupByCourse data) (courseKey cls) [])).
    { rewrite Hget. apply filter_In. split.
      - apply in_map_iff. exists (k, cls). auto.
      - apply String.eqb_refl. }
    unfold get_or in Hc.
    destruct (aget String.eqb (groupByCourse data) (courseKey cls)) as [l|] eqn:E;
      [|destruct Hc].
    exists l. split; [|exact Hc]. now apply (aget_In String.eqb String.eqb_eq).
  - unfold groupByCourse. rewrite <- (length_map snd data).
    assert (G : forall l (m : object (list Class)),
      sumZ (fun g => Z.of_nat (List.length (snd g)))
           (fold_left
              (fun byCourse cls =>
                 obj_set byCourse (courseKey cls)
                   (get_or String.eqb byCourse (courseKey cls) [] ++ [cls]))
              l m)
      = sumZ (fun g => Z.of_nat (List.length (snd g))) m
        + Z.of_nat (List.length l)).
    { induction l as [|cls l IH]; intros m; cbn [fold_left List.length]; [lia|].
      rewrite IH. unfold obj_set.
      rewrite (sumZ_aset String.eqb (fun v => Z.of_nat (List.length v))
                 m (courseKey cls) _ []) by reflexivity.
      rewrite length_app. cbn [List.length]. lia. }
    rewrite G. simpl. lia.
Qed.

Lemma unique_length_perm (l l' : list cell) :
  Permutation l l' -> List.length (unique l) = List.length (unique l').
Proof.
  intros Hp. apply Permutation_length. unfold unique.
  destruct (unique_fold l [] (NoDup_nil _)) as [N1 [I1 _]].
  destruct (unique_fold l' [] (NoDup_nil _)) as [N2 [I2 _]].
  cbn zeta in N1, I1, N2, I2.
  apply NoDup_Permutation; [exact N1|exact N2|].
  intros x. rewrite I1, I2. simpl. split; intros [[]|H]; right.
  - now apply (Permutation_in _ Hp).
  - now apply (Permutation_in _ (Permutation_sym Hp)).
Qed.

Lemma flat_map_students_perm (l l' : list Class) :
  Permutation l l' ->
  Permutation (flat_map students l) (flat_map students l').
Proof.
  induction 1; simpl.
  - constructor.
  - now apply Permutation_app_head.
  - rewrite !app_assoc. apply Permutation_app_tail. apply Permutation_app_comm.
  - etransitivity; eassumption.
Qed.

(** A row of the course overview has eleven cells; it counts the classes of
    the course and the distinct usernames among their participations,
    whatever the order the sort by start date leaves the classes in. *)
Theorem course_row_counts :
  forall (Date_ms : string -> option Z) (data : object Class)
         (courseId : string) (classes : list Class),
    In (courseId, classes) (groupByCourse data) ->
    let sessions := classes_of_course data courseId in
    let row := courseRow Date_ms courseId classes in
    List.length row = 11%nat
    /\ nth_error row 7 = Some (Count (Z.of_nat (List.length sessions)))
    /\ nth_error row 9
       = Some (Count (Z.of_nat
                        (List.length
                           (unique (map s_username (flat_map students sessions)))))).
Proof.
  intros D data courseId classes Hin sessions row.
  destruct (groupByCourse_groups data) as [Hnd [Hget Hne]].
  pose proof (In_aget_NoDup _ _ _ Hnd Hin) as Hsome.
  assert (Hcls : classes = sessions).
  { unfold sessions, classes_of_course. rewrite <- (Hget courseId). unfold get_or.
    unfold obj_get in Hsome. now rewrite Hsome. }
  pose proof (Hne _ _ Hsome) as Hnonempty.
  pose proof (sort_classes_perm D classes) as Hperm.
  unfold row, courseRow.
  destruct (sort_classes D classes) as [|firstClass rest] eqn:Es.
  { apply Permutation_nil in Hperm. contradiction. }
  rewrite countParticipations_counts.
  cbn [List.length nth_error]. split; [reflexivity|]. split.
  - rewrite <- Hcls. rewrite <- (Permutation_length Hperm). reflexivity.
  - rewrite <- Hcls. do 3 f_equal.
    apply unique_length_perm. apply Permutation_map.
    now apply flat_map_students_perm.
Qed.

Lemma course_row_counts_witness :
  exists classes,
    groupByCourse (processData isoDate course_classes course_participants)
    = [("course-7"%string, classes)]
    /\ List.length (courseRow isoDate "course-7" classes) = 11%nat.
Proof.
  assert (E : exists classes,
             groupByCourse (processData isoDate course_classes course_participants)
             = [("course-7"%string, classes)]).
  { eexists. vm_compute. reflexivity. }
  destruct E as [classes E]. exists classes. split; [exact E|].
  apply (course_row_counts isoDate
           (processData isoDate course_classes course_participants)
           "course-7"%string classes).
  rewrite E. left. reflexivity.
Defined.





Lemma courseStudentRate_bounds_witness :
  exists u st,
    In (u, st)
       (courseStudentStats (processData isoDate course_classes course_participants)
                           "course-7")
    /\ 1 <= cs_enrolled st
    /\ (0 <= courseStudentRate st <= 100)%Q.
Proof.
  assert (E : exists u st rest,
             courseStudentStats
               (processData isoDate course_classes course_participants) "course-7"
             = (u, st) :: rest).
  { eexists. eexists. eexists. vm_compute. reflexivity. }
  destruct E as [u [st [rest E]]]. exists u, st.
  assert (Hin : In (u, st)
                   (courseStudentStats
                      (processData isoDate course_classes course_participants)
                      "course-7")).
  { rewrite E. left. reflexivity. }
  split; [exact Hin|].
  apply (courseStudentRate_bounds
           (processData isoDate course_classes course_participants)
           "course-7"%string u st Hin).
Defined.

(** *** The teacher reports *)

Lemma processData_flags Date_ms cd pd k cls :
  In (k, cls) (processData Date_ms cd pd) -> flags_agree cls.
Proof.
  intros Hin. unfold flags_agree.
  destruct (processData_In Date_ms cd pd k cls Hin) as [cs [_ [_ [_ ->]]]].
  cbn [cancelledByStudent cancelledByTeacher cancelledByAdmin cancelledBy makeClass].
  destruct (truthy (Some (or_empty (col cs 22)))); [|reflexivity].
  destruct (includes _ _), (str_eq_cell _ _); reflexivity.
Qed.

Lemma studentMetrics_fold parseFloat (ss : list Student) a b c d e :
  exists a' c' d' e',
    fold_left (studentMetrics parseFloat) ss (a, b, c, d, e)
    = (a', b + Z.of_nat (List.length ss), c', d', e')
    /\ 0 <= d' - d <= e' - e
    /\ e' - e <= Z.of_nat (List.length ss).
Proof.
  revert a b c d e. induction ss as [|st r IH]; intros a b c d e.
  - exists a, c, d, e. simpl. split; [now rewrite Z.add_0_r|lia].
  - cbn [fold_left studentMetrics].
    match goal with
    | |- context [fold_left _ r (?a1, ?b1, ?c1, ?d1, ?e1)] =>
        destruct (IH a1 b1 c1 d1 e1) as [a' [c' [d' [e' [E [H1 H2]]]]]]
    end.
    exists a', c', d', e'. rewrite E. split.
    + do 4 f_equal. cbn [List.length]. lia.
    + revert H1 H2. unfold bump. cbn [List.length].
      destruct (isNaN (parseFloat (s_rating st))),
               (truthy (s_feedback st)
                && truthy (Some (trim (or_empty (s_feedback st)))))%bool;
        cbn [negb orb]; lia.
Qed.

Lemma privateClassesStep_entries parseFloat (stats : object PrivateStats) cls :
  flags_agree cls ->
  (forall name s, In (name, s) stats ->
                  name <> EmptyString /\ 1 <= tp_totalBooked s
                  /\ private_counters_agree s) ->
  forall name s, In (name, s) (privateClassesStep parseFloat stats cls) ->
                 name <> EmptyString /\ 1 <= tp_totalBooked s
                 /\ private_counters_agree s.
Proof.
  intros Hf Hm name s. unfold privateClassesStep.
  destruct (negb (js_eqb (available_seats cls) (Int 1))); [apply Hm|].
  destruct (teacher_username cls) as [t|]; [|apply Hm].
  destruct (truthy (Some t)) eqn:Et; cbn [negb]; [|apply Hm].
  set (s0 := get_or String.eqb stats t zeroPrivateStats).
  assert (H0 : 0 <= tp_totalBooked s0 /\ private_counters_agree s0).
  { unfold s0, get_or.
    destruct (aget String.eqb stats t) as [v|] eqn:Eg.
    - apply (aget_In String.eqb String.eqb_eq) in Eg.
      destruct (Hm _ _ Eg) as (_ & H1 & H2). split; [lia|exact H2].
    - unfold private_counters_agree. simpl. lia. }
  destruct (studentMetrics_fold parseFloat (students cls)
              (tp_studentTardinessSum s0) (tp_studentTardinessCount s0)
              (tp_ratingSum s0) (tp_ratingCount s0) (tp_feedbackCount s0))
    as [a' [c' [d' [e' [E [H1 H2]]]]]].
  rewrite E. intros Hin.
  apply (In_aset String.eqb String.eqb_eq) in Hin.
  destruct Hin as [Hin|[-> ->]]; [now apply Hm|].
  split; [now apply truthy_nonempty|].
  destruct H0 as [Hb (P1 & P2 & P3 & P4 & P5 & P6 & P7 & P8 & P9 & P10)].
  unfold flags_agree in Hf.
  unfold private_counters_agree, bump.
  cbn [tp_totalBooked tp_cancelledByTeacher tp_cancelledByAdmin
       tp_cancelledByStudent tp_totalRemaining tp_teacherNoShows
       tp_studentNoShows tp_teacherTardinessCount tp_studentTardinessCount
       tp_ratingCount tp_feedbackCount].
  rewrite <- Hf.
  destruct (cancelledByTeacher cls), (cancelledByStudent cls),
           (cancelledByAdmin cls), (teacher_attended cls);
    cbn [negb andb orb];
    try destruct (every_absent (students cls)); lia.
Qed.

Lemma groupClassesStep_entries parseFloat (stats : object GroupStats) cls :
  flags_agree cls ->
  (forall name s, In (name, s) stats ->
                  name <> EmptyString /\ 1 <= tg_totalBooked s
                  /\ group_counters_agree s) ->
  forall name s, In (name, s) (groupClassesStep parseFloat stats cls) ->
                 name <> EmptyString /\ 1 <= tg_totalBooked s
                 /\ group_counters_agree s.
Proof.
  intros Hf Hm name s. unfold groupClassesStep.
  destruct (js_le (available_seats cls) (Int 1)); [apply Hm|].
  destruct (teacher_username cls) as [t|]; [|apply Hm].
  destruct (truthy (Some t)) eqn:Et; cbn [negb]; [|apply Hm].
  set (s0 := get_or String.eqb stats t zeroGroupStats).
  assert (H0 : 0 <= tg_totalBooked s0 /\ group_counters_agree s0).
  { unfold s0, get_or.
    destruct (aget String.eqb stats t) as [v|] eqn:Eg.
    - apply (aget_In String.eqb String.eqb_eq) in Eg.
      destruct (Hm _ _ Eg) as (_ & H1 & H2). split; [lia|exact H2].
    - unfold group_counters_agree. simpl. lia. }
  destruct (studentMetrics_fold parseFloat (students cls)
              (tg_studentTardinessSum s0) (tg_studentTardinessCount s0)
              (tg_ratingSum s0) (tg_ratingCount s0) (tg_feedbackClassCount s0))
    as [a' [c' [d' [e' [E [H1 H2]]]]]].
  rewrite E. intros Hin.
  apply (In_aset String.eqb String.eqb_eq) in Hin.
  destruct Hin as [Hin|[-> ->]]; [now apply Hm|].
  split; [now apply truthy_nonempty|].
  destruct H0 as [Hb (P1 & P2 & P3 & P4 & P5 & P6 & P7 & P8 & P9)].
  assert (Hany : existsb absent_uncancelled (students cls) = true ->
                 1 <= Z.of_nat (List.length (filter absent_uncancelled (students cls)))).
  { intros H. apply existsb_exists in H. destruct H as [x [Hx Hax]].
    assert (Hin : In x (filter absent_uncancelled (students cls)))
      by (apply filter_In; auto).
    destruct (filter absent_uncancelled (students cls)); [destruct Hin|].
    cbn [List.length]. lia. }
  unfold flags_agree in Hf.
  unfold group_counters_agree, bump.
  cbn [tg_totalBooked tg_cancelledByTeacher tg_cancelledByAdmin
       tg_totalRemaining tg_teacherNoShows tg_classStudentNoShowClasses
       tg_classStudentNoShowTotal tg_teacherTardinessCount
       tg_studentTardinessCount tg_ratingCount tg_feedbackClassCount].
  rewrite <- Hf.
  destruct (cancelledByTeacher cls), (cancelledByStudent cls),
           (cancelledByAdmin cls), (teacher_attended cls);
    cbn [negb andb orb];
    try (destruct (existsb absent_uncancelled (students cls));
         [specialize (Hany eq_refl)|clear Hany]); lia.
Qed.

(** In the private-class report on the classes of the normalizer every
    teacher has a name, at least one booked class, and counters that fit
    together: the booked classes are those cancelled by the teacher, by a
    student or by the admin plus those remaining; the two kinds of no-show
    are distinct remaining classes; tardiness is counted once per class;
    every rating counts as a feedback. *)
Theorem teacher_private_counters :
  forall (Date_ms : string -> option Z) (parseFloat : cell -> jsfrac)
         (cd pd : list (list string)) (name : string) (s : PrivateStats),
    In (name, s) (privateClassesStats parseFloat (processData Date_ms cd pd)) ->
    name <> EmptyString /\ 1 <= tp_totalBooked s /\ private_counters_agree s.
Proof.
  intros D pf cd pd name s. unfold privateClassesStats.
  assert (G : forall l (m : object PrivateStats),
    (forall cls, In cls l -> flags_agree cls) ->
    (forall n v, In (n, v) m ->
                 n <> EmptyString /\ 1 <= tp_totalBooked v
                 /\ private_counters_agree v) ->
    forall n v, In (n, v) (fold_left (privateClassesStep pf) l m) ->
                n <> EmptyString /\ 1 <= tp_totalBooked v
                /\ private_counters_agree v).
  { induction l as [|cls l IH]; intros m Hl Hm; [exact Hm|].
    cbn [fold_left]. apply IH.
    - intros c Hc. apply Hl. now right.
    - apply privateClassesStep_entries; [apply Hl; now left|exact Hm]. }
  apply G; [|intros n v []].
  intros cls Hc. apply in_map_iff in Hc. destruct Hc as [[k c] [<- Hc]].
  exact (processData_flags D cd pd k c Hc).
Qed.

Lemma teacher_private_counters_witness :
  exists s,
    privateClassesStats no_number
      (processData isoDate scenario_classes scenario_participants)
    = [("tina"%string, s)]
    /\ 1 <= tp_totalBooked s.
Proof.
  assert (E : exists s,
             privateClassesStats no_number
               (processData isoDate scenario_classes scenario_participants)
             = [("tina"%string, s)]).
  { eexists. vm_compute. reflexivity. }
  destruct E as [s E]. exists s. split; [exact E|].
  apply (teacher_private_counters isoDate no_number scenario_classes
           scenario_participants "tina"%string s).
  rewrite E. left. reflexivity.
Defined.

(** In the group-class report on the classes of the normalizer every
    teacher has a name and at least one booked class; cancellations by the
    teacher or the admin and remaining classes are distinct booked classes;
    teacher no-shows and classes with a student no-show are remaining
    classes, and there are at least as many student no-shows as classes
    with one; tardiness is counted once per class. *)
Theorem teacher_group_counters :
  forall (Date_ms : string -> option Z) (parseFloat : cell -> jsfrac)
         (cd pd : list (list string)) (name : string) (s : GroupStats),
    In (name, s) (groupClassesStats parseFloat (processData Date_ms cd pd)) ->
    name <> EmptyString /\ 1 <= tg_totalBooked s /\ group_counters_agree s.
Proof.
  intros D pf cd pd name s. unfold groupClassesStats.
  assert (G : forall l (m : object GroupStats),
    (forall cls, In cls l -> flags_agree cls) ->
    (forall n v, In (n, v) m ->
                 n <> EmptyString /\ 1 <= tg_totalBooked v
                 /\ group_counters_agree v) ->
    forall n v, In (n, v) (fold_left (groupClassesStep pf) l m) ->
                n <> EmptyString /\ 1 <= tg_totalBooked v
                /\ group_counters_agree v).
  { induction l as [|cls l IH]; intros m Hl Hm; [exact Hm|].
    cbn [fold_left]. apply IH.
    - intros c Hc. apply Hl. now right.
    - apply groupClassesStep_entries; [apply Hl; now left|exact Hm]. }
  apply G; [|intros n v []].
  intros cls Hc. apply in_map_iff in Hc. destruct Hc as [[k c] [<- Hc]].
  exact (processData_flags D cd pd k c Hc).
Qed.

Lemma teacher_group_counters_witness :
  exists s,
    groupClassesStats no_number
      (processData isoDate shared_name_classes shared_name_participants)
    = [("bob"%string, s)]
    /\ 1 <= tg_totalBooked s.
Proof.
  assert (E : exists s,
             groupClassesStats no_number
               (processData isoDate shared_name_classes shared_name_participants)
             = [("bob"%string, s)]).
  { eexists. vm_compute. reflexivity. }
  destruct E as [s E]. exists s. split; [exact E|].
  apply (teacher_group_counters isoDate no_number shared_name_classes
           shared_name_participants "bob"%string s).
  rewrite E. left. reflexivity.
Defined.

Lemma feedbackClass_In (rows : list (list csv)) cls row :
  In row (feedbackClass rows cls)
  <-> In row rows
      \/ exists t st,
           teacher_username cls = Some t /\ t <> EmptyString
           /\ In st (students cls) /\ hasFeedback st = true
           /\ row = feedbackRow t (scheduledStart cls) st.
Proof.
  unfold feedbackClass.
  destruct (teacher_username cls) as [t|].
  2:{ split; [auto|]. intros [H|[t [st [H _]]]]; [exact H|discriminate]. }
  destruct (truthy (Some t)) eqn:Et; cbn [negb].
  2:{ split; [auto|]. intros [H|[t' [st [H [Hne _]]]]]; [exact H|].
      injection H as <-. apply truthy_nonempty in Hne. congruence. }
  apply truthy_nonempty in Et.
  generalize (students cls) rows. induction l as [|s r IH]; intros rows0.
  - simpl. split; [auto|]. intros [H|[t' [st [_ [_ [[] _]]]]]]. exact H.
  - cbn [fold_left]. rewrite IH. split.
    + intros [H|[t' [st [Ht [Hne [Hs [Hf Hr]]]]]]].
      * destruct (hasFeedback s) eqn:Ef; [|auto].
        apply in_app_iff in H. destruct H as [H|[<-|[]]]; [auto|].
        right. exists t, s. simpl. auto.
      * right. exists t', st. simpl. auto.
    + intros [H|[t' [st [Ht [Hne [[<-|Hs] [Hf Hr]]]]]]].
      * left. destruct (hasFeedback s); [apply in_app_iff|]; auto.
      * left. rewrite Hf. apply in_app_iff. right. left.
        injection Ht as <-. now symmetry.
      * right. exists t', st. auto.
Qed.

(** The feedback listing holds exactly the rows of the students with a
    feedback or a rating that is not blank, in the classes that have a
    teacher: a class without teacher name and a student without feedback
    and rating give no row; every row has five cells. *)
Theorem feedback_rows_listed :
  forall (data : object Class) (row : list csv),
    (In row (buildTeacherFeedbackCSV data)
     <-> exists k cls t st,
           In (k, cls) data
           /\ teacher_username cls = Some t /\ t <> EmptyString
           /\ In st (students cls) /\ hasFeedback st = true
           /\ row = feedbackRow t (scheduledStart cls) st)
    /\ (In row (buildTeacherFeedbackCSV data) -> List.length row = 5%nat).
Proof.
  intros data row.
  assert (G : forall l rows,
    In row (fold_left feedbackClass l rows)
    <-> In row rows
        \/ exists cls t st,
             In cls l
             /\ teacher_username cls = Some t /\ t <> EmptyString
             /\ In st (students cls) /\ hasFeedback st = true
             /\ row = feedbackRow t (scheduledStart cls) st).
  { induction l as [|cls l IH]; intros rows.
    - simpl. split; [auto|]. intros [H|[cls [t [st [[] _]]]]]. exact H.
    - cbn [fold_left]. rewrite IH, feedbackClass_In. split.
      + intros [[H|[t [st H]]]|[c [t [st [Hc H]]]]]; [auto| |].
        * right. exists cls, t, st. simpl. tauto.
        * right. exists c, t, st. simpl. tauto.
      + intros [H|[c [t [st [[<-|Hc] H]]]]]; [auto| |].
        * left. right. exists t, st. exact H.
        * right. exists c, t, st. tauto. }
  assert (H : In row (buildTeacherFeedbackCSV data)
     <-> exists k cls t st,
           In (k, cls) data
           /\ teacher_username cls = Some t /\ t <> EmptyString
           /\ In st (students cls) /\ hasFeedback st = true
           /\ row = feedbackRow t (scheduledStart cls) st).
  { unfold buildTeacherFeedbackCSV. rewrite G. split.
    - intros [[]|[cls [t [st [Hc H]]]]].
      apply in_map_iff in Hc. destruct Hc as [[k c] [<- Hc]].
      exists k, c, t, st. tauto.
    - intros [k [cls [t [st [Hc H]]]]]. right. exists cls, t, st.
      split; [|exact H]. apply in_map_iff. exists (k, cls). auto. }
  split; [exact H|].
  intros Hin. apply H in Hin.
  destruct Hin as [k [cls [t [st [_ [_ [_ [_ [_ ->]]]]]]]]]. reflexivity.
Qed.

(** *** The course detail report *)

Section CourseDetailFacts.

Variable Date_ms : string -> option Z.
Variable formatDate : option Z -> string.
Variable formatTime : option Z -> string.

Lemma classListRows_shape (students0 : list cell) (classes : list Class) :
  forall idx rows out,
    classListRows Date_ms formatDate formatTime students0 idx classes rows
    = Some out ->
    List.length out = (List.length rows + List.length classes)%nat
    /\ (forall row, In row out ->
                    In row rows
                    \/ List.length row = (5 + List.length students0)%nat).
Proof.
  induction classes as [|cls rest IH]; intros idx rows out E.
  - simpl in E. injection E as <-. simpl. split; [lia|auto].
  - cbn [classListRows] in E.
    destruct (classListRow Date_ms formatDate formatTime students0 idx cls)
      as [row0|] eqn:Er; [|discriminate].
    destruct (IH _ _ _ E) as [Hl Hin]. split.
    + rewrite Hl, length_app. simpl. lia.
    + intros row Hr. destruct (Hin row Hr) as [H|H]; [|auto].
      apply in_app_iff in H. destruct H as [H|[<-|[]]]; [auto|].
      right. unfold classListRow in Er.
      destruct (scheduledStart cls); [|discriminate].
      injection Er as <-. cbn [app List.length]. now rewrite length_map.
Qed.

Lemma classListRows_returns (students0 : list cell) (classes : list Class) :
  (forall cls, In cls classes -> scheduledStart cls <> None) ->
  forall idx rows,
    exists out,
      classListRows Date_ms formatDate formatTime students0 idx classes rows
      = Some out.
Proof.
  induction classes as [|cls rest IH]; intros H idx rows.
  - simpl. eauto.
  - cbn [classListRows]. unfold classListRow.
    destruct (scheduledStart cls) as [start|] eqn:Es.
    + apply IH. intros c Hc. apply H. now right.
    + exfalso. apply (H cls (or_introl eq_refl)). exact Es.
Qed.

End CourseDetailFacts.

(** The detail report of a course without classes is empty (so for the
    empty course id, which no class has); otherwise its info row carries
    the cells of the row of the course in the overview, its class list has
    a header and one row per class of the course, all as wide as the
    header, and the student columns are the distinct usernames of the
    participations. *)
Theorem course_detail_shape :
  forall (Date_ms : string -> option Z) (formatDate formatTime : option Z -> string)
         (data : object Class) (courseId : string),
    let sessions := classes_of_course data courseId in
    let report :=
      buildCourseDetailReport Date_ms formatDate formatTime data courseId in
    (sessions = [] -> report = Some (mkCourseDetail [] [] []))
    /\ classes_of_course data EmptyString = []
    /\ (forall r, report = Some r -> sessions <> [] ->
          infoCsv r
          = [infoHeader; info_of_overview (courseRow Date_ms courseId sessions)]
          /\ List.length (classListCsv r) = S (List.length sessions)
          /\ (forall row, In row (classListCsv r) ->
                List.length row = (5 + List.length (uniqueStudents r))%nat)
          /\ uniqueStudents r
             = unique (map s_username
                         (flat_map students (sort_classes Date_ms sessions)))).
Proof.
  intros D fd ft data courseId sessions report.
  split; [|split].
  - intros E. unfold report, buildCourseDetailReport.
    fold (classes_of_course data courseId). fold sessions. rewrite E.
    reflexivity.
  - unfold classes_of_course.
    induction (map snd data) as [|cls l IH]; [reflexivity|].
    cbn [filter]. rewrite IH.
    replace (String.eqb (courseKey cls) EmptyString) with false; [reflexivity|].
    symmetry. apply String.eqb_neq. unfold courseKey.
    destruct (truthy (course_id cls)) eqn:Et; [|discriminate].
    unfold truthy in Et. destruct (course_id cls) as [s|]; [|discriminate].
    simpl in *. intros ->. discriminate.
  - intros r Hr Hne. unfold report, buildCourseDetailReport in Hr.
    fold (classes_of_course data courseId) in Hr. fold sessions in Hr.
    pose proof (sort_classes_perm D sessions) as Hperm.
    unfold courseRow.
    destruct (sort_classes D sessions) as [|firstClass rest] eqn:Es.
    { apply Permutation_nil in Hperm. contradiction. }
    rewrite countParticipations_counts in *.
    match type of Hr with
    | match classListRows _ _ _ ?ss ?i ?cl ?rows with _ => _ end = _ =>
        destruct (classListRows D fd ft ss i cl rows) as [out|] eqn:Eo;
          [|discriminate];
        destruct (classListRows_shape D fd ft ss cl i rows out Eo) as [Hl Hin]
    end.
    injection Hr as <-. cbn [infoCsv classListCsv uniqueStudents].
    split; [reflexivity|]. split; [|split; [|reflexivity]].
    + rewrite Hl. rewrite <- (Permutation_length Hperm). simpl. lia.
    + intros row Hrow. destruct (Hin row Hrow) as [[<-|[]]|H]; [|exact H].
      rewrite length_app, length_map. reflexivity.
Qed.

(** The report of course 7: three classes, two students, rows of seven
    cells. *)
Lemma course_detail_shape_witness :
  exists r,
    buildCourseDetailReport isoDate (fun _ => EmptyString) (fun _ => EmptyString)
      (processData isoDate course_classes course_participants) "course-7"
    = Some r
    /\ infoCsv r
       = [infoHeader;
          info_of_overview
            (courseRow isoDate "course-7"
               (classes_of_course
                  (processData isoDate course_classes course_participants)
                  "course-7"))]
    /\ List.length (classListCsv r) = 4%nat
    /\ (forall row, In row (classListCsv r) -> List.length row = 7%nat)
    /\ List.length (uniqueStudents r) = 2%nat.
Proof.
  pose (data := processData isoDate course_classes course_participants).
  fold data.
  destruct (buildCourseDetailReport isoDate (fun _ => EmptyString)
              (fun _ => EmptyString) data "course-7") as [r|] eqn:E;
    [|vm_compute in E; discriminate].
  exists r. split; [reflexivity|].
  pose proof (course_detail_shape isoDate (fun _ => EmptyString)
                (fun _ => EmptyString) data "course-7") as H.
  cbn zeta in H. destruct H as [_ [_ H]].
  destruct (H r E) as (Hinfo & Hlen & Hrows & Huniq).
  { vm_compute. discriminate. }
  split; [exact Hinfo|]. split; [|split].
  - rewrite Hlen. vm_compute. reflexivity.
  - intros row Hrow. rewrite (Hrows row Hrow), Huniq. vm_compute. reflexivity.
  - rewrite Huniq. vm_compute. reflexivity.
Defined.

(** On the classes of the normalizer the course detail report never throws:
    every class has a start text. *)
Theorem course_detail_returns :
  forall (Date_ms : string -> option Z) (formatDate formatTime : option Z -> string)
         (cd pd : list (list string)) (courseId : string),
    exists r,
      buildCourseDetailReport Date_ms formatDate formatTime
        (processData Date_ms cd pd) courseId = Some r.
Proof.
  intros D fd ft cd pd courseId. unfold buildCourseDetailReport.
  set (sessions := filter (fun cls => String.eqb (courseKey cls) courseId)
                          (map snd (processData D cd pd))).
  assert (Hstart : forall cls, In cls (sort_classes D sessions) ->
                               scheduledStart cls <> None).
  { intros cls H.
    apply (Permutation_in _ (sort_classes_perm D sessions)) in H.
    apply filter_In in H. destruct H as [H _].
    apply in_map_iff in H. destruct H as [[k c] [<- Hin]].
    destruct (processData_In D cd pd k c Hin) as [cs [_ [Hslug [_ ->]]]].
    cbn [snd scheduledStart makeClass]. unfold col in *.
    destruct cs; [discriminate|]. discriminate. }
  destruct (sort_classes D sessions) as [|firstClass rest]; [eauto|].
  rewrite countParticipations_counts.
  match goal with
  | |- context [classListRows _ _ _ ?ss ?i ?cl ?rows] =>
      destruct (classListRows_returns D fd ft ss cl Hstart i rows) as [out ->]
  end.
  eauto.
Qed.

(** *** The rows of the hour-count report *)

Lemma In_keys_obj_set {V : Type} (o : object V) k v x :
  In x (map fst (obj_set o k v)) <-> In x (map fst o) \/ x = k.
Proof.
  rewrite keys_obj_set.
  destruct (existsb (String.eqb k) (map fst o)) eqn:E.
  - split; [auto|]. intros [H| ->]; [exact H|].
    apply existsb_exists in E. destruct E as [y [Hy Hk]].
    apply String.eqb_eq in Hk. now subst.
  - rewrite in_app_iff. simpl. intuition.
Qed.

Lemma aggregate_teachers settings credit (l : list Class) st :
  NoDup (map fst (fst st)) ->
  NoDup (map fst (fst (fold_left (aggregateClass settings credit) l st)))
  /\ (forall t,
        In t (map fst (fst (fold_left (aggregateClass settings credit) l st)))
        <-> In t (map fst (fst st))
            \/ exists cls d ty, In cls l /\ assigned settings cls = Some (t, d, ty)).
Proof.
  revert st. induction l as [|cls l IH]; intros st Hnd.
  - simpl. split; [exact Hnd|]. intros t. split; [auto|].
    intros [H|[cls [d [ty [[] _]]]]]. exact H.
  - cbn [fold_left].
    destruct (assigned settings cls) as [[[t0 d0] ty0]|] eqn:A.
    + rewrite (aggregateClass_assigned settings credit st cls t0 d0 ty0 A).
      match goal with
      | |- context [fold_left _ l ?s] => destruct (IH s) as [N I]
      end.
      { cbn [fst]. now apply NoDup_aset. }
      split; [exact N|]. intros t. rewrite I. cbn [fst].
      rewrite In_keys_obj_set. split.
      * intros [[H| ->]|[c [d [ty [Hc Ha]]]]]; [auto| |].
        -- right. exists cls, d0, ty0. simpl. auto.
        -- right. exists c, d, ty. simpl. auto.
      * intros [H|[c [d [ty [[<-|Hc] Ha]]]]]; [auto| |].
        -- left. right. congruence.
        -- right. exists c, d, ty. auto.
    + rewrite (aggregateClass_unassigned settings credit st cls A).
      match goal with
      | |- context [fold_left _ l ?s] => destruct (IH s) as [N I]
      end.
      { exact Hnd. }
      split; [exact N|]. intros t. rewrite I. cbn [fst]. split.
      * intros [H|[c [d [ty [Hc Ha]]]]]; [auto|].
        right. exists c, d, ty. simpl. auto.
      * intros [H|[c [d [ty [[<-|Hc] Ha]]]]]; [auto|congruence|].
        right. exists c, d, ty. auto.
Qed.

(** The hour-count report has one data row per teacher, headed by the
    username; no teacher has two rows, and the teachers are the non-empty
    teacher usernames of the classes whose type the filter lets through. *)
Theorem report_rows_are_teachers :
  forall (Date_ms : string -> option Z) (data : object Class)
         (settings : Settings) (simpleReport : bool),
    let reports :=
      fst (aggregate settings (creditCancellations Date_ms settings) data) in
    let rows := buildTeacherHourCountCSV Date_ms data settings simpleReport in
    map (fun row => nth_error row 0) rows
    = map (fun entry => Some (Text (fst entry))) reports
    /\ NoDup (map fst reports)
    /\ (forall t,
          In t (map fst reports)
          <-> t <> EmptyString
              /\ exists k cls,
                   In (k, cls) data
                   /\ teacher_username cls = Some t
                   /\ filter_excludes (classTypeFilter settings) (class_type cls)
                      = false).
Proof.
  intros D data settings simple reports rows.
  split; [|].
  - unfold rows, buildTeacherHourCountCSV, reports.
    destruct (aggregate settings (creditCancellations D settings) data)
      as [teacherReports durationsSet].
    cbn [fst]. rewrite map_map. apply map_ext. intros [t b].
    apply teacherRow_head.
  - unfold reports, aggregate.
    destruct (aggregate_teachers settings (creditCancellations D settings)
                (map snd data) ([], [])) as [N I]; [constructor|].
    split; [exact N|]. intros t. rewrite I. cbn [fst map]. split.
    + intros [[]|[cls [d [ty [Hc Ha]]]]].
      apply in_map_iff in Hc. destruct Hc as [[k c] [<- Hc]].
      unfold assigned in Ha. cbn [snd] in Ha.
      destruct (teacher_username c) as [t'|] eqn:Et; [|discriminate].
      destruct (truthy (Some t')) eqn:Etr; cbn [andb] in Ha; [|discriminate].
      destruct (filter_excludes (classTypeFilter settings) (class_type c)) eqn:Ef;
        cbn [negb] in Ha; [discriminate|].
      injection Ha as <- _ _.
      split; [now apply truthy_nonempty|]. exists k, c. auto.
    + intros [Hne [k [cls [Hc [Ht Hf]]]]]. right.
      exists cls, (minutes_of (scheduledDuration cls)), (class_type cls).
      split; [apply in_map_iff; exists (k, cls); auto|].
      unfold assigned. rewrite Ht, Hf.
      apply truthy_nonempty in Hne. rewrite Hne. reflexivity.
Qed.

(* ----------------------------------------------------------------- *)
(** *** Net counts in double precision *)

Local Open Scope Q_scope.

(** The fraction of a student no-show that is paid: between 0 and 1 and
    within [2^-51] of the rate over 100. *)
Lemma studentNoShowFrac_value (settings : Settings) :
  0 <= studentNoShowRate settings <= 100 ->
  exists f : Q,
    studentNoShowFrac settings = DFin f
    /\ 0 <= f <= 1
    /\ Qabs (f - (if payStudentNoShow settings
                  then studentNoShowRate settings / 100 else 0)) <= pow2 (-51).
Proof.
  intros [R0 R1]. unfold studentNoShowFrac.
  destruct (payStudentNoShow settings).
  2: { exists 0. split; [reflexivity|]. split; [lra|]. vm_compute. discriminate. }
  set (rate := studentNoShowRate settings) in *.
  assert (A : Qabs rate <= pow2 7).
  { rewrite Qabs_pos by exact R0. change (pow2 7) with 128. lra. }
  rewrite (binary64_finite rate 7 A) by lia.
  set (r1 := round64 rate).
  assert (P0 : 0 <= r1) by (apply round64_nonneg; exact R0).
  assert (P1 : r1 <= 100).
  { assert (E : 100 == inject_Z 25 * pow2 2) by reflexivity.
    rewrite E. apply (round64_upper rate 25 2 7 A); [lia|lia|].
    rewrite <- E. exact R1. }
  pose proof (round64_error rate 7 A ltac:(lia)) as E1. fold r1 in E1.
  unfold ddiv. change (Qeq_bool 100 0) with false. cbv iota.
  assert (A2 : Qabs (r1 / 100) <= pow2 0).
  { rewrite Qabs_pos by (apply Qle_shift_div_l; lra).
    change (pow2 0) with 1. apply Qle_shift_div_r; lra. }
  rewrite (binary64_finite (r1 / 100) 0 A2) by lia.
  set (f := round64 (r1 / 100)).
  assert (Q0 : 0 <= r1 / 100) by (apply Qle_shift_div_l; lra).
  assert (Q1 : r1 / 100 <= 1) by (apply Qle_shift_div_r; lra).
  assert (F0 : 0 <= f) by (apply round64_nonneg; exact Q0).
  assert (F1 : f <= 1).
  { assert (E : 1 == inject_Z 1 * pow2 0) by reflexivity.
    rewrite E. apply (round64_upper (r1 / 100) 1 0 0 A2); [lia|lia|].
    rewrite <- E. exact Q1. }
  pose proof (round64_error (r1 / 100) 0 A2 ltac:(lia)) as E2. fold f in E2.
  exists f. split; [reflexivity|]. split; [split; assumption|].
  change (pow2 (7 - 53)) with (1 # 70368744177664) in E1.
  change (pow2 (0 - 53)) with (1 # 9007199254740992) in E2.
  change (pow2 (-51)) with (1 # 2251799813685248).
  assert (Er : r1 / 100 == r1 * (1 # 100)) by (field).
  assert (Et : rate / 100 == rate * (1 # 100)) by (field).
  rewrite Er in E2. rewrite Et.
  apply Qabs_Qle_condition in E1. apply Qabs_Qle_condition in E2.
  apply Qabs_Qle_condition. clearbody f r1 rate. split; lra.
Qed.

(** The body of [netCount] on a whole base count [B], [s] student
    no-shows and the paid fraction [f], which is within [2^-51] of [r]. *)
Lemma deduct_value (B s : Z) (f r : Q) :
  (- 2 ^ 20 <= B <= 2 ^ 21)%Z -> (0 <= s <= 2 ^ 20)%Z ->
  0 <= f <= 1 -> Qabs (f - r) <= pow2 (-51) ->
  exists v : Q,
    dsub (d_of_Z B) (dmul (d_of_Z s) (dsub (DFin 1) (DFin f))) = DFin v
    /\ Qabs (v - (inject_Z B - inject_Z s * (1 - r))) <= pow2 (-29)
    /\ Qabs v <= pow2 23.
Proof.
  intros HB Hs [F0 F1] Hf.
  change (2 ^ 20)%Z with 1048576%Z in *. change (2 ^ 21)%Z with 2097152%Z in *.
  assert (Bq : -1048576 <= inject_Z B <= 2097152).
  { change (-1048576) with (inject_Z (-1048576)).
    change 2097152 with (inject_Z 2097152). rewrite <- !Zle_Qle. lia. }
  assert (Sq : 0 <= inject_Z s <= 1048576).
  { change 0 with (inject_Z 0). change 1048576 with (inject_Z 1048576).
    rewrite <- !Zle_Qle. lia. }
  (* 1 - f *)
  assert (A1 : Qabs (1 - f) <= pow2 0).
  { rewrite Qabs_pos by lra. change (pow2 0) with 1. lra. }
  rewrite (dsub_finite 1 f 0 A1) by lia.
  set (g := round64 (1 - f)).
  assert (G0 : 0 <= g) by (apply round64_nonneg; lra).
  assert (G1 : g <= 1).
  { assert (E : 1 == inject_Z 1 * pow2 0) by reflexivity.
    rewrite E. apply (round64_upper (1 - f) 1 0 0 A1); [lia|lia|].
    rewrite <- E. lra. }
  pose proof (round64_error (1 - f) 0 A1 ltac:(lia)) as Eg. fold g in Eg.
  (* s * g *)
  set (sg := inject_Z s * g).
  assert (SG0 : 0 <= sg) by (apply Qmult_le_0_compat; lra).
  assert (SG1 : sg <= 1048576).
  { unfold sg. apply Qle_trans with (inject_Z s * 1).
    - rewrite (Qmult_comm (inject_Z s) g), (Qmult_comm (inject_Z s) 1).
      apply Qmult_le_compat_r; lra.
    - lra. }
  assert (A2 : Qabs sg <= pow2 20).
  { rewrite Qabs_pos by exact SG0. change (pow2 20) with 1048576. exact SG1. }
  unfold dmul, d_of_Z. fold sg.
  rewrite (binary64_finite sg 20 A2) by lia.
  set (h := round64 sg).
  assert (H0 : 0 <= h) by (apply round64_nonneg; exact SG0).
  assert (H1 : h <= 1048576).
  { assert (E : 1048576 == inject_Z 1048576 * pow2 0) by reflexivity.
    rewrite E. apply (round64_upper sg 1048576 0 20 A2); [lia|lia|].
    rewrite <- E. exact SG1. }
  pose proof (round64_error sg 20 A2 ltac:(lia)) as Eh. fold h in Eh.
  (* B - h *)
  assert (A3 : Qabs (inject_Z B - h) <= pow2 22).
  { change (pow2 22) with 4194304. apply Qabs_Qle_condition. split; lra. }
  rewrite (dsub_finite (inject_Z B) h 22 A3) by lia.
  set (v := round64 (inject_Z B - h)).
  pose proof (round64_error (inject_Z B - h) 22 A3 ltac:(lia)) as Ev. fold v in Ev.
  exists v. split; [reflexivity|].
  (* the error of the product *)
  set (dl := g - (1 - r)).
  assert (Dl : Qabs dl <= 5 # 9007199254740992).
  { unfold dl. change (pow2 (0 - 53)) with (1 # 9007199254740992) in Eg.
    change (pow2 (-51)) with (1 # 2251799813685248) in Hf.
    apply Qabs_Qle_condition in Eg. apply Qabs_Qle_condition in Hf.
    apply Qabs_Qle_condition. clearbody g. split; lra. }
  assert (St : Qabs (inject_Z s * dl) <= 1048576 * (5 # 9007199254740992)).
  { apply Qabs_mult_le; [|exact Dl]. rewrite Qabs_pos; lra. }
  assert (Eq : sg == inject_Z s * (1 - r) + inject_Z s * dl).
  { unfold sg, dl. ring. }
  set (t := inject_Z s * dl) in *. set (sr := inject_Z s * (1 - r)) in *.
  change (pow2 (20 - 53)) with (1 # 8589934592) in Eh.
  change (pow2 (22 - 53)) with (1 # 2147483648) in Ev.
  change (pow2 (-29)) with (1 # 536870912).
  change (pow2 23) with 8388608.
  assert (St' : Qabs t <= 5 # 8589934592).
  { eapply Qle_trans; [exact St|]. vm_compute. discriminate. }
  apply Qabs_Qle_condition in Eh. apply Qabs_Qle_condition in Ev.
  apply Qabs_Qle_condition in St'.
  set (b := inject_Z B) in *.
  clearbody v h sg t sr b.
  split; apply Qabs_Qle_condition; split; lra.
Qed.

Section NetCountFacts.

Variable settings : Settings.

(** The base count is a whole number. *)
Lemma baseCount_value (type : ClassType) (bucket : Bucket) :
  moderate bucket ->
  let B :=
    (attended bucket
     - (if penaliseTardiness settings then late bucket else 0)
     + match type with
       | private =>
           if payLastMinuteCancellation settings then cancelled bucket else 0
       | group => 0
       end)%Z in
  (let baseCount := d_of_Z (attended bucket) in
   let baseCount :=
     if penaliseTardiness settings then dsub baseCount (d_of_Z (late bucket))
     else baseCount in
   match type with
   | private =>
       if payLastMinuteCancellation settings
       then dadd baseCount (d_of_Z (cancelled bucket))
       else baseCount
   | group => baseCount
   end) = d_of_Z B
  /\ (- 2 ^ 20 <= B <= 2 ^ 21)%Z.
Proof.
  intros (Ha & Hl & Hc & Hs). cbv zeta.
  change (2 ^ 20)%Z with 1048576%Z in *. change (2 ^ 21)%Z with 2097152%Z.
  destruct (penaliseTardiness settings), type;
    try destruct (payLastMinuteCancellation settings);
    rewrite ?dsub_Z, ?dadd_Z;
    try (change (2 ^ 53)%Z with 9007199254740992%Z; lia);
    (split; [f_equal; lia|lia]).
Qed.

Lemma netCount_value (type : ClassType) (bucket : Bucket) :
  0 <= studentNoShowRate settings <= 100 -> moderate bucket ->
  exists v : Q,
    netCount settings type bucket = binary64 (toFixed2 v)
    /\ Qabs (v - exact_netCount settings type bucket) <= pow2 (-29)
    /\ Qabs v <= pow2 23.
Proof.
  intros HR Hm.
  destruct (studentNoShowFrac_value settings HR) as (f & Ef & Hf & Hfr).
  destruct (baseCount_value type bucket Hm) as [EB HB]. cbv zeta in EB, HB.
  assert (Hs : (0 <= studentNoShow bucket <= 2 ^ 20)%Z) by apply Hm.
  destruct (deduct_value _ (studentNoShow bucket) f _ HB Hs Hf Hfr)
    as (v & Ev & Hv & Hvb).
  exists v. split; [|split; [|exact Hvb]].
  - unfold netCount. cbv zeta. rewrite EB, Ef, Ev. unfold parseFloat_toFixed2.
    assert (L : Qlt_bool (Qabs v) (inject_Z (10 ^ 21)) = true).
    { apply Qlt_bool_iff. eapply Qle_lt_trans; [exact Hvb|]. reflexivity. }
    now rewrite L.
  - assert (E : exact_netCount settings type bucket
                == inject_Z (attended bucket
                             - (if penaliseTardiness settings then late bucket else 0)
                             + match type with
                               | private =>
                                   if payLastMinuteCancellation settings
                                   then cancelled bucket else 0
                               | group => 0
                               end)
                   - inject_Z (studentNoShow bucket)
                     * (1 - (if payStudentNoShow settings
                             then studentNoShowRate settings / 100 else 0))).
    { unfold exact_netCount, Z.sub.
      destruct (penaliseTardiness settings), type;
        try destruct (payLastMinuteCancellation settings);
        destruct (payStudentNoShow settings);
        rewrite ?inject_Z_plus, ?inject_Z_opp; change (inject_Z 0) with 0; ring. }
    rewrite E. exact Hv.
Qed.

(** The net count is the double of a hundredth nearest to the exact net
    count, up to the error of the double operations; it is a nearest
    hundredth when the rate has at most two decimals. *)
Lemma netCount_hundredths (type : ClassType) (bucket : Bucket) :
  0 <= studentNoShowRate settings <= 100 -> moderate bucket ->
  exists n : Z,
    netCount settings type bucket = binary64 (inject_Z n / 100)
    /\ Qabs (inject_Z n / 100 - exact_netCount settings type bucket)
       <= (1 # 200) + pow2 (-29)
    /\ ((exists p : Z, studentNoShowRate settings == inject_Z p / 100) ->
        Qabs (inject_Z n / 100 - exact_netCount settings type bucket) <= 1 # 200).
Proof.
  intros HR Hm.
  destruct (netCount_value type bucket HR Hm) as (v & Ev & Hv & _).
  destruct (toFixed2_hundredths v) as [n Hn].
  pose proof (toFixed2_close v) as Hc. rewrite Hn in Hc.
  exists n. split; [rewrite Ev; now apply binary64_comp|].
  set (x := exact_netCount settings type bucket) in *.
  assert (Hi : Qabs (inject_Z n / 100 - x) <= (1 # 200) + pow2 (-29)).
  { change (pow2 (-29)) with (1 # 536870912) in *.
    assert (E : inject_Z n / 100 == inject_Z n * (1 # 100)) by field.
    rewrite E in *.
    apply Qabs_Qle_condition in Hc. apply Qabs_Qle_condition in Hv.
    apply Qabs_Qle_condition. set (nn := inject_Z n) in *.
    clearbody x nn. split; lra. }
  split; [exact Hi|].
  intros [p Hp].
  (* the exact net count is a whole number of ten-thousandths *)
  assert (EN : exists N : Z, x == inject_Z N / 10000).
  { unfold x, exact_netCount.
    set (a := attended bucket). set (l := late bucket).
    set (c := cancelled bucket). set (s := studentNoShow bucket).
    exists (10000 * (a - (if penaliseTardiness settings then l else 0)
                     + match type with
                       | private =>
                           if payLastMinuteCancellation settings then c else 0
                       | group => 0
                       end)
            - s * (if payStudentNoShow settings then 10000 - p else 10000))%Z.
    unfold Z.sub.
    destruct (penaliseTardiness settings), type;
      try destruct (payLastMinuteCancellation settings);
      destruct (payStudentNoShow settings);
      try rewrite Hp;
      rewrite ?inject_Z_plus, ?inject_Z_opp, ?inject_Z_mult, ?inject_Z_plus,
        ?inject_Z_opp;
      change (inject_Z 0) with 0; change (inject_Z 10000) with 10000; field. }
  destruct EN as [N HN]. rewrite HN in Hi |- *.
  change (pow2 (-29)) with (1 # 536870912) in Hi.
  assert (Z1 : (Z.abs (100 * n - N) <= 50)%Z).
  { assert (Q1 : inject_Z (Z.abs (100 * n - N)) < inject_Z 51).
    { rewrite <- Qabs_inject_Z. unfold Z.sub.
      rewrite inject_Z_plus, inject_Z_opp, inject_Z_mult.
      change (inject_Z 100) with 100. change (inject_Z 51) with 51.
      assert (E : 100 * inject_Z n + - inject_Z N
                  == 10000 * (inject_Z n / 100 - inject_Z N / 10000)) by field.
      rewrite E. apply Qabs_Qle_condition in Hi. apply Qabs_Qlt_condition.
      set (y := inject_Z n / 100 - inject_Z N / 10000) in *. clearbody y.
      split; lra. }
    rewrite <- Zlt_Qlt in Q1. lia. }
  assert (Q2 : Qabs (inject_Z (100 * n - N)) <= 50).
  { rewrite Qabs_inject_Z. change 50 with (inject_Z 50). rewrite <- Zle_Qle.
    exact Z1. }
  unfold Z.sub in Q2. rewrite inject_Z_plus, inject_Z_opp, inject_Z_mult in Q2.
  change (inject_Z 100) with 100 in Q2.
  assert (E : 100 * inject_Z n + - inject_Z N
              == 10000 * (inject_Z n / 100 - inject_Z N / 10000)) by field.
  rewrite E in Q2. apply Qabs_Qle_condition in Q2. apply Qabs_Qle_condition.
  set (y := inject_Z n / 100 - inject_Z N / 10000) in *. clearbody y.
  split; lra.
Qed.

(** Without pay for student no-shows the net count is a whole number. *)
Lemma netCount_whole (type : ClassType) (bucket : Bucket) :
  payStudentNoShow settings = false -> moderate bucket ->
  netCount settings type bucket = d_of_Z (whole_netCount settings type bucket).
Proof.
  intros Hp Hm.
  destruct (baseCount_value type bucket Hm) as [EB HB]. cbv zeta in EB, HB.
  assert (Hs : (0 <= studentNoShow bucket <= 2 ^ 20)%Z) by apply Hm.
  change (2 ^ 20)%Z with 1048576%Z in *. change (2 ^ 21)%Z with 2097152%Z in *.
  unfold netCount. cbv zeta. rewrite EB. unfold studentNoShowFrac. rewrite Hp.
  change (DFin 1) with (d_of_Z 1). change (DFin 0) with (d_of_Z 0).
  rewrite (dsub_Z 1 0) by (vm_compute; reflexivity).
  change (1 - 0)%Z with 1%Z. rewrite dmul_Z, Z.mul_1_r;
    [|change (2 ^ 53)%Z with 9007199254740992%Z; lia].
  rewrite dsub_Z by (change (2 ^ 53)%Z with 9007199254740992%Z; lia).
  rewrite parseFloat_toFixed2_Z
    by (change (2 ^ 53)%Z with 9007199254740992%Z; lia).
  reflexivity.
Qed.

End NetCountFacts.

Local Close Scope Q_scope.

(** The counters the report holds for a bucket are those of the classes
    counted in it. *)
Lemma session_counters_fold Date_ms settings (data : object Class) t d ty :
  fold_left
    (fun b cls =>
       if assigned_to settings t d ty cls
       then bucket_plus b (contribution Date_ms settings cls t ty) else b)
    (map snd data) zeroBucket
  = session_counters Date_ms settings t d ty data.
Proof.
  unfold session_counters, classes_of_bucket. cbv zeta.
  set (F := fun b cls =>
              if assigned_to settings t d ty cls
              then bucket_plus b (contribution Date_ms settings cls t ty) else b).
  set (counters := fun sessions : list Class =>
    {| attended := Z.of_nat (List.length (filter teacher_attended sessions));
       noShow := Z.of_nat (List.length
                   (filter (fun cls => negb (teacher_attended cls)) sessions));
       cancelled :=
         match ty with
         | private =>
             if payLastMinuteCancellation settings
             then sumZ (fun cls => lateCancellations Date_ms settings cls t) sessions
             else 0
         | group => 0
         end;
       late := Z.of_nat (List.length
                 (filter (fun cls =>
                            (teacher_attended cls && penaliseTardiness settings
                             && minutes_gt (minutes_of (teacher_tardiness cls))
                                           (tardinessLimit settings))%bool)
                         sessions));
       studentNoShow :=
         Z.of_nat (List.length (filter studentNoShow_counted sessions)) |}).
  change (fold_left F (map snd data) zeroBucket
          = counters (filter (assigned_to settings t d ty) (map snd data))).
  assert (G : forall l b0,
    fold_left F l b0
    = bucket_plus b0 (counters (filter (assigned_to settings t d ty) l))).
  { induction l as [|cls l IH]; intros b0.
    - destruct b0. unfold bucket_plus, counters. simpl.
      destruct ty; [destruct (payLastMinuteCancellation settings)|];
        simpl; f_equal; lia.
    - cbn [fold_left filter].
      assert (EF : F b0 cls
                   = if assigned_to settings t d ty cls
                     then bucket_plus b0 (contribution Date_ms settings cls t ty)
                     else b0) by reflexivity.
      rewrite EF. clear EF. rewrite IH.
      destruct (assigned_to settings t d ty cls); [|reflexivity].
      destruct b0 as [a n c l0 s].
      unfold bucket_plus, counters, contribution, bump, sumZ.
      cbn [attended noShow cancelled late studentNoShow filter fold_right].
      destruct (teacher_attended cls); cbn [negb andb];
        destruct (studentNoShow_counted cls);
        try destruct (penaliseTardiness settings); cbn [andb];
        try destruct (minutes_gt _ _);
        destruct ty; try destruct (payLastMinuteCancellation settings);
        cbn [List.length]; f_equal; lia. }
  rewrite G. unfold bucket_plus, zeroBucket.
  destruct (counters _). simpl. reflexivity.
Qed.

(** *** The totals of a type *)

Lemma flat_map_cells_length settings simpleReport type durationBuckets
    (l : list jsnum) :
  List.length (flat_map (fun d => durationCells settings simpleReport type
                                    (bucketFor durationBuckets d type)) l)
  = (List.length l * cell_width simpleReport type)%nat.
Proof.
  induction l as [|y r IH]; simpl; [reflexivity|].
  now rewrite length_app, durationCells_length, IH.
Qed.

Lemma fold_pushDuration_totals settings simpleReport durationBuckets type
    (ds : list jsnum) row c m :
  fold_left (pushDuration settings simpleReport durationBuckets type) ds
            (row, c, m)
  = (row ++ flat_map
              (fun d => durationCells settings simpleReport type
                          (bucketFor durationBuckets d type)) ds,
     fold_left
       (fun acc d =>
          dadd acc (netCount settings type (bucketFor durationBuckets d type)))
       ds c,
     fold_left
       (fun acc d =>
          dadd acc (dmul (netCount settings type (bucketFor durationBuckets d type))
                         (d_of_jsnum d)))
       ds m).
Proof.
  revert row c m. induction ds as [|d r IH]; intros row c m.
  - simpl. now rewrite app_nil_r.
  - cbn [fold_left pushDuration flat_map]. rewrite IH.
    now rewrite <- app_assoc.
Qed.

Lemma pushType_total_cells settings simpleReport durations durationBuckets row type :
  let n := (List.length row + List.length durations * cell_width simpleReport type)%nat in
  let r := pushType settings simpleReport durations durationBuckets row type in
  nth_error r n
  = Some (Double (sum_netCounts settings type durationBuckets durations))
  /\ nth_error r (S n)
     = Some (Double (sum_minutes settings type durationBuckets durations)).
Proof.
  cbn zeta. unfold pushType, sum_netCounts, sum_minutes.
  rewrite fold_pushDuration_totals.
  pose proof (flat_map_cells_length settings simpleReport type durationBuckets
                durations) as L.
  split.
  - rewrite nth_error_app2 by (rewrite length_app; lia).
    rewrite length_app, L.
    replace (_ - _)%nat with 0%nat by lia. reflexivity.
  - rewrite nth_error_app2 by (rewrite length_app; lia).
    rewrite length_app, L.
    replace (_ - _)%nat with 1%nat by lia. reflexivity.
Qed.

(** Adding up whole numbers in double precision is exact while the sums
    stay below [2^53]. *)
Lemma fold_dadd_Z {A : Type} (f : A -> double) (g : A -> Z) (bound : Z)
    (l : list A) (c : Z) :
  0 <= bound ->
  (forall a, In a l -> f a = d_of_Z (g a) /\ Z.abs (g a) <= bound) ->
  Z.abs c + Z.of_nat (List.length l) * bound < 2 ^ 53 ->
  fold_left (fun acc a => dadd acc (f a)) l (d_of_Z c) = d_of_Z (c + sumZ g l).
Proof.
  intros Hb. revert c. induction l as [|a r IH]; intros c H Hc.
  - simpl. now rewrite Z.add_0_r.
  - cbn [fold_left]. destruct (H a (or_introl eq_refl)) as [-> Ha].
    cbn [List.length] in Hc. rewrite Nat2Z.inj_succ, Z.mul_succ_l in Hc.
    assert (Hr : 0 <= Z.of_nat (List.length r) * bound)
      by (apply Z.mul_nonneg_nonneg; lia).
    rewrite dadd_Z by lia.
    rewrite IH.
    + unfold sumZ. cbn [fold_right]. f_equal. lia.
    + intros x Hx. apply H. now right.
    + lia.
Qed.

Lemma whole_netCount_bound settings type bucket :
  moderate bucket -> Z.abs (whole_netCount settings type bucket) <= 2 ^ 21.
Proof.
  intros (Ha & Hl & Hc & Hs). unfold whole_netCount.
  change (2 ^ 20) with 1048576 in *. change (2 ^ 21) with 2097152.
  destruct (penaliseTardiness settings), type;
    try destruct (payLastMinuteCancellation settings); lia.
Qed.

(** The two totals of a type in a teacher's row: the total count is the sum
    of the net counts of the durations and the total of minutes the sum of
    net count times duration, both added up in double precision in the
    order of the durations; without pay for student no-shows, for at most
    [2^10] durations of at most [2^20] minutes and counters up to [2^20],
    they are the whole numbers of exact arithmetic. *)
Theorem teacher_totals_sum :
  forall (settings : Settings) (simpleReport : bool) (durations : list jsnum)
         (teacher : string) (durationBuckets : DurationBuckets) (type : ClassType),
    filter_excludes (classTypeFilter settings) type = false ->
    let row := teacherRow settings simpleReport durations teacher durationBuckets in
    let i := total_index (classTypeFilter settings) simpleReport
                         (List.length durations) type in
    nth_error row i
    = Some (Double (sum_netCounts settings type durationBuckets durations))
    /\ nth_error row (S i)
       = Some (Double (sum_minutes settings type durationBuckets durations))
    /\ (payStudentNoShow settings = false ->
        (forall d, In d durations ->
           moderate (bucketFor durationBuckets d type)
           /\ exists z, d = Int z /\ Z.abs z <= 2 ^ 20) ->
        Z.of_nat (List.length durations) <= 2 ^ 10 ->
        nth_error row i
        = Some (Count (whole_total settings type durationBuckets durations))
        /\ nth_error row (S i)
           = Some (Count (whole_minutes settings type durationBuckets durations))).
Proof.
  intros settings simple durations teacher db type Hf. cbn zeta.
  assert (Hcells :
    nth_error (teacherRow settings simple durations teacher db)
              (total_index (classTypeFilter settings) simple
                           (List.length durations) type)
    = Some (Double (sum_netCounts settings type db durations))
    /\ nth_error (teacherRow settings simple durations teacher db)
                 (S (total_index (classTypeFilter settings) simple
                                 (List.length durations) type))
       = Some (Double (sum_minutes settings type db durations))).
  { unfold teacherRow, total_index, block_start.
    destruct (classTypeFilter settings), type; try discriminate Hf.
    - apply (pushType_total_cells settings simple durations db [Text teacher] private).
    - apply (pushType_total_cells settings simple durations db [Text teacher] group).
    - pose proof (pushType_total_cells settings simple durations db [Text teacher]
                    private) as H.
      cbn zeta in H. cbn [List.length] in H.
      destruct H as [H1 H2]. split.
      + rewrite pushType_prefix; [exact H1|].
        rewrite pushType_length. cbn [List.length]. lia.
      + rewrite pushType_prefix; [exact H2|].
        rewrite pushType_length. cbn [List.length]. lia.
    - pose proof (pushType_total_cells settings simple durations db
                    (pushType settings simple durations db [Text teacher] private)
                    group) as H.
      cbn zeta in H. rewrite pushType_length in H. exact H. }
  destruct Hcells as [H1 H2].
  split; [exact H1|]. split; [exact H2|].
  intros Hp Hd Hn. rewrite H1, H2.
  change (2 ^ 10) with 1024 in Hn.
  assert (E1 : sum_netCounts settings type db durations
               = d_of_Z (whole_total settings type db durations)).
  { unfold sum_netCounts, whole_total. change (DFin 0) with (d_of_Z 0).
    rewrite (fold_dadd_Z _
               (fun d => whole_netCount settings type (bucketFor db d type))
               (2 ^ 21)).
    - reflexivity.
    - lia.
    - intros d Hin. destruct (Hd d Hin) as [Hm _].
      split; [now apply netCount_whole|now apply whole_netCount_bound].
    - change (2 ^ 21) with 2097152. change (2 ^ 53) with 9007199254740992.
      simpl Z.abs. lia. }
  assert (E2 : sum_minutes settings type db durations
               = d_of_Z (whole_minutes settings type db durations)).
  { unfold sum_minutes, whole_minutes. change (DFin 0) with (d_of_Z 0).
    rewrite (fold_dadd_Z _
               (fun d => whole_netCount settings type (bucketFor db d type)
                         * or_zero d)
               (2 ^ 41)).
    - reflexivity.
    - lia.
    - intros d Hin. destruct (Hd d Hin) as [Hm [z [-> Hz]]].
      pose proof (whole_netCount_bound settings type _ Hm) as Hw.
      assert (Hwz : Z.abs (whole_netCount settings type (bucketFor db (Int z) type)
                           * z) <= 2 ^ 41).
      { rewrite Z.abs_mul. change (2 ^ 41) with (2 ^ 21 * 2 ^ 20).
        apply Z.mul_le_mono_nonneg; try apply Z.abs_nonneg; assumption. }
      split; [|exact Hwz].
      rewrite (netCount_whole settings type _ Hp Hm). cbn [d_of_jsnum or_zero].
      apply dmul_Z. change (2 ^ 41) with 2199023255552 in Hwz.
      change (2 ^ 53) with 9007199254740992. lia.
    - change (2 ^ 41) with 2199023255552. change (2 ^ 53) with 9007199254740992.
      simpl Z.abs. lia. }
  rewrite E1, E2. split; reflexivity.
Qed.

(** With 70 % paid for a student no-show, one class attended and its
    student absent, the net count is 0.7 and the minutes of a class of 90
    minutes are 0.7 * 90 in double precision, just below 63; without pay
    for student no-shows the totals are whole: 3 classes and 180 minutes. *)
Lemma teacher_totals_sum_witness :
  let buckets :=
    [(Int 90, ({| attended := 1; noShow := 0; cancelled := 0; late := 0;
                  studentNoShow := 1 |}, zeroBucket))] in
  let row := teacherRow seventy_settings true [Int 90] "tina" buckets in
  let buckets' :=
    [(Int 60, ({| attended := 3; noShow := 1; cancelled := 2; late := 1;
                  studentNoShow := 1 |}, zeroBucket))] in
  let row' := teacherRow private_only_settings true [Int 30; Int 60] "tina" buckets' in
  nth_error row (total_index both true 1 private)
  = Some (Double (binary64 (7 # 10)))
  /\ nth_error row (S (total_index both true 1 private))
     = Some (Double (DFin (8866461766385663 # 140737488355328)))
  /\ (8866461766385663 # 140737488355328 < 63)%Q
  /\ nth_error row' (total_index only_private true 2 private) = Some (Count 3)
  /\ nth_error row' (S (total_index only_private true 2 private))
     = Some (Count 180).
Proof.
  cbn zeta.
  pose proof (teacher_totals_sum seventy_settings true [Int 90] "tina"
                [(Int 90, ({| attended := 1; noShow := 0; cancelled := 0;
                              late := 0; studentNoShow := 1 |}, zeroBucket))]
                private eq_refl) as H.
  cbn zeta in H. destruct H as (H1 & H2 & _).
  pose proof (teacher_totals_sum private_only_settings true [Int 30; Int 60] "tina"
                [(Int 60, ({| attended := 3; noShow := 1; cancelled := 2;
                              late := 1; studentNoShow := 1 |}, zeroBucket))]
                private eq_refl) as H'.
  cbn zeta in H'. destruct H' as (_ & _ & H3).
  split; [|split; [|split; [reflexivity|]]].
  - etransitivity; [exact H1|]. vm_compute. reflexivity.
  - etransitivity; [exact H2|]. vm_compute. reflexivity.
  - destruct H3 as [H3 H4].
    + reflexivity.
    + intros d [<-|[<-|[]]].
      * split; [vm_compute; intuition discriminate|].
        exists 30. split; [reflexivity|vm_compute; discriminate].
      * split; [vm_compute; intuition discriminate|].
        exists 60. split; [reflexivity|vm_compute; discriminate].
    + vm_compute. discriminate.
    + split.
      * etransitivity; [exact H3|]. vm_compute. reflexivity.
      * etransitivity; [exact H4|]. vm_compute. reflexivity.
Defined.

(** C1: when no teacher username is a name objects inherit, the data row
    of every teacher holds, for every duration of the report and every
    type the filter lets through, as [netCount] the value of
    [attended - late (when penalised) + cancelled (private, when paid)
     - studentNoShow * (1 - rate/100 when student no-shows are paid, else 1)]
    computed in double precision over the counters of the classes of that
    teacher, duration and type, and rounded to two decimals.  For a rate
    within [[0, 100]] and counters up to [2^20] it is the double of a
    hundredth within half a hundredth (and the error of the double
    operations, at most [2^-29]) of the exact value: a nearest hundredth
    when the rate has at most two decimals, and the rounding of the exact
    value unless that lies halfway between two hundredths.  Without pay
    for student no-shows it is the exact value, a whole number. *)
Theorem netCount_emitted :
  forall (Date_ms : string -> option Z) (data : object Class)
         (settings : Settings) (simpleReport : bool)
         (teacher : string) (type : ClassType) (i : nat) (d : jsnum),
    let report :=
      aggregate settings (creditCancellations Date_ms settings) data in
    let durations := sort_durations (snd report) in
    (forall k cls t,
        In (k, cls) data -> teacher_username cls = Some t -> inherited t = false) ->
    teacher <> EmptyString ->
    (exists k cls,
        In (k, cls) data /\ teacher_username cls = Some teacher
        /\ filter_excludes (classTypeFilter settings) (class_type cls) = false) ->
    filter_excludes (classTypeFilter settings) type = false ->
    nth_error durations i = Some d ->
    let bucket := session_counters Date_ms settings teacher d type data in
    let exact := exact_netCount settings type bucket in
    exists row,
      In row (buildTeacherHourCountCSV Date_ms data settings simpleReport)
      /\ nth_error row 0 = Some (Text teacher)
      /\ nth_error row
           (netCount_index (classTypeFilter settings) simpleReport
                           (List.length durations) type i)
         = Some (Double (netCount settings type bucket))
      /\ ((0 <= studentNoShowRate settings <= 100)%Q -> moderate bucket ->
          exists n : Z,
            netCount settings type bucket = binary64 (inject_Z n / 100)
            /\ (Qabs (inject_Z n / 100 - exact) <= (1 # 200) + pow2 (-29))%Q
            /\ ((exists p : Z, (studentNoShowRate settings == inject_Z p / 100)%Q) ->
                (Qabs (inject_Z n / 100 - exact) <= 1 # 200)%Q)
            /\ ((Qabs (inject_Z n / 100 - exact) < 1 # 200)%Q ->
                (inject_Z n / 100 == toFixed2 exact)%Q))
      /\ (payStudentNoShow settings = false -> moderate bucket ->
          netCount settings type bucket
          = d_of_Z (whole_netCount settings type bucket)
          /\ (inject_Z (whole_netCount settings type bucket) == exact)%Q).
Proof.
  intros D data settings simple teacher type i d report durations
         _ Hne (k & cls & Hin & Ht & Hc) Hf Hd bucket exact.
  destruct (aggregate_teachers settings (creditCancellations D settings)
              (map snd data) ([], [])) as [N I]; [constructor|].
  fold (aggregate settings (creditCancellations D settings) data) in N, I.
  fold report in N, I.
  assert (Hkey : In teacher (map fst (fst report))).
  { apply I. right.
    exists cls, (minutes_of (scheduledDuration cls)), (class_type cls).
    split; [apply in_map_iff; exists (k, cls); auto|].
    unfold assigned. rewrite Ht, Hc.
    apply truthy_nonempty in Hne. rewrite Hne. reflexivity. }
  apply in_map_iff in Hkey. destruct Hkey as [[t durationBuckets] [Et Hent]].
  cbn [fst] in Et. subst t.
  assert (Hb : bucketFor durationBuckets d type = bucket).
  { pose proof (In_aget_NoDup _ _ _ N Hent) as Hget.
    pose proof (bucketAt_sessions D settings data teacher d type) as Hs.
    fold report in Hs. rewrite session_counters_fold in Hs.
    unfold bucketAt, get_or in Hs. unfold obj_get in Hget. rewrite Hget in Hs.
    exact Hs. }
  exists (teacherRow settings simple durations teacher durationBuckets).
  split.
  { unfold buildTeacherHourCountCSV. fold report. fold durations.
    destruct report as [teacherReports durationsSet] eqn:E.
    apply in_map_iff. exists (teacher, durationBuckets). split; [reflexivity|].
    exact Hent. }
  split; [apply teacherRow_head|].
  split.
  { rewrite <- Hb. now apply teacherRow_netCount. }
  split.
  - intros HR Hm.
    destruct (netCount_hundredths settings type bucket HR Hm) as (n & E1 & E2 & E3).
    exists n. split; [exact E1|]. split; [exact E2|]. split; [exact E3|].
    intros Hlt. symmetry. now apply toFixed2_unique.
  - intros Hp Hm. split; [now apply netCount_whole|].
    unfold exact, exact_netCount, whole_netCount, Z.sub. rewrite Hp.
    destruct (penaliseTardiness settings), type;
      try destruct (payLastMinuteCancellation settings);
      rewrite ?inject_Z_plus, ?inject_Z_opp; change (inject_Z 0) with 0%Q; ring.
Qed.

(** In the scenario, with 47.5 % paid for a student no-show and no penalty
    for tardiness, the exact net count is 0.475 and the double arithmetic
    gives 0.47499999999999997: the cell holds 0.47, a hundredth half a
    hundredth away. *)
Lemma netCount_emitted_witness :
  let data := processData isoDate scenario_classes scenario_participants in
  let exact :=
    exact_netCount halfway_settings private
      (session_counters isoDate halfway_settings "tina" (Int 60) private data) in
  exists row,
    In row (buildTeacherHourCountCSV isoDate data halfway_settings false)
    /\ nth_error row 0 = Some (Text "tina")
    /\ nth_error row 6 = Some (Double (binary64 (47 # 100)))
    /\ (exact == 475 # 1000)%Q
    /\ exists n : Z,
         nth_error row 6 = Some (Double (binary64 (inject_Z n / 100)))
         /\ (Qabs (inject_Z n / 100 - exact) <= 1 # 200)%Q.
Proof.
  intros data exact.
  destruct (netCount_emitted isoDate data halfway_settings false
              "tina"%string private 0%nat (Int 60))
    as (row & Hrow & Hhd & Hnth & Hnum & _).
  - intros k cls t H. vm_compute in H.
    destruct H as [H|[]]. injection H as _ <-. intros [= <-]. reflexivity.
  - discriminate.
  - eexists. eexists. split; [vm_compute; left; reflexivity|].
    split; reflexivity.
  - reflexivity.
  - vm_compute. reflexivity.
  - exists row. split; [exact Hrow|]. split; [exact Hhd|].
    split; [|split; [vm_compute; reflexivity|]].
    + vm_compute in Hnth. vm_compute. exact Hnth.
    + destruct Hnum as (n & En & _ & Hn & _).
      * split; vm_compute; discriminate.
      * vm_compute. intuition discriminate.
      * exists n. split.
        -- etransitivity; [exact Hnth|]. now rewrite En.
        -- apply Hn. exists 4750%Z. reflexivity.
Defined.
